(** * VoxelMorph MICCAI 2018 training driver: a shallow embedding

    The development follows [src/train_miccai2018.py]: the function [train]
    and the command-line parser of the [__main__] block.  The Python and
    framework primitives the script calls ([os.path], [glob], [random],
    [numpy], Keras) are modelled first, each next to the behaviour it has in
    the library it comes from; [train] itself is then transcribed line by line
    in a state-and-exception monad over an explicit world. *)

From Stdlib Require Import Ascii String ZArith QArith DecimalString DecimalN DecimalZ.
From stdpp Require Import gmap strings list fin_maps.

Open Scope string_scope.
Open Scope Z_scope.
Open Scope list_scope.

(** ** Python strings and integers *)

Module Py.

(** [str(n)] for an [int]. *)
Definition str (z : Z) : string := NilZero.string_of_int (Z.to_int z).

(** [int(s)]: an optional sign followed by decimal digits. *)
Definition int (s : string) : option Z :=
  match s with
  | String "+"%char s' =>
      match s' with
      | String "-"%char _ | String "+"%char _ => None
      | _ => Z.of_int <$> NilZero.int_of_string s'
      end
  | _ => Z.of_int <$> NilZero.int_of_string s
  end.

(** ['%02d' % n], which is also ['{epoch:02d}'.format(epoch=n)]: the decimal
    representation, filled with zeros on the left up to two characters. *)
Definition format_02d (z : Z) : string :=
  let s := str z in
  if (String.length s <? 2)%nat then "0" +:+ s else s.

Definition startswith (s p : string) : bool := String.prefix p s.

Fixpoint endswith (s p : string) : bool :=
  if String.eqb s p then true
  else match s with
       | EmptyString => false
       | String _ s' => endswith s' p
       end.

(** [s.rstrip('/')] *)
Fixpoint rstrip_sep (s : string) : string :=
  match s with
  | EmptyString => EmptyString
  | String c s' =>
      let r := rstrip_sep s' in
      if String.eqb r "" && Ascii.eqb c "/"%char then "" else String c r
  end.

Fixpoint all_sep (s : string) : bool :=
  match s with
  | EmptyString => true
  | String c s' => Ascii.eqb c "/"%char && all_sep s'
  end.

Fixpoint contains (c : ascii) (s : string) : bool :=
  match s with
  | EmptyString => false
  | String c' s' => Ascii.eqb c c' || contains c s'
  end.

Fixpoint strip_prefix (p s : string) : option string :=
  match p, s with
  | EmptyString, _ => Some s
  | String a p', String b s' => if Ascii.eqb a b then strip_prefix p' s' else None
  | String _ _, EmptyString => None
  end.

Definition is_digit (c : ascii) : bool :=
  (48 <=? N_of_ascii c)%N && (N_of_ascii c <=? 57)%N.

Fixpoint all_digits (s : string) : bool :=
  match s with
  | EmptyString => true
  | String c s' => is_digit c && all_digits s'
  end.

(** The value of a string of decimal digits, read after the digits [acc]. *)
Fixpoint digits_value (acc : N) (s : string) : N :=
  match s with
  | EmptyString => acc
  | String c s' => digits_value (10 * acc + (N_of_ascii c - 48))%N s'
  end.

(** [s.partition(c)]: the text before and after the first [c]. *)
Fixpoint partition (c : ascii) (s : string) : string * option string :=
  match s with
  | EmptyString => (EmptyString, None)
  | String a s' =>
      if Ascii.eqb a c then (EmptyString, Some s')
      else let '(h, t) := partition c s' in (String a h, t)
  end.

Definition unsigned (s : string) : bool * string :=
  match s with
  | String "-"%char s' => (true, s')
  | String "+"%char s' => (false, s')
  | _ => (false, s)
  end.

(** [float(s)] for a decimal literal: sign, digits with an optional point,
    optional exponent.  [inf], [nan], underscores and blanks are not
    modelled. *)
Definition float (s : string) : option Q :=
  let '(mant, expo) :=
    match partition "e"%char s with
    | (m, Some e) => (m, Some e)
    | (_, None) => partition "E"%char s
    end in
  let '(neg, mant) := unsigned mant in
  let '(ip, fp) := partition "."%char mant in
  let fp := default "" fp in
  let exp10 :=
    match expo with
    | None => Some 0
    | Some e =>
        let '(eneg, ed) := unsigned e in
        if all_digits ed && negb (String.eqb ed "") then
          Some (if eneg then - Z.of_N (digits_value 0 ed)
                else Z.of_N (digits_value 0 ed))
        else None
    end in
  match exp10 with
  | Some e =>
      if all_digits ip && all_digits fp
         && negb (String.eqb (ip +:+ fp) "") then
        let m := Z.of_N (digits_value 0 (ip +:+ fp)) in
        let m := if neg then - m else m in
        let e := e - Z.of_nat (String.length fp) in
        Some (if 0 <=? e then Qmake (m * 10 ^ e) 1
              else Qmake m (Z.to_pos (10 ^ (- e))))
      else None
  | None => None
  end.

End Py.

(** ** [os.path] (posixpath) *)

Module OsPath.

Definition sep : string := "/".

(** [os.path.join(a, b)] *)
Definition join (a b : string) : string :=
  if Py.startswith b sep then b
  else if String.eqb a "" || Py.endswith a sep then a +:+ b
  else a +:+ sep +:+ b.

(** [p[:i], p[i:]] with [i = p.rfind('/') + 1]; [None] when [p] has no
    separator. *)
Fixpoint rsplit_sep (p : string) : option (string * string) :=
  match p with
  | EmptyString => None
  | String c p' =>
      match rsplit_sep p' with
      | Some (h, t) => Some (String c h, t)
      | None => if Ascii.eqb c "/"%char then Some (sep, p') else None
      end
  end.

(** [os.path.split(p)] *)
Definition split (p : string) : string * string :=
  match rsplit_sep p with
  | None => ("", p)
  | Some (head, tail) =>
      (if Py.all_sep head then head else Py.rstrip_sep head, tail)
  end.

(** The name the operating system resolves a path to, as far as the model
    goes: trailing separators are dropped.  Components [.] and [..], repeated
    separators and links are not resolved; two spellings of one path are two
    names. *)
Definition norm (p : string) : string :=
  if String.eqb p "" then ""
  else if Py.all_sep p then sep
  else Py.rstrip_sep p.

End OsPath.

(** ** [fnmatch] and [glob] patterns *)

Module Fnmatch.

(** [fnmatch.fnmatchcase(name, pat)] for patterns made of literal characters,
    [*] and [?].  Bracket expressions are not modelled: a [[] in a pattern is
    matched literally. *)
Fixpoint matches (pat : list ascii) (name : list ascii) : bool :=
  match pat with
  | [] => match name with [] => true | _ => false end
  | p :: pat' =>
      if Ascii.eqb p "*"%char then
        (fix star (s : list ascii) : bool :=
           matches pat' s ||
           match s with
           | [] => false
           | _ :: s' => star s'
           end) name
      else
        match name with
        | [] => false
        | c :: name' =>
            (Ascii.eqb p "?"%char || Ascii.eqb p c) && matches pat' name'
        end
  end.

Definition fnmatch (name pat : string) : bool :=
  matches (list_ascii_of_string pat) (list_ascii_of_string name).

(** [glob.has_magic]: the pattern contains one of [*], [?], [[]. *)
Definition has_magic (s : string) : bool :=
  Py.contains "*"%char s || Py.contains "?"%char s || Py.contains "["%char s.

(** [glob._ishidden] *)
Definition ishidden (s : string) : bool := Py.startswith s ".".

End Fnmatch.

(** ** Values, exceptions and the file system *)

(** A Python value as the parser and [train] see it.  A [float] is taken as
    the rational its decimal literal denotes (rounding to binary64 is not
    modelled). *)
Inductive pyval :=
| PyStr (s : string)
| PyInt (z : Z)
| PyFloat (q : Q)
| PyNone.

Inductive exn :=
| AssertionError (msg : string)
| FileNotFoundError (path : string)
| FileExistsError (path : string)
| IsADirectoryError (path : string)
| NotADirectoryError (path : string)
| KeyError (key : string)
| IndexError
| ValueError (msg : string)
| FrameworkError (msg : string)
| TypeError (msg : string)
| SystemExit (code : Z).

(** What a regular file holds: a numpy archive of named arrays (shape and
    row-major data), a single saved array, a Keras model file, or anything
    else. *)
Inductive content :=
| Npz (arrays : list (string * (list nat * list Q)))
| Npy (shape : list nat) (data : list Q)
| H5 (weights : list Q)
| Raw.

Inductive node :=
| Dir
| File (c : content).

Module Fs.

(** The file system maps the name of every existing path to its node; the
    entries of a directory are the names directly below it. *)
Definition lookup (fs : gmap string node) (p : string) : option node :=
  if String.eqb p "" then None else fs !! OsPath.norm p.

Definition isdir (fs : gmap string node) (p : string) : bool :=
  match lookup fs p with
  | Some Dir => true
  | _ => false
  end.

Definition lexists (fs : gmap string node) (p : string) : bool :=
  match lookup fs p with
  | Some _ => true
  | None => false
  end.

(** An entry can be created at [p] when the directory it goes into exists; a
    relative name without separator goes into the working directory. *)
Definition parent_ok (fs : gmap string node) (p : string) : bool :=
  let d := fst (OsPath.split (OsPath.norm p)) in
  String.eqb d "" || isdir fs d.

(** Going up from [p], the first path that exists is a regular file: the
    system then reports that a component of [p] is not a directory
    ([ENOTDIR]) and not that [p] is missing ([ENOENT]). *)
Fixpoint under_file (fuel : nat) (fs : gmap string node) (p : string) : bool :=
  match fuel with
  | O => false
  | S fuel' =>
      let d := fst (OsPath.split p) in
      if String.eqb d "" || String.eqb d p then false
      else match lookup fs d with
           | Some (File _) => true
           | Some Dir => false
           | None => under_file fuel' fs d
           end
  end.

Definition below_file (fs : gmap string node) (p : string) : bool :=
  under_file (String.length p) fs (OsPath.norm p).

(** The error for a path that does not exist. *)
Definition missing (fs : gmap string node) (p : string) : exn :=
  if below_file fs p then NotADirectoryError p else FileNotFoundError p.

(** [os.mkdir(p)] *)
Definition mkdir (fs : gmap string node) (p : string) : exn + gmap string node :=
  if String.eqb p "" then inl (FileNotFoundError p)
  else match lookup fs p with
       | Some _ => inl (FileExistsError p)
       | None =>
           if parent_ok fs p then inr (<[OsPath.norm p := Dir]> fs)
           else inl (missing fs p)
       end.

(** Opening [p] for reading. *)
Definition read (fs : gmap string node) (p : string) : exn + content :=
  match lookup fs p with
  | None => inl (missing fs p)
  | Some Dir => inl (IsADirectoryError p)
  | Some (File c) =>
      if Py.endswith p OsPath.sep then inl (NotADirectoryError p) else inr c
  end.

(** Creating or truncating the regular file [p] and writing [c] to it. *)
Definition write (fs : gmap string node) (p : string) (c : content)
  : exn + gmap string node :=
  match lookup fs p with
  | Some Dir => inl (IsADirectoryError p)
  | Some (File _) =>
      if Py.endswith p OsPath.sep then inl (NotADirectoryError p)
      else inr (<[OsPath.norm p := File c]> fs)
  | None =>
      if String.eqb p "" || Py.endswith p OsPath.sep then inl (FileNotFoundError p)
      else if parent_ok fs p then inr (<[OsPath.norm p := File c]> fs)
      else inl (missing fs p)
  end.

Definition dir_prefix (d : string) : string :=
  if String.eqb d "." then ""
  else if Py.endswith d OsPath.sep then d
  else d +:+ OsPath.sep.

Definition is_entry_name (n : string) : bool :=
  negb (String.eqb n "") && negb (Py.contains "/"%char n)
  && negb (String.eqb n ".") && negb (String.eqb n "..").

Definition entry_of (d key : string) : option string :=
  match Py.strip_prefix (dir_prefix d) key with
  | Some n => if is_entry_name n then Some n else None
  | None => None
  end.

(** [os.listdir(d)] as [glob] uses it: the entries of [d] in the order the
    system reports them, and no entry when [d] cannot be listed. *)
Definition listdir (fs : gmap string node) (d : string) : list string :=
  if String.eqb d "." || isdir fs d
  then omap (entry_of d) (map_to_list fs).*1
  else [].

End Fs.

(** ** [glob.glob] *)

Module Glob.

(** [glob.glob0]: a literal last component. *)
Definition glob0 (fs : gmap string node) (dirname basename : string) : list string :=
  if String.eqb basename "" then
    if Fs.isdir fs dirname then [basename] else []
  else
    if Fs.lexists fs (OsPath.join dirname basename) then [basename] else [].

(** [glob.glob1]: the entries of [dirname] that match [pattern]; hidden
    entries only when the pattern itself starts with a dot. *)
Definition glob1 (fs : gmap string node) (dirname pattern : string) : list string :=
  let names := Fs.listdir fs dirname in
  let names :=
    if Fnmatch.ishidden pattern then names
    else filter (fun x => Fnmatch.ishidden x = false) names in
  filter (fun x => Fnmatch.fnmatch x pattern = true) names.

Fixpoint iglob (fuel : nat) (fs : gmap string node) (pathname : string)
  : list string :=
  match fuel with
  | O => []
  | S fuel' =>
      let '(dirname, basename) := OsPath.split pathname in
      if negb (Fnmatch.has_magic pathname) then
        if negb (String.eqb basename "") then
          if Fs.lexists fs pathname then [pathname] else []
        else
          if Fs.isdir fs dirname then [pathname] else []
      else if String.eqb dirname "" then
        glob1 fs "." basename
      else
        let dirs :=
          if negb (String.eqb dirname pathname) && Fnmatch.has_magic dirname
          then iglob fuel' fs dirname
          else [dirname] in
        let glob_in_dir :=
          if Fnmatch.has_magic basename then glob1 else glob0 in
        flat_map (fun d => OsPath.join d <$> glob_in_dir fs d basename) dirs
  end.

(** [glob.glob(pathname)]; every recursive call is on a strictly shorter
    path, so the length of the path is enough fuel. *)
Definition glob (fs : gmap string node) (pathname : string) : list string :=
  iglob (S (String.length pathname)) fs pathname.

End Glob.

(** ** [str.format] on a checkpoint path template *)

Module Format.

Inductive mode :=
| Lit                       (* literal text *)
| AfterOpen                 (* one '{' read in literal text *)
| AfterClose                (* one '}' read in literal text *)
| InField (name : string).  (* inside a replacement field *)

(** The replacement fields Keras fills for this script: [epoch], with or
    without the format specification [02d].  Other field names, conversions
    and specifications are not modelled and raise. *)
Definition field (name : string) (epoch : Z) : exn + string :=
  if String.eqb name "epoch" then inr (Py.str epoch)
  else if String.eqb name "epoch:02d" then inr (Py.format_02d epoch)
  else if String.eqb name "" then inl IndexError
  else inl (KeyError name).

Fixpoint scan (m : mode) (s : string) (epoch : Z) : exn + string :=
  match s with
  | EmptyString =>
      match m with
      | Lit => inr ""
      | AfterClose => inl (ValueError "Single '}' encountered in format string")
      | _ => inl (ValueError "expected '}' before end of string")
      end
  | String c s' =>
      let emit (x : string) (k : exn + string) : exn + string :=
        match k with
        | inl e => inl e
        | inr r => inr (x +:+ r)
        end in
      match m with
      | Lit =>
          if Ascii.eqb c "{"%char then scan AfterOpen s' epoch
          else if Ascii.eqb c "}"%char then scan AfterClose s' epoch
          else emit (String c "") (scan Lit s' epoch)
      | AfterOpen =>
          if Ascii.eqb c "{"%char then emit "{" (scan Lit s' epoch)
          else if Ascii.eqb c "}"%char then
            match field "" epoch with
            | inl e => inl e
            | inr v => emit v (scan Lit s' epoch)
            end
          else scan (InField (String c "")) s' epoch
      | AfterClose =>
          if Ascii.eqb c "}"%char then emit "}" (scan Lit s' epoch)
          else inl (ValueError "Single '}' encountered in format string")
      | InField name =>
          if Ascii.eqb c "}"%char then
            match field name epoch with
            | inl e => inl e
            | inr v => emit v (scan Lit s' epoch)
            end
          else if Ascii.eqb c "{"%char then
            inl (ValueError "unexpected '{' in field name")
          else scan (InField (name +:+ String c "")) s' epoch
      end
  end.

(** [template.format(epoch=epoch)] *)
Definition format (template : string) (epoch : Z) : exn + string :=
  scan Lit template epoch.

End Format.

(** ** Arrays, models and the world *)

(** An array object is a view on a buffer of the heap: slicing and
    [np.newaxis] make a new view on the same buffer, [np.repeat] a new
    buffer. *)
Record ndarray := { buf : nat; shape : list nat }.

Inductive npobj :=
| NpzFile (arrays : list (string * (list nat * list Q)))
| NdArray (a : ndarray).

(** Modelled from the spec: the class [losses.Miccai2018] (module [losses] is
    not part of the sources at hand) holds the image-noise parameter and the
    prior strength, and offers the two loss operations [recon_loss] and
    [kl_loss]. *)
Record Miccai2018 := { image_sigma : pyval; prior_lambda : pyval }.

Inductive LossFn :=
| recon_loss (loss_class : Miccai2018)
| kl_loss (loss_class : Miccai2018).

Inductive Optimizer :=
| Adam (lr : pyval).

Record Model := {
  weights : list Q;
  compiled : option (Optimizer * list LossFn)
}.

Record ConfigProto := { allow_growth : bool; allow_soft_placement : bool }.

(** Modelled from the spec: the volume data source (module [datagenerators]
    is not part of the sources at hand) "yields paired (moving volume, fixed
    atlas volume) tensors of fixed shape, repeated to batch size". *)
Record ExampleGen := { vol_names : list string; eg_batch_size : Z }.

Record Miccai2018Gen := {
  gen : ExampleGen;
  atlas_vol_bs : ndarray;
  mg_batch_size : Z
}.

Record Batch := { moving : ndarray; fixed : ndarray }.

Inductive Callback :=
| ModelCheckpoint (filepath : string).

Inductive Event :=
| EvNpLoad (path : string)
| EvGlob (pattern : string)
| EvShuffle (n : nat)
| EvMkdir (path : string)
| EvSetEnv (key value : string)
| EvSetSession (config : ConfigProto)
| EvDeviceEnter (device : string)
| EvDeviceExit (device : string)
| EvBuildNet (vol_size nf_enc nf_dec : list nat)
| EvLoadWeights (path : string)
| EvSave (path : string)
| EvCompile (optimizer : Optimizer) (losses : list LossFn)
| EvNpRepeat (a : ndarray) (repeats : Z)
| EvNextBatch
| EvTrainOnBatch (b : Batch)
| EvEpochBegin (epoch : Z).

(** The world a run acts on.  [rng] is the stream the process-wide random
    generators draw from and [rng_pos] the number of draws made so far; the
    script never seeds it.  [trace] records every call into the environment,
    oldest first, at the moment the call is made. *)
Record World := {
  fs : gmap string node;
  environ : gmap string string;
  session : option ConfigProto;
  heap : gmap nat (list Q);
  rng : nat -> nat;
  rng_pos : nat;
  trace : list Event
}.

(** What the script takes from the framework and from the project modules
    that are not part of the sources at hand. *)
Record Framework := {
  (** [networks.miccai2018_net(vol_size, nf_enc, nf_dec)]: the initial
      weights of the network, when it can be built. *)
  net_init : list nat -> list nat -> list nat -> option (list Q);
  (** One draw of [datagenerators.example_gen]: the moving volumes of a
      batch, read from the named files. *)
  read_volumes : gmap string node -> list string -> Z -> nat ->
                 option (list nat * list Q);
  (** One optimisation step of the compiled model on a batch.  It may write
      to the buffers of the arrays it is handed. *)
  train_step : Model -> gmap nat (list Q) -> Batch ->
               option (list Q * gmap nat (list Q))
}.

(** A framework respects the frame when a step leaves every buffer alone that
    is not a buffer of its batch. *)
Definition frame_ok (fw : Framework) : Prop :=
  forall m h b w' h' (l : nat),
    train_step fw m h b = Some (w', h') ->
    l <> buf (moving b) -> l <> buf (fixed b) -> h' !! l = h !! l.

(** ** The monad of a run: state, and exceptions that keep the state *)

Definition M (A : Type) : Type := World -> World * (exn + A).

Definition ret {A} (a : A) : M A := fun w => (w, inr a).

Definition raise {A} (e : exn) : M A := fun w => (w, inl e).

Definition bind {A B} (m : M A) (f : A -> M B) : M B :=
  fun w =>
    match m w with
    | (w', inl e) => (w', inl e)
    | (w', inr a) => f a w'
    end.

Notation "x <- c1 ;; c2" := (bind c1 (fun x => c2))
  (at level 100, c1 at next level, right associativity).
Notation "c1 ;; c2" := (bind c1 (fun _ => c2))
  (at level 100, right associativity).

Definition set_fs (x : gmap string node) (w : World) : World :=
  {| fs := x; environ := environ w; session := session w; heap := heap w;
     rng := rng w; rng_pos := rng_pos w; trace := trace w |}.

Definition set_environ (x : gmap string string) (w : World) : World :=
  {| fs := fs w; environ := x; session := session w; heap := heap w;
     rng := rng w; rng_pos := rng_pos w; trace := trace w |}.

Definition set_session_field (x : option ConfigProto) (w : World) : World :=
  {| fs := fs w; environ := environ w; session := x; heap := heap w;
     rng := rng w; rng_pos := rng_pos w; trace := trace w |}.

Definition set_heap (x : gmap nat (list Q)) (w : World) : World :=
  {| fs := fs w; environ := environ w; session := session w; heap := x;
     rng := rng w; rng_pos := rng_pos w; trace := trace w |}.

Definition set_rng_pos (x : nat) (w : World) : World :=
  {| fs := fs w; environ := environ w; session := session w; heap := heap w;
     rng := rng w; rng_pos := x; trace := trace w |}.


Definition set_trace (x : list Event) (w : World) : World :=
  {| fs := fs w; environ := environ w; session := session w; heap := heap w;
     rng := rng w; rng_pos := rng_pos w; trace := x |}.

Definition log (ev : Event) : M unit :=
  fun w => (set_trace (trace w ++ [ev]) w, inr tt).

Definition get_fs : M (gmap string node) := fun w => (w, inr (fs w)).

Definition put_fs (fs' : gmap string node) : M unit :=
  fun w => (set_fs fs' w, inr tt).

Definition get_heap : M (gmap nat (list Q)) := fun w => (w, inr (heap w)).

Definition put_heap (h : gmap nat (list Q)) : M unit :=
  fun w => (set_heap h w, inr tt).

Definition lift {A} (r : exn + A) : M A :=
  match r with
  | inl e => raise e
  | inr a => ret a
  end.

(** A fresh buffer holding [data]. *)
Definition alloc (data : list Q) : M nat :=
  h <- get_heap ;;
  let l := fresh (dom h) in
  put_heap (<[l := data]> h) ;;
  ret l.

(** One draw from the random stream. *)
Definition draw : M nat :=
  fun w => (set_rng_pos (S (rng_pos w)) w, inr (rng w (rng_pos w))).

(** ** The primitives [train] calls *)

Module Np.

(** [np.load(path)] *)
Definition load (path : string) : M npobj :=
  log (EvNpLoad path) ;;
  fs <- get_fs ;;
  c <- lift (Fs.read fs path) ;;
  match c with
  | Npz arrays => ret (NpzFile arrays)
  | Npy sh data => l <- alloc data ;; ret (NdArray {| buf := l; shape := sh |})
  | _ => raise (ValueError "Cannot load file")
  end.

Fixpoint assoc {A} (key : string) (l : list (string * A)) : option A :=
  match l with
  | [] => None
  | (k, v) :: l' => if String.eqb k key then Some v else assoc key l'
  end.

(** [obj[key]] for a string key: the named array of an archive, read into a
    buffer of its own. *)
Definition getitem (obj : npobj) (key : string) : M ndarray :=
  match obj with
  | NpzFile arrays =>
      match assoc key arrays with
      | Some (sh, data) => l <- alloc data ;; ret {| buf := l; shape := sh |}
      | None => raise (KeyError key)
      end
  | NdArray _ => raise IndexError
  end.

(** [a[np.newaxis, ..., np.newaxis]]: a view with a leading and a trailing
    axis of length one. *)
Definition newaxis_both (a : ndarray) : ndarray :=
  {| buf := buf a; shape := (1 :: shape a ++ [1])%nat |}.

(** [shape[1:-1]] *)
Definition slice_1_m1 (sh : list nat) : list nat := removelast (tail sh).

Definition prod (sh : list nat) : nat := foldr Nat.mul 1%nat sh.

(** Row-major data of [n] blocks of [sz] elements, each block [reps] times
    in a row. *)
Fixpoint repeat_blocks (n sz reps : nat) (data : list Q) : list Q :=
  match n with
  | O => []
  | S n' =>
      concat (replicate reps (take sz data))
      ++ repeat_blocks n' sz reps (drop sz data)
  end.

(** [np.repeat(a, repeats, axis=0)]: a new array. *)
Definition repeat (a : ndarray) (repeats : Z) : M ndarray :=
  log (EvNpRepeat a repeats) ;;
  if repeats <? 0 then raise (ValueError "repeats may not contain negative values")
  else
    h <- get_heap ;;
    match h !! buf a, shape a with
    | Some data, n :: rest =>
        l <- alloc (repeat_blocks n (prod rest) (Z.to_nat repeats) data) ;;
        ret {| buf := l; shape := (n * Z.to_nat repeats)%nat :: rest |}
    | _, _ => raise (ValueError "axis 0 is out of bounds")
    end.

End Np.

Module Random.

Definition swap {A} (x : list A) (i j : nat) : list A :=
  match x !! i, x !! j with
  | Some a, Some b => <[j := a]> (<[i := b]> x)
  | _, _ => x
  end.

(** The loop of [random.shuffle]:
    [for i in reversed(range(1, len(x))): j = randbelow(i + 1);
     x[i], x[j] = x[j], x[i]], started at index [i]; [draws k] is the [k]-th
    number drawn. *)
Fixpoint shuffle_from {A} (i : nat) (draws : nat -> nat) (x : list A) : list A :=
  match i with
  | O => x
  | S i' =>
      let j := (draws O mod (S i))%nat in
      shuffle_from i' (fun k => draws (S k)) (swap x i j)
  end.

(** [random.shuffle(x)]; the list is returned instead of changed in place. *)
Definition shuffle (x : list string) : M (list string) :=
  log (EvShuffle (length x)) ;;
  fun w =>
    (set_rng_pos (rng_pos w + (length x - 1))%nat w,
     inr (shuffle_from (length x - 1) (fun k => rng w (rng_pos w + k)%nat) x)).

End Random.

Definition glob_glob (pathname : string) : M (list string) :=
  log (EvGlob pathname) ;;
  fs <- get_fs ;;
  ret (Glob.glob fs pathname).

(** [assert cond, msg] *)
Definition py_assert (cond : bool) (msg : string) : M unit :=
  if cond then ret tt else raise (AssertionError msg).

Definition os_path_isdir (p : string) : M bool :=
  fs <- get_fs ;; ret (Fs.isdir fs p).

Definition os_mkdir (p : string) : M unit :=
  log (EvMkdir p) ;;
  fs <- get_fs ;;
  fs' <- lift (Fs.mkdir fs p) ;;
  put_fs fs'.

(** [os.environ[key] = value] *)
Definition environ_set (key value : string) : M unit :=
  log (EvSetEnv key value) ;;
  fun w => (set_environ (<[key := value]> (environ w)) w, inr tt).

(** [set_session(tf.Session(config=config))], for a session that
    TensorFlow grants; one it refuses is not modelled. *)
Definition set_session (config : ConfigProto) : M unit :=
  log (EvSetSession config) ;;
  fun w => (set_session_field (Some config) w, inr tt).

(** [with tf.device(d): body]; the device scope is left on every exit. *)
Definition with_device {A} (d : string) (body : M A) : M A :=
  log (EvDeviceEnter d) ;;
  fun w =>
    let '(w', r) := body w in
    (fst (log (EvDeviceExit d) w'), r).

Section Keras.

Variable fw : Framework.

(** [networks.miccai2018_net(vol_size, nf_enc, nf_dec)] *)
Definition miccai2018_net (vol_size nf_enc nf_dec : list nat) : M Model :=
  log (EvBuildNet vol_size nf_enc nf_dec) ;;
  match net_init fw vol_size nf_enc nf_dec with
  | Some w => ret {| weights := w; compiled := None |}
  | None => raise (FrameworkError "miccai2018_net")
  end.

(** [model.load_weights(path)].  The file is opened by [h5py], and the
    class of the error for a file that cannot be opened is that of the file
    system here; [h5py] has its own, which depends on its version. *)
Definition load_weights (model : Model) (path : string) : M Model :=
  log (EvLoadWeights path) ;;
  fs <- get_fs ;;
  c <- lift (Fs.read fs path) ;;
  match c with
  | H5 w => ret {| weights := w; compiled := compiled model |}
  | _ => raise (ValueError "not a model file")
  end.

(** [model.save(path)] *)
Definition save (model : Model) (path : string) : M unit :=
  log (EvSave path) ;;
  fs <- get_fs ;;
  fs' <- lift (Fs.write fs path (H5 (weights model))) ;;
  put_fs fs'.

(** [model.compile(optimizer=..., loss=...)] *)
Definition compile (model : Model) (optimizer : Optimizer) (loss : list LossFn)
  : M Model :=
  log (EvCompile optimizer loss) ;;
  ret {| weights := weights model; compiled := Some (optimizer, loss) |}.

(** [datagenerators.example_gen(vol_names, batch_size=...)]: creating a
    generator runs none of its body. *)
Definition example_gen (vol_names : list string) (batch_size : Z) : ExampleGen :=
  {| vol_names := vol_names; eg_batch_size := batch_size |}.

(** [datagenerators.miccai2018_gen(gen, atlas_vol_bs, batch_size=...)] *)
Definition miccai2018_gen (g : ExampleGen) (atlas_vol_bs : ndarray)
  (batch_size : Z) : Miccai2018Gen :=
  {| gen := g; atlas_vol_bs := atlas_vol_bs; mg_batch_size := batch_size |}.

(** [next(miccai2018_gen)]: the moving volumes of the next batch in a buffer
    of their own, paired with the replicated atlas. *)
Definition next (g : Miccai2018Gen) : M Batch :=
  log EvNextBatch ;;
  fs <- get_fs ;;
  r <- draw ;;
  match read_volumes fw fs (vol_names (gen g)) (eg_batch_size (gen g)) r with
  | Some (sh, data) =>
      l <- alloc data ;;
      ret {| moving := {| buf := l; shape := sh |}; fixed := atlas_vol_bs g |}
  | None => raise (FrameworkError "example_gen")
  end.

(** [model.train_on_batch(x, y)] *)
Definition train_on_batch (model : Model) (b : Batch) : M Model :=
  log (EvTrainOnBatch b) ;;
  match compiled model with
  | None => raise (FrameworkError "model was never compiled")
  | Some _ =>
      h <- get_heap ;;
      match train_step fw model h b with
      | Some (w', h') =>
          put_heap h' ;;
          ret {| weights := w'; compiled := compiled model |}
      | None => raise (FrameworkError "train_on_batch")
      end
  end.

(** [ModelCheckpoint.on_epoch_end(epoch)] with the default arguments (every
    epoch, whole model): the file path is the template formatted with
    [epoch + 1]. *)
Definition on_epoch_end (cb : Callback) (model : Model) (epoch : Z) : M unit :=
  match cb with
  | ModelCheckpoint filepath =>
      p <- lift (Format.format filepath (epoch + 1)) ;;
      save model p
  end.

Fixpoint callbacks_on_epoch_end (cbs : list Callback) (model : Model) (epoch : Z)
  : M unit :=
  match cbs with
  | [] => ret tt
  | cb :: cbs' =>
      on_epoch_end cb model epoch ;; callbacks_on_epoch_end cbs' model epoch
  end.

(** The steps of one epoch: [while steps_done < steps_per_epoch]. *)
Fixpoint fit_steps (n : nat) (model : Model) (g : Miccai2018Gen) : M Model :=
  match n with
  | O => ret model
  | S n' =>
      b <- next g ;;
      model <- train_on_batch model b ;;
      fit_steps n' model g
  end.

(** The epochs: [while epoch < epochs], [n] of them left. *)
Fixpoint fit_epochs (n : nat) (epoch : Z) (model : Model) (g : Miccai2018Gen)
  (callbacks : list Callback) (steps_per_epoch : Z) : M Model :=
  match n with
  | O => ret model
  | S n' =>
      log (EvEpochBegin epoch) ;;
      model <- fit_steps (Z.to_nat steps_per_epoch) model g ;;
      callbacks_on_epoch_end callbacks model epoch ;;
      fit_epochs n' (epoch + 1) model g callbacks steps_per_epoch
  end.

(** [model.fit_generator(g, initial_epoch=..., epochs=..., callbacks=...,
    steps_per_epoch=...)].  Here a batch is drawn when it is used; Keras
    draws batches ahead of their use, through a queue, so that the place of
    a draw among the other calls is not one of the real run. *)
Definition fit_generator (model : Model) (g : Miccai2018Gen)
  (initial_epoch epochs : Z) (callbacks : list Callback) (steps_per_epoch : Z)
  : M Model :=
  fit_epochs (Z.to_nat (epochs - initial_epoch)) initial_epoch model g
    callbacks steps_per_epoch.

(** ** [train]

    The body of [train], block by block under the comments of the source. *)

(** [# load atlas from provided files] (line 54) *)
Definition load_atlas (atlas_file : string) : M ndarray :=
  f <- Np.load atlas_file ;;
  vol <- Np.getitem f "vol" ;;
  ret (Np.newaxis_both vol).

(** [# prepare data files] (lines 60 to 62) *)
Definition prepare_data_files (data_dir : string) : M (list string) :=
  train_vol_names <- glob_glob (OsPath.join data_dir "*.npz") ;;
  train_vol_names <- Random.shuffle train_vol_names ;;
  py_assert (0 <? length train_vol_names)%nat "Could not find any training data" ;;
  ret train_vol_names.

(** [# prepare model folder] (lines 69 and 70) *)
Definition prepare_model_folder (model_dir : string) : M unit :=
  isdir <- os_path_isdir model_dir ;;
  if negb isdir then os_mkdir model_dir else ret tt.

(** [# gpu handling] (lines 73 to 78) *)
Definition gpu_handling (gpu_id : Z) : M string :=
  let gpu := "/gpu:" +:+ Py.str gpu_id in
  environ_set "CUDA_VISIBLE_DEVICES" (Py.str gpu_id) ;;
  let config := {| allow_growth := true; allow_soft_placement := true |} in
  set_session config ;;
  ret gpu.

(** [# prepare the model] (lines 81 to 96) *)
Definition prepare_the_model (gpu : string) (vol_size nf_enc nf_dec : list nat)
  (model_dir : string) (lr prior_lambda image_sigma : pyval)
  (load_model_file : option string) (initial_epoch : Z) : M Model :=
  with_device gpu (
    model <- miccai2018_net vol_size nf_enc nf_dec ;;
    (* load initial weights *)
    model <- match load_model_file with
             | Some file => load_weights model file
             | None => ret model
             end ;;
    (* save first iteration *)
    save model (OsPath.join model_dir (Py.format_02d initial_epoch +:+ ".h5")) ;;
    (* compile *)
    let loss_class :=
      {| image_sigma := image_sigma; prior_lambda := prior_lambda |} in
    let model_losses := [recon_loss loss_class; kl_loss loss_class] in
    compile model (Adam lr) model_losses).

(** [# data generator] (lines 99 to 101) *)
Definition data_generator (train_vol_names : list string) (atlas_vol : ndarray)
  (batch_size : Z) : M Miccai2018Gen :=
  let train_example_gen := example_gen train_vol_names batch_size in
  atlas_vol_bs <- Np.repeat atlas_vol batch_size ;;
  ret (miccai2018_gen train_example_gen atlas_vol_bs batch_size).

(** [# prepare callbacks] and [# fit generator] (lines 104 to 114) *)
Definition fit (gpu : string) (model : Model) (g : Miccai2018Gen)
  (model_dir : string) (initial_epoch nb_epochs steps_per_epoch : Z) : M Model :=
  let save_file_name := OsPath.join model_dir "{epoch:02d}.h5" in
  let save_callback := ModelCheckpoint save_file_name in
  with_device gpu
    (fit_generator model g initial_epoch nb_epochs [save_callback]
       steps_per_epoch).

Definition train (data_dir atlas_file model_dir : string) (gpu_id : Z)
  (lr : pyval) (nb_epochs : Z) (prior_lambda image_sigma : pyval)
  (steps_per_epoch batch_size : Z) (load_model_file : option string)
  (initial_epoch : Z) : M unit :=
  atlas_vol <- load_atlas atlas_file ;;
  let vol_size := Np.slice_1_m1 (shape atlas_vol) in
  train_vol_names <- prepare_data_files data_dir ;;
  (* Diffeomorphic network architecture used in MICCAI 2018 paper *)
  let nf_enc := [16; 32; 32; 32]%nat in
  let nf_dec := [32; 32; 32; 32; 16; 3]%nat in
  prepare_model_folder model_dir ;;
  gpu <- gpu_handling gpu_id ;;
  model <- prepare_the_model gpu vol_size nf_enc nf_dec model_dir lr
             prior_lambda image_sigma load_model_file initial_epoch ;;
  g <- data_generator train_vol_names atlas_vol batch_size ;;
  fit gpu model g model_dir initial_epoch nb_epochs steps_per_epoch ;;
  ret tt.

End Keras.

(** ** The command line (the [__main__] block) *)

Module Argparse.

Inductive ArgType := TStr | TInt | TFloat.

(** One [parser.add_argument(...)] call.  [flag] is the name as written: a
    positional name, or an option string starting with two dashes.  A
    positional has no default. *)
Record Argument := {
  flag : string;
  type : ArgType;
  dest : string;
  default : option pyval;
  help : string
}.

(** The arguments in the order the script adds them (lines 120 to 150). *)
Definition parser : list Argument := [
  {| flag := "data_dir"; type := TStr; dest := "data_dir"; default := None;
     help := "data folder" |};
  {| flag := "--atlas_file"; type := TStr; dest := "atlas_file";
     default := Some (PyStr "../data/atlas_norm.npz");
     help := "gpu id number" |};
  {| flag := "--model_dir"; type := TStr; dest := "model_dir";
     default := Some (PyStr "../models/");
     help := "models folder" |};
  {| flag := "--gpu"; type := TInt; dest := "gpu_id";
     default := Some (PyInt 0);
     help := "gpu id number" |};
  {| flag := "--lr"; type := TFloat; dest := "lr";
     default := Some (PyFloat (1 # 10000));          (* 1e-4 *)
     help := "learning rate" |};
  {| flag := "--epochs"; type := TInt; dest := "nb_epochs";
     default := Some (PyInt 1500);
     help := "number of iterations" |};
  {| flag := "--prior_lambda"; type := TFloat; dest := "prior_lambda";
     default := Some (PyInt 10);
     help := "prior_lambda regularization parameter" |};
  {| flag := "--image_sigma"; type := TFloat; dest := "image_sigma";
     default := Some (PyFloat (2 # 100));            (* 0.02 *)
     help := "image noise parameter" |};
  {| flag := "--steps_per_epoch"; type := TInt; dest := "steps_per_epoch";
     default := Some (PyInt 100);
     help := "frequency of model saves" |};
  {| flag := "--batch_size"; type := TInt; dest := "batch_size";
     default := Some (PyInt 1);
     help := "batch_size" |};
  {| flag := "--load_model_file"; type := TStr; dest := "load_model_file";
     default := Some (PyStr "../models/miccai2018_10_02_init1.h5");
     help := "optional h5 model file to initialize with" |}
].

Definition is_optional (a : Argument) : bool := Py.startswith (flag a) "--".

Definition optionals (p : list Argument) : list Argument :=
  List.filter is_optional p.

Definition positionals (p : list Argument) : list Argument :=
  List.filter (fun a => negb (is_optional a)) p.

(** The type function applied to the text of an argument. *)
Definition convert (t : ArgType) (s : string) : option pyval :=
  match t with
  | TStr => Some (PyStr s)
  | TInt => PyInt <$> Py.int s
  | TFloat => PyFloat <$> Py.float s
  end.

(** The namespace before any argument is read: every default as written.
    (A default that is not a string is stored as it is, whatever the type
    function.) *)
Fixpoint defaults (p : list Argument) : gmap string pyval :=
  match p with
  | [] => ∅
  | a :: p' =>
      match default a with
      | Some v => <[dest a := v]> (defaults p')
      | None => defaults p'
      end
  end.

Inductive resolved :=
| Opt (a : Argument)
| Help
| Unknown
| Ambiguous.

(** The option an option string stands for: the option with that exact
    string, or else the only option the string is a prefix of. *)
Definition resolve (p : list Argument) (name : string) : resolved :=
  if String.eqb name "--help" then Help
  else
    match List.filter (fun a => String.eqb (flag a) name) (optionals p) with
    | a :: _ => Opt a
    | [] =>
        match List.filter (fun a => Py.startswith (flag a) name) (optionals p),
              Py.startswith "--help" name with
        | [a], false => Opt a
        | [], true => Help
        | [], false => Unknown
        | _, _ => Ambiguous
        end
    end.

(** [-5] and [-.5] are arguments, not options. *)
Definition negative_number_like (tok : string) : bool :=
  match tok with
  | String "-"%char s =>
      let '(ip, fp) := Py.partition "."%char s in
      match fp with
      | None => Py.all_digits ip && negb (String.eqb ip "")
      | Some f => Py.all_digits ip && Py.all_digits f && negb (String.eqb f "")
      end
  | _ => false
  end.

Definition looks_like_option (tok : string) : bool :=
  Py.startswith tok "-" && negb (String.eqb tok "-")
  && negb (negative_number_like tok).

Record state := {
  ns : gmap string pyval;       (* the namespace so far *)
  args : list string;           (* arguments that belong to no option *)
  extras : list string;         (* option strings nobody knows *)
  pending : option Argument;    (* an option waiting for its argument *)
  only_args : bool              (* a lone [--] was read *)
}.

Definition store (a : Argument) (text : string) (st : state) : exn + state :=
  match convert (type a) text with
  | Some v =>
      inr {| ns := <[dest a := v]> (ns st); args := args st;
             extras := extras st; pending := None; only_args := only_args st |}
  | None => inl (SystemExit 2)
  end.

(** One command-line token. *)
Definition step (p : list Argument) (st : state) (tok : string) : exn + state :=
  match pending st with
  | Some a =>
      if looks_like_option tok then inl (SystemExit 2) else store a tok st
  | None =>
      if only_args st || negb (looks_like_option tok) then
        inr {| ns := ns st; args := args st ++ [tok]; extras := extras st;
               pending := None; only_args := only_args st |}
      else if String.eqb tok "--" then
        inr {| ns := ns st; args := args st; extras := extras st;
               pending := None; only_args := true |}
      else if String.eqb tok "-h" then inl (SystemExit 0)
      else if Py.startswith tok "--" then
        let '(name, explicit) := Py.partition "="%char tok in
        match resolve p name with
        | Help => inl (SystemExit 0)
        | Ambiguous => inl (SystemExit 2)
        | Unknown =>
            inr {| ns := ns st; args := args st; extras := extras st ++ [tok];
                   pending := None; only_args := only_args st |}
        | Opt a =>
            match explicit with
            | Some text => store a text st
            | None =>
                inr {| ns := ns st; args := args st; extras := extras st;
                       pending := Some a; only_args := only_args st |}
            end
        end
      else
        inr {| ns := ns st; args := args st; extras := extras st ++ [tok];
               pending := None; only_args := only_args st |}
  end.

Fixpoint steps (p : list Argument) (st : state) (argv : list string)
  : exn + state :=
  match argv with
  | [] => inr st
  | tok :: argv' =>
      match step p st tok with
      | inl e => inl e
      | inr st' => steps p st' argv'
      end
  end.

(** The arguments left over go to the positionals in order, one each. *)
Fixpoint bind_positionals (ps : list Argument) (texts : list string)
  (n : gmap string pyval) : exn + gmap string pyval :=
  match ps, texts with
  | [], [] => inr n
  | a :: ps', t :: texts' =>
      match convert (type a) t with
      | Some v => bind_positionals ps' texts' (<[dest a := v]> n)
      | None => inl (SystemExit 2)
      end
  | _, _ => inl (SystemExit 2)
  end.

(** [parser.parse_args(argv)] followed by [vars(args)]: the namespace as a
    dictionary, or the exit of the process.  Clusters of one-dash options and
    tokens with blanks are not modelled. *)
Definition parse_args (p : list Argument) (argv : list string)
  : exn + gmap string pyval :=
  match steps p {| ns := defaults p; args := []; extras := [];
                   pending := None; only_args := false |} argv with
  | inl e => inl e
  | inr st =>
      match pending st, extras st with
      | None, [] => bind_positionals (positionals p) (args st) (ns st)
      | _, _ => inl (SystemExit 2)
      end
  end.

End Argparse.

Section Main.

Variable fw : Framework.

(** The call of [train] with the namespace unpacked: its entries become the
    keyword arguments of [train]; [initial_epoch] keeps its default [0]. *)
Definition call_train (kw : gmap string pyval) : M unit :=
  match kw !! "data_dir", kw !! "atlas_file", kw !! "model_dir",
        kw !! "gpu_id", kw !! "lr", kw !! "nb_epochs",
        kw !! "prior_lambda", kw !! "image_sigma",
        kw !! "steps_per_epoch", kw !! "batch_size",
        kw !! "load_model_file" with
  | Some (PyStr data_dir), Some (PyStr atlas_file), Some (PyStr model_dir),
    Some (PyInt gpu_id), Some lr, Some (PyInt nb_epochs),
    Some prior_lambda, Some image_sigma,
    Some (PyInt steps_per_epoch), Some (PyInt batch_size),
    Some load_model_file =>
      match load_model_file with
      | PyNone =>
          train fw data_dir atlas_file model_dir gpu_id lr nb_epochs
            prior_lambda image_sigma steps_per_epoch batch_size None 0
      | PyStr file =>
          train fw data_dir atlas_file model_dir gpu_id lr nb_epochs
            prior_lambda image_sigma steps_per_epoch batch_size (Some file) 0
      | _ => raise (TypeError "load_model_file")
      end
  | _, _, _, _, _, _, _, _, _, _, _ => raise (TypeError "train")
  end.

(** The script run with the command-line arguments [argv]. *)
Definition main (argv : list string) : M unit :=
  kw <- lift (Argparse.parse_args Argparse.parser argv) ;;
  call_train kw.

End Main.

(** ** Vocabulary of the statements *)

(** The atlas as [np.load(f)['vol']] finds it in the file system: the shape
    and the data of the array [vol] of the archive [f]. *)
Definition read_atlas (fs : gmap string node) (f : string)
  : exn + (list nat * list Q) :=
  match Fs.read fs f with
  | inl e => inl e
  | inr (Npz arrays) =>
      match Np.assoc "vol" arrays with
      | Some a => inr a
      | None => inl (KeyError "vol")
      end
  | inr (Npy _ _) => inl IndexError
  | inr _ => inl (ValueError "Cannot load file")
  end.

(** Events that configure or use the GPU: the environment variable, the
    session, device scopes and everything done with a model. *)
Definition gpu_event (ev : Event) : bool :=
  match ev with
  | EvNpLoad _ | EvGlob _ | EvShuffle _ | EvMkdir _ | EvNpRepeat _ _ => false
  | _ => true
  end.

(** A run of [m] from [w] that is judged by what it adds to the trace. *)
Definition hoare {A} (P : World -> Prop) (m : M A)
  (Q : A -> World -> Prop) (E : exn -> World -> Prop) : Prop :=
  forall w, P w ->
    match m w with
    | (w', inr a) => Q a w'
    | (w', inl e) => E e w'
    end.

(** A small framework and world, to run the script on. *)
Module Demo.

Definition fw : Framework := {|
  net_init := fun _ _ _ => Some [1 # 2; 1 # 3]%Q;
  read_volumes := fun _ _ bs _ =>
    Some ([Z.to_nat bs; 2; 2; 2; 1]%nat, repeat 0%Q (Z.to_nat bs * 8));
  train_step := fun m h _ => Some (map (fun q => q + 1)%Q (weights m), h)
|}.

Definition atlas : content :=
  Npz [("vol", ([2; 2; 2]%nat, [1; 2; 3; 4; 5; 6; 7; 8]%Q))].

Definition files : gmap string node :=
  list_to_map [("atlas.npz", File atlas); ("data", Dir);
               ("data/a.npz", File Raw); ("data/b.npz", File Raw);
               ("data/c.npz", File Raw); ("data/notes.txt", File Raw);
               ("empty", Dir); ("models", Dir);
               ("../models/miccai2018_10_02_init1.h5", File (H5 [7; 7]%Q))].

Definition world : World := {|
  fs := files; environ := ∅; session := None; heap := ∅;
  rng := fun k => (7 * k + 3)%nat; rng_pos := 0; trace := []
|}.

(** A run of two epochs of five steps each. *)
Definition run : World * (exn + unit) :=
  train fw "data" "atlas.npz" "models" 0 (PyFloat (1 # 10000)) 2 (PyInt 10)
    (PyFloat (2 # 100)) 5 1 None 0 world.

(** The same world with two more directories, named [1] and [2]. *)
Definition numbered_world : World := {|
  fs := <["1" := Dir]> (<["2" := Dir]> files);
  environ := ∅; session := None; heap := ∅;
  rng := fun k => (7 * k + 3)%nat; rng_pos := 0; trace := []
|}.

(** Two epochs of five steps with the model folder [{epoch}]. *)
Definition braces_run : World * (exn + unit) :=
  train fw "data" "atlas.npz" "{epoch}" 0 (PyFloat (1 # 10000)) 2 (PyInt 10)
    (PyFloat (2 # 100)) 5 1 None 0 numbered_world.

(** The namespace of the command line [data]. *)
Definition namespace : gmap string pyval :=
  list_to_map [
    ("data_dir", PyStr "data");
    ("atlas_file", PyStr "../data/atlas_norm.npz");
    ("model_dir", PyStr "../models/");
    ("gpu_id", PyInt 0);
    ("lr", PyFloat (1 # 10000));
    ("nb_epochs", PyInt 1500);
    ("prior_lambda", PyInt 10);
    ("image_sigma", PyFloat (2 # 100));
    ("steps_per_epoch", PyInt 100);
    ("batch_size", PyInt 1);
    ("load_model_file", PyStr "../models/miccai2018_10_02_init1.h5")].

(** A command line that names the atlas and the model folder of [world] and
    says nothing about initial weights. *)
Definition argv : list string :=
  ["data"; "--atlas_file"; "atlas.npz"; "--model_dir"; "models";
   "--epochs"; "2"; "--steps_per_epoch"; "5"].

End Demo.

(** Every event a run of [m] adds to the trace satisfies [phi]. *)
Definition only {A} (phi : Event -> Prop) (m : M A) : Prop :=
  forall w w' r, m w = (w', r) ->
    exists evs, trace w' = trace w ++ evs /\ Forall phi evs.

(** The steps of the training life cycle, as the orchestrator of the spec
    names them. *)
Inductive Step :=
| StBuild
| StLoadWeights (file : string)
| StSave
| StCompile (optimizer : Optimizer) (losses : list LossFn)
| StDraw
| StOptimize.

Definition step_of (ev : Event) : option Step :=
  match ev with
  | EvBuildNet _ _ _ => Some StBuild
  | EvLoadWeights f => Some (StLoadWeights f)
  | EvSave _ => Some StSave
  | EvCompile o l => Some (StCompile o l)
  | EvNextBatch => Some StDraw
  | EvTrainOnBatch _ => Some StOptimize
  | _ => None
  end.

(** The file of a call to [np.load]. *)
Definition np_load_of (ev : Event) : option string :=
  match ev with
  | EvNpLoad f => Some f
  | _ => None
  end.

(** A run of [m] shows, through the projection [proj] of its events, the
    sequence [sch]: all of it when the run returns, a first part of it when
    the run raises. *)
Definition follows {A S} (proj : Event -> option S) (m : M A) (sch : list S)
  : Prop :=
  forall w w' r, m w = (w', r) ->
    exists evs, trace w' = trace w ++ evs /\
      match r with
      | inr _ => omap proj evs = sch
      | inl _ => omap proj evs `prefix_of` sch
      end.

(** One epoch: [steps] times a batch drawn and optimised on, then the
    checkpoint. *)
Definition epoch_schedule (steps : nat) : list Step :=
  concat (replicate steps [StDraw; StOptimize]) ++ [StSave].

(** The whole run of [train]. *)
Definition schedule (lr prior_lambda image_sigma : pyval)
  (load_model_file : option string)
  (initial_epoch nb_epochs steps_per_epoch : Z) : list Step :=
  let loss_class :=
    {| image_sigma := image_sigma; prior_lambda := prior_lambda |} in
  [StBuild]
  ++ match load_model_file with Some f => [StLoadWeights f] | None => [] end
  ++ [StSave; StCompile (Adam lr) [recon_loss loss_class; kl_loss loss_class]]
  ++ concat (replicate (Z.to_nat (nb_epochs - initial_epoch))
               (epoch_schedule (Z.to_nat steps_per_epoch))).

(** The calls [train] can make, given its arguments: every event of a run is
    one of these. *)
Definition train_event (data_dir atlas_file model_dir : string) (gpu_id : Z)
  (lr : pyval) (nb_epochs : Z) (prior_lambda image_sigma : pyval)
  (batch_size : Z) (load_model_file : option string) (initial_epoch : Z)
  (ev : Event) : Prop :=
  match ev with
  | EvNpLoad f => f = atlas_file
  | EvGlob p => p = OsPath.join data_dir "*.npz"
  | EvShuffle _ => True
  | EvMkdir p => p = model_dir
  | EvSetEnv k v => k = "CUDA_VISIBLE_DEVICES" /\ v = Py.str gpu_id
  | EvSetSession c =>
      c = {| allow_growth := true; allow_soft_placement := true |}
  | EvDeviceEnter d | EvDeviceExit d => d = "/gpu:" +:+ Py.str gpu_id
  | EvBuildNet _ nf_enc nf_dec =>
      nf_enc = [16; 32; 32; 32]%nat /\ nf_dec = [32; 32; 32; 32; 16; 3]%nat
  | EvLoadWeights f => load_model_file = Some f
  | EvSave p =>
      p = OsPath.join model_dir (Py.format_02d initial_epoch +:+ ".h5") \/
      exists epoch, initial_epoch <= epoch < nb_epochs /\
        Format.format (OsPath.join model_dir "{epoch:02d}.h5") (epoch + 1)
        = inr p
  | EvCompile o l =>
      o = Adam lr /\
      l = [recon_loss {| image_sigma := image_sigma;
                         prior_lambda := prior_lambda |};
           kl_loss {| image_sigma := image_sigma;
                      prior_lambda := prior_lambda |}]
  | EvNpRepeat _ n => n = batch_size
  | EvNextBatch => True
  | EvTrainOnBatch _ => True
  | EvEpochBegin epoch => initial_epoch <= epoch < nb_epochs
  end.

(** The calls [train] can make once the atlas is read. *)
Definition later_event (data_dir atlas_file model_dir : string) (gpu_id : Z)
  (lr : pyval) (nb_epochs : Z) (prior_lambda image_sigma : pyval)
  (batch_size : Z) (load_model_file : option string) (initial_epoch : Z)
  (ev : Event) : Prop :=
  train_event data_dir atlas_file model_dir gpu_id lr nb_epochs prior_lambda
    image_sigma batch_size load_model_file initial_epoch ev /\
  np_load_of ev = None.

(** The files matching [*.npz] directly inside [data_dir]: the entries of the
    directory whose name ends in [.npz] and does not start with a dot, each
    under the name [data_dir/entry]. *)
Definition npz_files_in (fs : gmap string node) (data_dir : string)
  : list string :=
  OsPath.join data_dir <$>
    filter (fun n => Py.endswith n ".npz" = true /\ Fnmatch.ishidden n = false)
      (Fs.listdir fs data_dir).

(** The option a command-line token selects, by its [dest]: the token is an
    option string, alone or followed by [=value], that the parser resolves. *)
Definition selected (p : list Argparse.Argument) (tok : string) : option string :=
  if Argparse.looks_like_option tok && Py.startswith tok "--" then
    match Argparse.resolve p (fst (Py.partition "="%char tok)) with
    | Argparse.Opt a => Some (Argparse.dest a)
    | _ => None
    end
  else None.

(** The entry [d] of the namespace of a parser state is untouched: it holds
    [v], and no option waiting for its argument would store to it. *)
Definition untouched (d : string) (v : pyval) (st : Argparse.state) : Prop :=
  Argparse.ns st !! d = Some v /\
  forall a, Argparse.pending st = Some a -> Argparse.dest a <> d.

(** The entry [d] of the namespace of a parser state holds a string. *)
Definition holds_str (d : string) (st : Argparse.state) : Prop :=
  exists s, Argparse.ns st !! d = Some (PyStr s).

(** A run of [m] leaves the part [proj] of the world as it was. *)
Definition keeps {X A} (proj : World -> X) (m : M A) : Prop :=
  forall w w' r, m w = (w', r) -> proj w' = proj w.

(** A run of [m] from a world where [I] holds ends in one where it holds. *)
Definition stable {A} (I : World -> Prop) (m : M A) : Prop :=
  forall w w' r, m w = (w', r) -> I w -> I w'.

(** The path of a call to [model.save]. *)
Definition save_of (ev : Event) : option string :=
  match ev with
  | EvSave p => Some p
  | _ => None
  end.

(** The paths the checkpoint callback writes in [n] epochs from [epoch] on:
    the template formatted with the number of each epoch plus one. *)
Fixpoint checkpoint_paths (template : string) (epoch : Z) (n : nat)
  : list string :=
  match n with
  | O => []
  | S n' =>
      match Format.format template (epoch + 1) with
      | inr p => [p]
      | inl _ => []
      end ++ checkpoint_paths template (epoch + 1) n'
  end.

(** What [n] epochs from [epoch] on do to the file system when they all
    succeed: one model file per epoch, at the path the template formats to. *)
Fixpoint epochs_written (template : string) (epoch : Z) (n : nat)
  (fs fs' : gmap string node) : Prop :=
  match n with
  | O => fs' = fs
  | S n' =>
      exists p wts,
        Format.format template (epoch + 1) = inr p /\
        p <> "" /\ fs !! OsPath.norm p <> Some Dir /\
        epochs_written template (epoch + 1) n'
          (<[OsPath.norm p := File (H5 wts)]> fs) fs'
  end.

(** [d] is a directory of the world. *)
Definition is_dir (d : string) (w : World) : Prop := Fs.isdir (fs w) d = true.

(** What a run does with the atlas [atlas_vol], once read: [np.repeat] is
    called on it with [batch_size], and the fixed volume of every batch the
    model is trained on is another array, of [batch_size] atlases. *)
Definition atlas_event (atlas_vol : ndarray) (sh : list nat) (batch_size : Z)
  (ev : Event) : Prop :=
  match ev with
  | EvNpRepeat arr n => arr = atlas_vol /\ n = batch_size
  | EvTrainOnBatch b =>
      shape (fixed b) = (Z.to_nat batch_size :: sh ++ [1])%nat /\
      buf (fixed b) <> buf atlas_vol
  | _ => True
  end.

(** The buffer [a] holds [data]. *)
Definition holds (a : nat) (data : list Q) (w : World) : Prop :=
  heap w !! a = Some data.

(** ** Vocabulary of the further properties *)

(** The batch of a call to [model.train_on_batch]. *)
Definition batch_of (ev : Event) : option Batch :=
  match ev with
  | EvTrainOnBatch b => Some b
  | _ => None
  end.

(** What the script configures the GPU with: the environment and the
    session. *)
Definition gpu_config (w : World)
  : gmap string string * option ConfigProto :=
  (environ w, session w).

(** A network is built for volumes of the shape [sh], with the features of
    the script. *)
Definition builds_for (sh : list nat) (ev : Event) : Prop :=
  match ev with
  | EvBuildNet vol_size nf_enc nf_dec =>
      vol_size = sh /\ nf_enc = [16; 32; 32; 32]%nat /\
      nf_dec = [32; 32; 32; 32; 16; 3]%nat
  | _ => True
  end.

(** The world [w] is one a run of [train] can reach from the file system
    [fs0] and the trace [t0]: nothing that existed is gone, and what differs
    is the folder [model_dir] or the file of a call to [model.save] made
    since. *)
Definition written_since (model_dir : string) (fs0 : gmap string node)
  (t0 : list Event) (w : World) : Prop :=
  exists evs, trace w = t0 ++ evs /\
    (forall k, fs w !! k <> fs0 !! k ->
       k = OsPath.norm model_dir \/
       exists p, EvSave p ∈ evs /\ k = OsPath.norm p) /\
    (forall k, is_Some (fs0 !! k) -> is_Some (fs w !! k)).

(** Calls that come before any use of a model: reading the atlas, finding
    the data, making the folder and configuring the GPU. *)
Definition setup_event (ev : Event) : bool :=
  match ev with
  | EvNpLoad _ | EvGlob _ | EvShuffle _ | EvMkdir _ | EvSetEnv _ _
  | EvSetSession _ => true
  | _ => false
  end.

(** Calls that write a checkpoint or train the model. *)
Definition save_or_train (ev : Event) : bool :=
  match ev with
  | EvSave _ | EvNextBatch | EvTrainOnBatch _ | EvEpochBegin _ => true
  | _ => false
  end.

(** Calls that draw a batch or train on one. *)
Definition training_event (ev : Event) : bool :=
  match ev with
  | EvNextBatch | EvTrainOnBatch _ | EvEpochBegin _ => true
  | _ => false
  end.

(** More runs of the script on the small world. *)
Module Sample.

(** Initial weights asked from a file that does not exist. *)
Definition no_weights_run : World * (exn + unit) :=
  train Demo.fw "data" "atlas.npz" "models" 0 (PyFloat (1 # 10000)) 2
    (PyInt 10) (PyFloat (2 # 100)) 5 1 (Some "init.h5") 0 Demo.world.

(** A batch size below zero. *)
Definition negative_batch_run : World * (exn + unit) :=
  train Demo.fw "data" "atlas.npz" "models" 0 (PyFloat (1 # 10000)) 2
    (PyInt 10) (PyFloat (2 # 100)) 5 (-1) None 0 Demo.world.

(** A world laid out as the defaults of the parser expect, without the
    default file of initial weights. *)
Definition fresh_files : gmap string node :=
  list_to_map [("../data/atlas_norm.npz", File Demo.atlas); ("data", Dir);
               ("data/a.npz", File Raw); ("../models", Dir)].

Definition fresh_world : World := {|
  fs := fresh_files; environ := ∅; session := None; heap := ∅;
  rng := fun k => (7 * k + 3)%nat; rng_pos := 0; trace := []
|}.

(** The script run on the command line [data] there. *)
Definition default_run : World * (exn + unit) :=
  main Demo.fw ["data"] fresh_world.

(** Two epochs of five steps into a model folder that does not exist yet. *)
Definition fresh_folder_run : World * (exn + unit) :=
  train Demo.fw "data" "atlas.npz" "fresh" 0 (PyFloat (1 # 10000)) 2
    (PyInt 10) (PyFloat (2 # 100)) 5 1 None 0 Demo.world.

(** Two epochs of five steps on batches of two volumes. *)
Definition batch2_run : World * (exn + unit) :=
  train Demo.fw "data" "atlas.npz" "models" 0 (PyFloat (1 # 10000)) 2
    (PyInt 10) (PyFloat (2 # 100)) 5 2 None 0 Demo.world.




End Sample.

(** The steps of the life cycle whose order the script fixes: all but the
    draws of batches, which Keras makes ahead of their use through a queue. *)
Definition order_of (ev : Event) : option Step :=
  match ev with
  | EvNextBatch => None
  | _ => step_of ev
  end.

(** One epoch without its draws: [steps] optimisations, then the
    checkpoint. *)
Definition epoch_order (steps : nat) : list Step :=
  replicate steps StOptimize ++ [StSave].

(** The whole run of [train] without its draws. *)
Definition life_cycle (lr prior_lambda image_sigma : pyval)
  (load_model_file : option string)
  (initial_epoch nb_epochs steps_per_epoch : Z) : list Step :=
  let loss_class :=
    {| image_sigma := image_sigma; prior_lambda := prior_lambda |} in
  [StBuild]
  ++ match load_model_file with Some f => [StLoadWeights f] | None => [] end
  ++ [StSave; StCompile (Adam lr) [recon_loss loss_class; kl_loss loss_class]]
  ++ concat (replicate (Z.to_nat (nb_epochs - initial_epoch))
               (epoch_order (Z.to_nat steps_per_epoch))).

(** The schedule of the draws left out. *)
Definition without_draw (s : Step) : option Step :=
  match s with
  | StDraw => None
  | _ => Some s
  end.

(** The batches drawn in the calls [evs], and the optimisations made. *)
Definition is_draw (ev : Event) : bool :=
  match ev with
  | EvNextBatch => true
  | _ => false
  end.

Definition is_optimise (ev : Event) : bool :=
  match ev with
  | EvTrainOnBatch _ => true
  | _ => false
  end.

Definition drawn (evs : list Event) : nat := length (List.filter is_draw evs).

Definition optimised (evs : list Event) : nat :=
  length (List.filter is_optimise evs).

(** Every optimisation of the steps [l] has a batch to work on: one of
    [credit] batches at hand, or one drawn since. *)
Fixpoint fed (credit : nat) (l : list Step) : bool :=
  match l with
  | [] => true
  | StDraw :: l' => fed (S credit) l'
  | StOptimize :: l' =>
      match credit with
      | O => false
      | S c => fed c l'
      end
  | _ :: l' => fed credit l'
  end.

(** Calls on the model or on the batch generator. *)
Definition model_event (ev : Event) : bool :=
  match ev with
  | EvBuildNet _ _ _ | EvLoadWeights _ | EvSave _ | EvCompile _ _
  | EvNextBatch | EvTrainOnBatch _ | EvEpochBegin _ => true
  | _ => false
  end.

(** [scoped d inside evs]: the calls [evs] enter and leave scopes of the
    device [d] in turn, never one inside another and none left open at the
    end; every call on the model is made inside a scope and every other call
    outside.  [inside] tells whether a scope is open before [evs]. *)
Fixpoint scoped (d : string) (inside : bool) (evs : list Event) : bool :=
  match evs with
  | [] => negb inside
  | EvDeviceEnter d' :: evs' =>
      negb inside && String.eqb d' d && scoped d true evs'
  | EvDeviceExit d' :: evs' =>
      inside && String.eqb d' d && scoped d false evs'
  | ev :: evs' => Bool.eqb (model_event ev) inside && scoped d inside evs'
  end.

(** The entry [d] of the namespace of a parser state holds a value of the
    kind [T]. *)
Definition holds_typed (d : string) (T : pyval -> Prop)
  (st : Argparse.state) : Prop :=
  exists v, Argparse.ns st !! d = Some v /\ T v.

Definition py_str (v : pyval) : Prop := exists s, v = PyStr s.
Definition py_int (v : pyval) : Prop := exists z, v = PyInt z.
Definition py_float (v : pyval) : Prop := exists q, v = PyFloat q.

(** The parameters of [train] the command line sets: all of them but
    [initial_epoch]. *)
Definition train_keywords : gset string :=
  list_to_set ["data_dir"; "atlas_file"; "model_dir"; "gpu_id"; "lr";
               "nb_epochs"; "prior_lambda"; "image_sigma"; "steps_per_epoch";
               "batch_size"; "load_model_file"].


(** * Properties *)

(** ** Runs of the monad *)

Lemma bind_inv {A B} (m : M A) (f : A -> M B) w w' r :
  bind m f w = (w', r) ->
  (exists e, m w = (w', inl e) /\ r = inl e) \/
  (exists w1 a, m w = (w1, inr a) /\ f a w1 = (w', r)).
Proof.
  unfold bind. destruct (m w) as [w1 [e | a]]; intros H.
  - left. exists e. by inversion H.
  - right. by exists w1, a.
Qed.

Lemma bind_unfold_ok {A B} (m : M A) (f : A -> M B) w w1 a :
  m w = (w1, inr a) -> bind m f w = f a w1.
Proof. unfold bind. by intros ->. Qed.

Lemma hoare_ret {A} (a : A) (Q : A -> World -> Prop) E :
  hoare (Q a) (ret a) Q E.
Proof. by intros w Hw. Qed.

Lemma hoare_raise {A} e (Q : A -> World -> Prop) (E : exn -> World -> Prop) :
  hoare (E e) (raise e) Q E.
Proof. by intros w Hw. Qed.

Lemma hoare_bind {A B} P (m : M A) (f : A -> M B) R Q E :
  hoare P m R E -> (forall a, hoare (R a) (f a) Q E) -> hoare P (bind m f) Q E.
Proof.
  intros Hm Hf w Hw. specialize (Hm w Hw). unfold bind.
  destruct (m w) as [w1 [e | a]]; [done |]. by apply Hf.
Qed.

Lemma hoare_weaken {A} (P P' : World -> Prop) (m : M A)
  (Q Q' : A -> World -> Prop) (E E' : exn -> World -> Prop) :
  hoare P' m Q' E' ->
  (forall w, P w -> P' w) -> (forall a w, Q' a w -> Q a w) ->
  (forall e w, E' e w -> E e w) ->
  hoare P m Q E.
Proof.
  intros H HP HQ HE w Hw. specialize (H w (HP w Hw)).
  destruct (m w) as [w1 [e | a]]; auto.
Qed.

Lemma hoare_lift {A} (r : exn + A) (P : World -> Prop) (Q : A -> World -> Prop)
  (E : exn -> World -> Prop) :
  (forall w a, r = inr a -> P w -> Q a w) ->
  (forall w e, r = inl e -> P w -> E e w) ->
  hoare P (lift r) Q E.
Proof. intros HQ HE w Hw. destruct r; simpl; eauto. Qed.

Lemma hoare_run {A} P (m : M A) Q E w w' r :
  hoare P m Q E -> P w -> m w = (w', r) ->
  match r with inr a => Q a w' | inl e => E e w' end.
Proof. intros H Hw Hm. specialize (H w Hw). by rewrite Hm in H. Qed.

(** ** The first two blocks of [train] *)

Lemma load_atlas_ok f w sh data :
  read_atlas (fs w) f = inr (sh, data) ->
  load_atlas f w =
    (set_heap (<[fresh (dom (heap w)) := data]> (heap w))
       (set_trace (trace w ++ [EvNpLoad f]) w),
     inr {| buf := fresh (dom (heap w)); shape := (1 :: sh ++ [1])%nat |}).
Proof.
  unfold read_atlas.
  destruct (Fs.read (fs w) f) as [e | [arrays | sh' d' | ws |]] eqn:Hr; try done.
  destruct (Np.assoc "vol" arrays) as [[sh' d'] |] eqn:Hv; [| done].
  intros [= -> ->].
  unfold load_atlas, Np.load, bind, log, get_fs, lift.
  cbn [fs set_trace]. rewrite Hr. cbn [ret]. unfold Np.getitem. rewrite Hv.
  reflexivity.
Qed.

Lemma load_atlas_fail f w e :
  read_atlas (fs w) f = inl e ->
  exists w', load_atlas f w = (w', inl e) /\ fs w' = fs w /\
    environ w' = environ w /\ session w' = session w /\
    trace w' = trace w ++ [EvNpLoad f].
Proof.
  unfold read_atlas, load_atlas, Np.load, bind, log, get_fs, lift.
  cbn [fs set_trace].
  destruct (Fs.read (fs w) f) as [e' | [arrays | sh' d' | ws |]] eqn:Hr.
  - intros [= ->]. cbn. eauto 10.
  - destruct (Np.assoc "vol" arrays) as [[sh' d'] |] eqn:Hv; [done |].
    intros [= <-]. cbn [ret]. unfold Np.getitem. rewrite Hv. cbn. eauto 10.
  - intros [= <-]. cbn. eauto 10.
  - intros [= <-]. cbn. eauto 10.
  - intros [= <-]. cbn. eauto 10.
Qed.

Lemma prepare_data_files_eq data_dir w :
  prepare_data_files data_dir w =
    let pattern := OsPath.join data_dir "*.npz" in
    let found := Glob.glob (fs w) pattern in
    let names :=
      Random.shuffle_from (length found - 1)
        (fun k => rng w (rng_pos w + k)%nat) found in
    (set_rng_pos (rng_pos w + (length found - 1))%nat
       (set_trace ((trace w ++ [EvGlob pattern]) ++ [EvShuffle (length found)]) w),
     if (0 <? length names)%nat then inr names
     else inl (AssertionError "Could not find any training data")).
Proof.
  unfold prepare_data_files, glob_glob, Random.shuffle, py_assert, bind, log,
    get_fs, ret. simpl.
  by destruct (0 <? _)%nat.
Qed.

(** ** C1 *)




(** ** What runs add to the trace *)

Section Only.

Context {phi : Event -> Prop}.

Lemma only_ret {A} (a : A) : only phi (ret a).
Proof. intros w w' r [= <- <-]. exists []. by rewrite app_nil_r. Qed.

Lemma only_raise {A} e : only phi (raise (A := A) e).
Proof. intros w w' r [= <- <-]. exists []. by rewrite app_nil_r. Qed.

Lemma only_lift {A} (x : exn + A) : only phi (lift x).
Proof. destruct x; [apply only_raise | apply only_ret]. Qed.

Lemma only_log ev : phi ev -> only phi (log ev).
Proof. intros H w w' r [= <- <-]. exists [ev]. split; [done | by constructor]. Qed.

Lemma only_silent {A} (m : M A) :
  (forall w, trace (fst (m w)) = trace w) -> only phi m.
Proof.
  intros H w w' r Hm. exists []. rewrite app_nil_r.
  specialize (H w). by rewrite Hm in H.
Qed.

Lemma only_bind {A B} (m : M A) (f : A -> M B) :
  only phi m -> (forall a, only phi (f a)) -> only phi (bind m f).
Proof.
  intros Hm Hf w w' r Hrun.
  destruct (bind_inv _ _ _ _ _ Hrun) as [(e & Hm' & ->) | (w1 & a & Hm' & Hf')].
  - eauto.
  - destruct (Hm _ _ _ Hm') as (evs1 & Ht1 & H1).
    destruct (Hf _ _ _ _ Hf') as (evs2 & Ht2 & H2).
    exists (evs1 ++ evs2). split.
    + by rewrite Ht2, Ht1, app_assoc.
    + by apply Forall_app.
Qed.

Lemma only_bind_val {A B} (R : A -> Prop) (m : M A) (f : A -> M B) :
  only phi m -> (forall w w' a, m w = (w', inr a) -> R a) ->
  (forall a, R a -> only phi (f a)) -> only phi (bind m f).
Proof.
  intros Hm HR Hf w w' r Hrun.
  destruct (bind_inv _ _ _ _ _ Hrun) as [(e & Hm' & ->) | (w1 & a & Hm' & Hf')].
  - eauto.
  - destruct (Hm _ _ _ Hm') as (evs1 & Ht1 & H1).
    destruct (Hf _ (HR _ _ _ Hm') _ _ _ Hf') as (evs2 & Ht2 & H2).
    exists (evs1 ++ evs2). split.
    + by rewrite Ht2, Ht1, app_assoc.
    + by apply Forall_app.
Qed.

Lemma only_with_device {A} d (body : M A) :
  phi (EvDeviceEnter d) -> phi (EvDeviceExit d) ->
  only phi body -> only phi (with_device d body).
Proof.
  intros Hin Hout Hbody w w' r. unfold with_device, bind, log.
  destruct (body _) as [w1 r1] eqn:Hb. intros [= <- <-].
  destruct (Hbody _ _ _ Hb) as (evs & Ht & Hall).
  exists (EvDeviceEnter d :: evs ++ [EvDeviceExit d]). split.
  - cbn in *. rewrite Ht. by rewrite <- !app_assoc.
  - constructor; [done |]. apply Forall_app. split; [done | by constructor].
Qed.

End Only.

Lemma only_impl {A} (phi psi : Event -> Prop) (m : M A) :
  (forall ev, phi ev -> psi ev) -> only phi m -> only psi m.
Proof.
  intros Himp Hm w w' r Hrun. destruct (Hm _ _ _ Hrun) as (evs & Ht & Hall).
  exists evs. split; [done |]. by eapply Forall_impl.
Qed.

Lemma only_extends {A} phi (m : M A) w w' r :
  only phi m -> m w = (w', r) -> exists evs, trace w' = trace w ++ evs.
Proof. intros H Hrun. destruct (H _ _ _ Hrun) as (evs & Ht & _). eauto. Qed.

Ltac only_step :=
  first
    [ apply only_ret | apply only_raise | apply only_lift
    | apply only_log
    | apply only_silent; intros; reflexivity
    | apply only_with_device ].

Ltac only_bind x := apply only_bind; [| intros x].

(** Forward execution of a run [H : bind m f w = (w', r)]: either [m] raised,
    or it returned [a] in the world [w1] and the run goes on in [H]. *)
Tactic Notation "run_bind" hyp(H) "as" ident(w1) ident(a) ident(H1) :=
  apply bind_inv in H;
  destruct H as [(? & H1 & ->) | (w1 & a & H1 & H)].

Lemma only_after {A} (psi : Event -> Prop) (m : M A) t w w' r :
  only psi m -> m w = (w', r) ->
  (exists evs, trace w = t ++ evs /\ Forall psi evs) ->
  exists evs, trace w' = t ++ evs /\ Forall psi evs.
Proof.
  intros Hm Hrun (evs & Ht & Hall).
  destruct (Hm _ _ _ Hrun) as (evs' & Ht' & Hall').
  exists (evs ++ evs'). split.
  - by rewrite Ht', Ht, app_assoc.
  - by apply Forall_app.
Qed.

Section OnlyPrimitives.

Context {phi : Event -> Prop}.
Variable fw : Framework.

Lemma only_alloc data : only phi (alloc data).
Proof. apply only_silent. intros w. reflexivity. Qed.

Lemma only_np_load f : phi (EvNpLoad f) -> only phi (Np.load f).
Proof.
  intros H. unfold Np.load. only_bind u; [by only_step |].
  only_bind fs0; [only_step |]. only_bind c; [only_step |].
  destruct c; only_step.
Qed.

Lemma only_np_getitem o k : only phi (Np.getitem o k).
Proof.
  unfold Np.getitem. destruct o; [| only_step].
  destruct (Np.assoc k arrays) as [[sh d] |]; only_step.
Qed.

Lemma only_np_repeat a n : phi (EvNpRepeat a n) -> only phi (Np.repeat a n).
Proof.
  intros H. unfold Np.repeat. only_bind u; [by only_step |].
  destruct (n <? 0); [only_step |]. only_bind h; [only_step |].
  destruct (h !! buf a); [| only_step]. destruct (shape a); only_step.
Qed.

Lemma only_save model p : phi (EvSave p) -> only phi (save model p).
Proof.
  intros H. unfold save, put_fs. only_bind u; [by only_step |].
  only_bind fs0; [only_step |]. only_bind fs1; only_step.
Qed.

Lemma only_load_weights model p :
  phi (EvLoadWeights p) -> only phi (load_weights model p).
Proof.
  intros H. unfold load_weights. only_bind u; [by only_step |].
  only_bind fs0; [only_step |]. only_bind c; [only_step |].
  destruct c; only_step.
Qed.

Lemma only_next g : phi EvNextBatch -> only phi (next fw g).
Proof.
  intros H. unfold next. only_bind u; [by only_step |].
  only_bind fs0; [only_step |]. only_bind r; [only_step |].
  destruct (read_volumes _ _ _ _ _) as [[sh d] |]; only_step.
Qed.

Lemma only_train_on_batch model b :
  phi (EvTrainOnBatch b) -> only phi (train_on_batch fw model b).
Proof.
  intros H. unfold train_on_batch, put_heap. only_bind u; [by only_step |].
  destruct (compiled model); [| only_step]. only_bind h; [only_step |].
  destruct (train_step _ _ _ _) as [[w' h'] |]; only_step.
Qed.

Lemma next_fixed g w w' b :
  next fw g w = (w', inr b) -> fixed b = atlas_vol_bs g.
Proof.
  unfold next, bind, log, get_fs, draw. cbn [fs rng rng_pos set_trace set_rng_pos].
  destruct (read_volumes _ _ _ _ _) as [[sh d] |]; [| done].
  by intros [= _ <-].
Qed.

Lemma only_fit_steps n model g :
  phi EvNextBatch ->
  (forall b, fixed b = atlas_vol_bs g -> phi (EvTrainOnBatch b)) ->
  only phi (fit_steps fw n model g).
Proof.
  intros H1 H2. revert model. induction n as [| n IH]; intros model; simpl.
  - only_step.
  - apply (only_bind_val (fun b => fixed b = atlas_vol_bs g));
      [by apply only_next | apply next_fixed |].
    intros b Hb.
    only_bind model'; [by apply only_train_on_batch, H2 |]. apply IH.
Qed.

End OnlyPrimitives.

Section OnlyTrain.

Variable fw : Framework.

Lemma only_fit_epochs (phi : Event -> Prop) n epoch model g template steps :
  phi EvNextBatch ->
  (forall b, fixed b = atlas_vol_bs g -> phi (EvTrainOnBatch b)) ->
  (forall e, epoch <= e < epoch + Z.of_nat n -> phi (EvEpochBegin e)) ->
  (forall e p, epoch <= e < epoch + Z.of_nat n ->
     Format.format template (e + 1) = inr p -> phi (EvSave p)) ->
  only phi (fit_epochs fw n epoch model g [ModelCheckpoint template] steps).
Proof.
  intros H1 H2. revert epoch model.
  induction n as [| n IH]; intros epoch model Hb Hs; simpl.
  - only_step.
  - only_bind u; [apply only_log, Hb; lia |].
    only_bind model'; [by apply only_fit_steps |].
    only_bind v.
    + only_bind x; [| only_step].
      destruct (Format.format template (epoch + 1)) as [e | p] eqn:Hf; simpl.
      * only_step.
      * change (only phi (save model' p)).
        apply only_save, (Hs epoch); [lia | done].
    + apply IH; intros e; intros; [apply Hb | eapply Hs]; eauto; lia.
Qed.

Lemma only_load_atlas (phi : Event -> Prop) f :
  phi (EvNpLoad f) -> only phi (load_atlas f).
Proof.
  intros H. unfold load_atlas. only_bind o; [by apply only_np_load |].
  only_bind vol; [apply only_np_getitem | only_step].
Qed.

Lemma only_prepare_data_files (phi : Event -> Prop) data_dir :
  phi (EvGlob (OsPath.join data_dir "*.npz")) -> (forall n, phi (EvShuffle n)) ->
  only phi (prepare_data_files data_dir).
Proof.
  intros H1 H2. unfold prepare_data_files, glob_glob, Random.shuffle, py_assert.
  only_bind l.
  { only_bind u; [by only_step |]. only_bind fs0; only_step. }
  only_bind l'.
  { only_bind u; [by only_step | only_step]. }
  only_bind u; [| only_step]. destruct (0 <? _)%nat; only_step.
Qed.

Lemma only_prepare_model_folder (phi : Event -> Prop) model_dir :
  phi (EvMkdir model_dir) -> only phi (prepare_model_folder model_dir).
Proof.
  intros H. unfold prepare_model_folder, os_path_isdir, os_mkdir, put_fs.
  only_bind b; [only_step |]. destruct (negb b); [| only_step].
  only_bind v; [by only_step |]. only_bind fs0; [only_step |].
  only_bind fs1; only_step.
Qed.

Lemma only_gpu_handling (phi : Event -> Prop) gpu_id :
  phi (EvSetEnv "CUDA_VISIBLE_DEVICES" (Py.str gpu_id)) ->
  phi (EvSetSession {| allow_growth := true; allow_soft_placement := true |}) ->
  only phi (gpu_handling gpu_id).
Proof.
  intros H1 H2. unfold gpu_handling, environ_set, set_session.
  only_bind v. { only_bind x; [by only_step | only_step]. }
  only_bind x; [| only_step]. only_bind y; [by only_step | only_step].
Qed.

Lemma gpu_handling_value gpu_id w w' gpu :
  gpu_handling gpu_id w = (w', inr gpu) -> gpu = "/gpu:" +:+ Py.str gpu_id.
Proof. by intros [= _ <-]. Qed.

Lemma only_prepare_the_model (phi : Event -> Prop) gpu vol_size nf_enc nf_dec
  model_dir lr prior_lambda image_sigma load_model_file initial_epoch :
  phi (EvDeviceEnter gpu) -> phi (EvDeviceExit gpu) ->
  phi (EvBuildNet vol_size nf_enc nf_dec) ->
  (forall f, load_model_file = Some f -> phi (EvLoadWeights f)) ->
  phi (EvSave (OsPath.join model_dir (Py.format_02d initial_epoch +:+ ".h5"))) ->
  phi (EvCompile (Adam lr)
         [recon_loss {| image_sigma := image_sigma; prior_lambda := prior_lambda |};
          kl_loss {| image_sigma := image_sigma; prior_lambda := prior_lambda |}]) ->
  only phi (prepare_the_model fw gpu vol_size nf_enc nf_dec model_dir lr
              prior_lambda image_sigma load_model_file initial_epoch).
Proof.
  intros H1 H2 H3 H4 H5 H6.
  unfold prepare_the_model. apply only_with_device; [done | done |].
  only_bind model0.
  { unfold miccai2018_net. only_bind x; [by only_step |].
    destruct (net_init _ _ _ _); only_step. }
  only_bind model1.
  { destruct load_model_file as [file |]; [| only_step].
    by apply only_load_weights, H4. }
  only_bind x; [by apply only_save |].
  unfold compile. only_bind y; [by only_step | only_step].
Qed.

Lemma only_data_generator (phi : Event -> Prop) names atlas_vol batch_size :
  phi (EvNpRepeat atlas_vol batch_size) ->
  only phi (data_generator names atlas_vol batch_size).
Proof.
  intros H. unfold data_generator.
  only_bind a; [by apply only_np_repeat | only_step].
Qed.

Lemma only_fit (phi : Event -> Prop) gpu model g model_dir initial_epoch
  nb_epochs steps_per_epoch :
  phi (EvDeviceEnter gpu) -> phi (EvDeviceExit gpu) ->
  phi EvNextBatch ->
  (forall b, fixed b = atlas_vol_bs g -> phi (EvTrainOnBatch b)) ->
  (forall e, initial_epoch <= e < nb_epochs -> phi (EvEpochBegin e)) ->
  (forall e p, initial_epoch <= e < nb_epochs ->
     Format.format (OsPath.join model_dir "{epoch:02d}.h5") (e + 1) = inr p ->
     phi (EvSave p)) ->
  only phi (fit fw gpu model g model_dir initial_epoch nb_epochs steps_per_epoch).
Proof.
  intros H1 H2 H3 H4 H5 H6.
  unfold fit, fit_generator. apply only_with_device; [done | done |].
  apply only_fit_epochs; try done.
  - intros e He. apply H5. lia.
  - intros e p He. apply H6. lia.
Qed.

Lemma load_atlas_trace f w w' r :
  load_atlas f w = (w', r) -> trace w' = trace w ++ [EvNpLoad f].
Proof.
  intros Hrun.
  destruct (read_atlas (fs w) f) as [e | [sh data]] eqn:Hatlas.
  - destruct (load_atlas_fail _ _ _ Hatlas) as (w1 & Hrun1 & _ & _ & _ & Ht).
    rewrite Hrun1 in Hrun. by injection Hrun as <- _.
  - rewrite (load_atlas_ok _ _ _ _ Hatlas) in Hrun. by injection Hrun as <- _.
Qed.

(** Every run of [train] starts with the call [np.load(atlas_file)]; the
    events after it are calls [train] can make with its arguments, and none
    of them is a call to [np.load]. *)
Lemma train_events data_dir atlas_file model_dir gpu_id lr nb_epochs
  prior_lambda image_sigma steps_per_epoch batch_size load_model_file
  initial_epoch w w' r :
  train fw data_dir atlas_file model_dir gpu_id lr nb_epochs prior_lambda
    image_sigma steps_per_epoch batch_size load_model_file initial_epoch w
  = (w', r) ->
  exists evs,
    trace w' = (trace w ++ [EvNpLoad atlas_file]) ++ evs /\
    Forall (later_event data_dir atlas_file model_dir gpu_id lr nb_epochs
              prior_lambda image_sigma batch_size load_model_file
              initial_epoch) evs.
Proof.
  intros Hrun. unfold train in Hrun.
  set (psi := later_event data_dir atlas_file model_dir gpu_id lr nb_epochs
                prior_lambda image_sigma batch_size load_model_file
                initial_epoch).
  run_bind Hrun as w1 atlas_vol H1; apply load_atlas_trace in H1.
  { exists []. by rewrite app_nil_r. }
  assert (Hacc : exists evs, trace w1 = (trace w ++ [EvNpLoad atlas_file]) ++ evs
                             /\ Forall psi evs).
  { exists []. by rewrite app_nil_r. }
  clear H1.
  run_bind Hrun as w2 names H2;
    (eapply only_after in H2;
     [| apply (only_prepare_data_files psi); by repeat split | exact Hacc]);
    [done |]; clear Hacc; rename H2 into Hacc.
  run_bind Hrun as w3 u H3;
    (eapply only_after in H3;
     [| apply (only_prepare_model_folder psi); by repeat split | exact Hacc]);
    [done |]; clear Hacc; rename H3 into Hacc.
  run_bind Hrun as w4 gpu H4.
  { eapply only_after in H4;
      [done | apply (only_gpu_handling psi); by repeat split | exact Hacc]. }
  pose proof (gpu_handling_value _ _ _ _ H4) as ->.
  eapply only_after in H4;
    [| apply (only_gpu_handling psi); by repeat split | exact Hacc].
  clear Hacc; rename H4 into Hacc.
  run_bind Hrun as w5 model H5;
    (eapply only_after in H5;
     [| apply (only_prepare_the_model psi);
        intros; repeat split; first [done | by left]
      | exact Hacc]);
    [done |]; clear Hacc; rename H5 into Hacc.
  run_bind Hrun as w6 g H6;
    (eapply only_after in H6;
     [| apply (only_data_generator psi); by repeat split | exact Hacc]);
    [done |]; clear Hacc; rename H6 into Hacc.
  assert (Hfit : only psi
            (fit fw ("/gpu:" +:+ Py.str gpu_id) model g model_dir initial_epoch
               nb_epochs steps_per_epoch)).
  { apply only_fit; try by repeat split.
    - intros e He. by split.
    - intros e p He Hp. split; [| done]. right. by exists e. }
  run_bind Hrun as w7 model' H7;
    (eapply only_after in H7; [| exact Hfit | exact Hacc]); [done |].
  by injection Hrun as <- _.
Qed.

End OnlyTrain.
(** ** C10 *)

Lemma read_atlas_never_asserts fs f msg :
  read_atlas fs f <> inl (AssertionError msg).
Proof.
  unfold read_atlas, Fs.read, Fs.missing.
  destruct (Fs.lookup fs f) as [[| c] |]; try done;
    [| by destruct (Fs.below_file fs f)].
  destruct (Py.endswith f OsPath.sep); [done |].
  destruct c as [arrays | | |]; try done.
  by destruct (Np.assoc "vol" arrays).
Qed.

(** C10. The atlas is read first.  When the atlas file cannot be read, or
    holds no array [vol], [train] raises that very error after the single call
    [np.load(atlas_file)], whatever [data_dir] holds; and a run that ends in
    the assertion ["Could not find any training data"] has read its atlas. *)
Theorem atlas_is_loaded_before_data_check
  fw data_dir atlas_file model_dir gpu_id lr nb_epochs prior_lambda image_sigma
  steps_per_epoch batch_size load_model_file initial_epoch w :
  (forall e, read_atlas (fs w) atlas_file = inl e ->
     exists w',
       train fw data_dir atlas_file model_dir gpu_id lr nb_epochs prior_lambda
         image_sigma steps_per_epoch batch_size load_model_file initial_epoch w
       = (w', inl e) /\
       trace w' = trace w ++ [EvNpLoad atlas_file]) /\
  (forall w',
     train fw data_dir atlas_file model_dir gpu_id lr nb_epochs prior_lambda
       image_sigma steps_per_epoch batch_size load_model_file initial_epoch w
     = (w', inl (AssertionError "Could not find any training data")) ->
     exists sh data,
       read_atlas (fs w) atlas_file = inr (sh, data) /\
       exists evs, trace w' = trace w ++ EvNpLoad atlas_file :: evs).
Proof.
  assert (Hfail : forall e, read_atlas (fs w) atlas_file = inl e ->
     exists w',
       train fw data_dir atlas_file model_dir gpu_id lr nb_epochs prior_lambda
         image_sigma steps_per_epoch batch_size load_model_file initial_epoch w
       = (w', inl e) /\
       trace w' = trace w ++ [EvNpLoad atlas_file]).
  { intros e He. destruct (load_atlas_fail _ _ _ He) as (w1 & Hrun & _ & _ & _ & Htr).
    exists w1. split; [| done]. unfold train, bind. by rewrite Hrun. }
  split; [exact Hfail |].
  intros w' Hrun.
  destruct (read_atlas (fs w) atlas_file) as [e | [sh data]] eqn:Hatlas.
  - destruct (Hfail e eq_refl) as (w1 & Hrun1 & _).
    rewrite Hrun1 in Hrun. injection Hrun as _ ->.
    by destruct (read_atlas_never_asserts (fs w) atlas_file
                   "Could not find any training data").
  - exists sh, data. split; [done |].
    destruct (train_events _ _ _ _ _ _ _ _ _ _ _ _ _ _ _ _ Hrun) as (evs & Ht & _).
    exists evs. by rewrite Ht, <- app_assoc.
Qed.

Lemma atlas_is_loaded_before_data_check_witness :
  exists w',
    train Demo.fw "empty" "missing.npz" "models" 0 (PyFloat (1 # 10000)) 1500
      (PyInt 10) (PyFloat (2 # 100)) 100 1 None 0 Demo.world
    = (w', inl (FileNotFoundError "missing.npz")) /\
    trace w' = trace Demo.world ++ [EvNpLoad "missing.npz"].
Proof.
  apply (atlas_is_loaded_before_data_check Demo.fw "empty" "missing.npz").
  vm_compute. reflexivity.
Defined.

(** ** The order of the steps *)

Section Follows.

Context {S : Type} (proj : Event -> option S).

Lemma omap_silent (evs : list Event) :
  Forall (fun ev => proj ev = None) evs -> omap proj evs = [].
Proof. induction 1 as [| ev evs Hev _ IH]; simpl; [done |]. by rewrite Hev. Qed.

Lemma follows_silent {A} (m : M A) :
  only (fun ev => proj ev = None) m -> follows proj m [].
Proof.
  intros Hm w w' r Hrun. destruct (Hm _ _ _ Hrun) as (evs & Ht & Hall).
  exists evs. split; [done |]. rewrite (omap_silent _ Hall). by destruct r.
Qed.

Lemma follows_ret {A} (a : A) : follows proj (ret a) [].
Proof. apply follows_silent, only_ret. Qed.

Lemma follows_log ev : follows proj (log ev) (omap proj [ev]).
Proof. intros w w' r [= <- <-]. by exists [ev]. Qed.

Lemma follows_bind {A B} (m : M A) (f : A -> M B) s1 s2 s :
  follows proj m s1 -> (forall a, follows proj (f a) s2) -> s = s1 ++ s2 ->
  follows proj (bind m f) s.
Proof.
  intros Hm Hf -> w w' r Hrun.
  destruct (bind_inv _ _ _ _ _ Hrun) as [(e & Hm' & ->) | (w1 & a & Hm' & Hf')].
  - destruct (Hm _ _ _ Hm') as (evs & Ht & Hp). exists evs. split; [done |].
    by apply prefix_app_r.
  - destruct (Hm _ _ _ Hm') as (evs1 & Ht1 & H1).
    destruct (Hf _ _ _ _ Hf') as (evs2 & Ht2 & H2).
    exists (evs1 ++ evs2). split; [by rewrite Ht2, Ht1, app_assoc |].
    rewrite omap_app, H1. destruct r as [e | b].
    + by apply prefix_app.
    + by rewrite H2.
Qed.

Lemma follows_with_device {A} d (body : M A) s :
  proj (EvDeviceEnter d) = None -> proj (EvDeviceExit d) = None ->
  follows proj body s -> follows proj (with_device d body) s.
Proof.
  intros Hin Hout Hbody w w' r. unfold with_device, bind, log.
  destruct (body _) as [w1 r1] eqn:Hb. intros [= <- <-].
  destruct (Hbody _ _ _ Hb) as (evs & Ht & Hs).
  exists (EvDeviceEnter d :: evs ++ [EvDeviceExit d]). split.
  - cbn in *. rewrite Ht. by rewrite <- !app_assoc.
  - assert (Heq : omap proj (EvDeviceEnter d :: evs ++ [EvDeviceExit d])
                  = omap proj evs).
    { cbn. rewrite Hin, omap_app. cbn. rewrite Hout. apply app_nil_r. }
    by rewrite Heq.
Qed.

End Follows.

Section Order.

Variable fw : Framework.

Ltac silent := apply follows_silent; repeat only_step.

Lemma follows_miccai2018_net vol_size nf_enc nf_dec :
  follows step_of (miccai2018_net fw vol_size nf_enc nf_dec) [StBuild].
Proof.
  unfold miccai2018_net.
  eapply follows_bind; [apply follows_log | intros _ | done].
  destruct (net_init _ _ _ _); silent.
Qed.

Lemma follows_load_weights model f :
  follows step_of (load_weights model f) [StLoadWeights f].
Proof.
  unfold load_weights.
  eapply follows_bind; [apply follows_log | intros _ | done].
  apply follows_silent. only_bind fs0; [only_step |].
  only_bind c; [only_step |]. destruct c; only_step.
Qed.

Lemma follows_save model p : follows step_of (save model p) [StSave].
Proof.
  unfold save, put_fs.
  eapply follows_bind; [apply follows_log | intros _ | done].
  apply follows_silent. only_bind fs0; [only_step |]. only_bind fs1; only_step.
Qed.

Lemma follows_compile model o l :
  follows step_of (compile model o l) [StCompile o l].
Proof.
  unfold compile.
  eapply follows_bind; [apply follows_log | intros _; apply follows_ret | done].
Qed.

Lemma follows_next g : follows step_of (next fw g) [StDraw].
Proof.
  unfold next.
  eapply follows_bind; [apply follows_log | intros _ | done].
  apply follows_silent. only_bind fs0; [only_step |]. only_bind r; [only_step |].
  destruct (read_volumes _ _ _ _ _) as [[sh d] |]; only_step.
Qed.

Lemma follows_train_on_batch model b :
  follows step_of (train_on_batch fw model b) [StOptimize].
Proof.
  unfold train_on_batch, put_heap.
  eapply follows_bind; [apply follows_log | intros _ | done].
  apply follows_silent. destruct (compiled model); [| only_step].
  only_bind h; [only_step |].
  destruct (train_step _ _ _ _) as [[w' h'] |]; only_step.
Qed.

Lemma follows_fit_steps n model g :
  follows step_of (fit_steps fw n model g)
    (concat (replicate n [StDraw; StOptimize])).
Proof.
  revert model. induction n as [| n IH]; intros model; simpl.
  - apply follows_ret.
  - eapply follows_bind; [apply follows_next | intros b | reflexivity].
    eapply follows_bind; [apply follows_train_on_batch | intros m; apply IH | done].
Qed.

Lemma follows_fit_epochs n epoch model g template steps :
  follows step_of
    (fit_epochs fw n epoch model g [ModelCheckpoint template] steps)
    (concat (replicate n (epoch_schedule (Z.to_nat steps)))).
Proof.
  revert epoch model. induction n as [| n IH]; intros epoch model.
  - apply follows_ret.
  - cbn [fit_epochs].
    change (concat (replicate (Datatypes.S n) ?x))
      with (x ++ concat (replicate n x)).
    eapply follows_bind with
      (s1 := [])
      (s2 := epoch_schedule (Z.to_nat steps)
             ++ concat (replicate n (epoch_schedule (Z.to_nat steps))));
      [exact (follows_log step_of (EvEpochBegin epoch)) | intros _
      | reflexivity].
    unfold epoch_schedule at 1. rewrite <- app_assoc.
    eapply follows_bind; [apply follows_fit_steps | intros model' | reflexivity].
    eapply follows_bind; [| intros _; apply IH | reflexivity].
    eapply follows_bind; [| intros _; apply follows_ret | symmetry; apply app_nil_r].
    unfold on_epoch_end.
    destruct (Format.format template (epoch + 1)) as [e | p]; simpl.
    + intros w w' r [= <- <-]. exists []. split; [by rewrite app_nil_r |].
      apply prefix_nil.
    + change (follows step_of (save model' p) [StSave]). apply follows_save.
Qed.

Lemma follows_prepare_the_model gpu vol_size nf_enc nf_dec model_dir lr
  prior_lambda image_sigma load_model_file initial_epoch :
  follows step_of
    (prepare_the_model fw gpu vol_size nf_enc nf_dec model_dir lr prior_lambda
       image_sigma load_model_file initial_epoch)
    ([StBuild]
     ++ match load_model_file with Some f => [StLoadWeights f] | None => [] end
     ++ [StSave;
         StCompile (Adam lr)
           [recon_loss {| image_sigma := image_sigma;
                          prior_lambda := prior_lambda |};
            kl_loss {| image_sigma := image_sigma;
                       prior_lambda := prior_lambda |}]]).
Proof.
  unfold prepare_the_model. apply follows_with_device; [done | done |].
  eapply follows_bind; [apply follows_miccai2018_net | intros model0 | done].
  eapply follows_bind; [| intros model1 | reflexivity].
  { destruct load_model_file as [f |];
      [apply follows_load_weights | apply follows_ret]. }
  eapply follows_bind;
    [apply follows_save | intros _; apply follows_compile | done].
Qed.

Lemma follows_fit gpu model g model_dir initial_epoch nb_epochs steps_per_epoch :
  follows step_of
    (fit fw gpu model g model_dir initial_epoch nb_epochs steps_per_epoch)
    (concat (replicate (Z.to_nat (nb_epochs - initial_epoch))
               (epoch_schedule (Z.to_nat steps_per_epoch)))).
Proof.
  unfold fit, fit_generator. apply follows_with_device; [done | done |].
  apply follows_fit_epochs.
Qed.

Lemma follows_train data_dir atlas_file model_dir gpu_id lr nb_epochs
  prior_lambda image_sigma steps_per_epoch batch_size load_model_file
  initial_epoch :
  follows step_of
    (train fw data_dir atlas_file model_dir gpu_id lr nb_epochs prior_lambda
       image_sigma steps_per_epoch batch_size load_model_file initial_epoch)
    (schedule lr prior_lambda image_sigma load_model_file initial_epoch
       nb_epochs steps_per_epoch).
Proof.
  unfold train.
  set (sch := schedule lr prior_lambda image_sigma load_model_file
                initial_epoch nb_epochs steps_per_epoch).
  eapply follows_bind with (s1 := []) (s2 := sch); [| intros atlas_vol | done].
  { by apply follows_silent, only_load_atlas. }
  eapply follows_bind with (s1 := []) (s2 := sch); [| intros names | done].
  { by apply follows_silent, only_prepare_data_files. }
  eapply follows_bind with (s1 := []) (s2 := sch); [| intros u | done].
  { by apply follows_silent, only_prepare_model_folder. }
  eapply follows_bind with (s1 := []) (s2 := sch); [| intros gpu | done].
  { by apply follows_silent, only_gpu_handling. }
  eapply follows_bind with
    (s2 := concat (replicate (Z.to_nat (nb_epochs - initial_epoch))
                     (epoch_schedule (Z.to_nat steps_per_epoch))));
    [apply follows_prepare_the_model | intros model
    | unfold sch, schedule; by rewrite <- !app_assoc].
  eapply follows_bind with (s1 := []); [| intros g | reflexivity].
  { by apply follows_silent, only_data_generator. }
  eapply follows_bind;
    [apply follows_fit | intros _; apply follows_ret
    | symmetry; apply app_nil_r].
Qed.

End Order.

(** ** The steps without the draws *)

Lemma omap_omap {A B C} (f : A -> option B) (g : B -> option C) (l : list A) :
  omap g (omap f l) = omap (fun x => f x ≫= g) l.
Proof.
  induction l as [| x l IH]; [done |]. cbn.
  destruct (f x) as [b |]; cbn; [| done]. destruct (g b); by rewrite IH.
Qed.

Lemma omap_concat_replicate {A B} (f : A -> option B) n (l : list A) :
  omap f (concat (replicate n l)) = concat (replicate n (omap f l)).
Proof.
  induction n as [| n IH]; [done |]. cbn. by rewrite omap_app, IH.
Qed.

Lemma app_eq_split {A} (l1 l2 pre post : list A) x :
  l1 ++ l2 = pre ++ x :: post -> x ∉ l1 -> exists k, pre = l1 ++ k.
Proof.
  revert pre. induction l1 as [| a l1 IH]; intros pre Heq Hx; [by exists pre |].
  destruct pre as [| b pre]; simplify_eq/=.
  - destruct Hx. apply list_elem_of_here.
  - destruct (IH pre) as [k ->]; [done | | by exists k].
    intros ?. apply Hx. by apply list_elem_of_further.
Qed.

Lemma omap_prefix {A B} (f : A -> option B) (l1 l2 : list A) :
  l1 `prefix_of` l2 -> omap f l1 `prefix_of` omap f l2.
Proof. intros [k ->]. rewrite omap_app. by apply prefix_app_r. Qed.

Lemma order_of_steps (evs : list Event) :
  omap order_of evs = omap without_draw (omap step_of evs).
Proof.
  rewrite omap_omap. induction evs as [| ev evs IH]; [done |].
  cbn. rewrite IH. by destruct ev.
Qed.

Lemma without_draw_replicate n :
  omap without_draw (concat (replicate n [StDraw; StOptimize]))
  = replicate n StOptimize.
Proof. induction n as [| n IH]; [done |]. cbn. by rewrite IH. Qed.

Lemma schedule_without_draws lr prior_lambda image_sigma load_model_file
  initial_epoch nb_epochs steps_per_epoch :
  omap without_draw
    (schedule lr prior_lambda image_sigma load_model_file initial_epoch
       nb_epochs steps_per_epoch)
  = life_cycle lr prior_lambda image_sigma load_model_file initial_epoch
      nb_epochs steps_per_epoch.
Proof.
  unfold schedule, life_cycle, epoch_schedule, epoch_order.
  rewrite !omap_app, omap_concat_replicate, omap_app, without_draw_replicate.
  by destruct load_model_file.
Qed.

(** No batch is drawn before the model is compiled. *)
Lemma draw_after_compile lr prior_lambda image_sigma load_model_file
  initial_epoch nb_epochs steps_per_epoch (evs pre post : list Event) :
  omap step_of evs `prefix_of`
    schedule lr prior_lambda image_sigma load_model_file initial_epoch
      nb_epochs steps_per_epoch ->
  evs = pre ++ EvNextBatch :: post ->
  exists o l, EvCompile o l ∈ pre.
Proof.
  intros [k Hk] ->. rewrite omap_app in Hk.
  change (omap step_of (EvNextBatch :: post))
    with (StDraw :: omap step_of post) in Hk.
  set (c := StCompile (Adam lr)
              [recon_loss {| image_sigma := image_sigma;
                             prior_lambda := prior_lambda |};
               kl_loss {| image_sigma := image_sigma;
                          prior_lambda := prior_lambda |}]).
  set (setup := [StBuild]
                ++ match load_model_file with
                   | Some f => [StLoadWeights f]
                   | None => []
                   end ++ [StSave; c]).
  assert (Hs : schedule lr prior_lambda image_sigma load_model_file
                 initial_epoch nb_epochs steps_per_epoch
               = setup ++ concat (replicate (Z.to_nat (nb_epochs - initial_epoch))
                                    (epoch_schedule (Z.to_nat steps_per_epoch)))).
  { unfold schedule, setup. by rewrite <- !app_assoc. }
  rewrite Hs, <- app_assoc in Hk.
  assert (Hin : StDraw ∉ setup).
  { unfold setup. destruct load_model_file; cbn; intros Hin;
      repeat (apply elem_of_cons in Hin as [[=] | Hin]);
      by apply elem_of_nil in Hin. }
  destruct (app_eq_split _ _ _ _ _ Hk Hin) as [k' Hpre].
  assert (Hc : c ∈ omap step_of pre).
  { rewrite Hpre. apply elem_of_app. left. unfold setup.
    destruct load_model_file; cbn; rewrite !elem_of_cons; tauto. }
  apply list_elem_of_omap in Hc as (ev & Hev & Hstep).
  destruct ev; simplify_eq/=. by eauto.
Qed.

Lemma fed_app_l c (l1 l2 : list Step) :
  fed c (l1 ++ l2) = true -> fed c l1 = true.
Proof.
  revert c. induction l1 as [| s l1 IH]; intros c; [done |].
  destruct s; cbn; try apply IH. destruct c; [done | apply IH].
Qed.

Lemma fed_pairs c n (l : list Step) :
  fed c (concat (replicate n [StDraw; StOptimize]) ++ l) = fed c l.
Proof. induction n as [| n IH]; [done |]. cbn. apply IH. Qed.

Lemma fed_epochs c n steps (l : list Step) :
  fed c (concat (replicate n (epoch_schedule steps)) ++ l) = fed c l.
Proof.
  induction n as [| n IH]; [done |]. cbn [replicate concat].
  unfold epoch_schedule at 1. rewrite <- !app_assoc, fed_pairs. cbn. apply IH.
Qed.

Lemma fed_schedule lr prior_lambda image_sigma load_model_file initial_epoch
  nb_epochs steps_per_epoch :
  fed 0 (schedule lr prior_lambda image_sigma load_model_file initial_epoch
           nb_epochs steps_per_epoch) = true.
Proof.
  unfold schedule.
  destruct load_model_file; cbn;
    by rewrite <- (app_nil_r (concat _)), fed_epochs.
Qed.

Lemma fed_optimise c (pre : list Event) :
  fed c (omap step_of pre ++ [StOptimize]) = true ->
  (optimised pre < c + drawn pre)%nat.
Proof.
  unfold optimised, drawn. revert c.
  induction pre as [| ev pre IH]; intros c.
  - destruct c; cbn; [done | lia].
  - destruct ev; cbn; try apply IH.
    + intros H. apply IH in H. lia.
    + destruct c; [done |]. intros H. apply IH in H. lia.
Qed.

(** Every optimisation has its batch drawn before. *)
Lemma draw_before_optimise lr prior_lambda image_sigma load_model_file
  initial_epoch nb_epochs steps_per_epoch (evs pre post : list Event) b :
  omap step_of evs `prefix_of`
    schedule lr prior_lambda image_sigma load_model_file initial_epoch
      nb_epochs steps_per_epoch ->
  evs = pre ++ EvTrainOnBatch b :: post ->
  (optimised pre < drawn pre)%nat.
Proof.
  intros [k Hk] ->. rewrite omap_app in Hk.
  change (omap step_of (EvTrainOnBatch b :: post))
    with (StOptimize :: omap step_of post) in Hk.
  pose proof (fed_schedule lr prior_lambda image_sigma load_model_file
                initial_epoch nb_epochs steps_per_epoch) as Hfed.
  rewrite Hk in Hfed.
  assert (Heq : (omap step_of pre ++ StOptimize :: omap step_of post) ++ k
                = (omap step_of pre ++ [StOptimize])
                  ++ (omap step_of post ++ k))
    by (by rewrite <- !app_assoc).
  rewrite Heq in Hfed. apply fed_app_l, fed_optimise in Hfed. lia.
Qed.

(** ** C2 *)

(** C2. Every run of [train] goes through its steps in one order: the network
    is built, the initial weights are loaded when a file is given, the
    checkpoint of the initial epoch is saved, the model is compiled with Adam
    and the two losses [recon_loss] and [kl_loss], and then come
    [nb_epochs - initial_epoch] epochs, each made of [steps_per_epoch]
    optimisations and a checkpoint.  A run that returns has made exactly
    these steps; a run that raises has made a first part of them.  The
    batches are drawn in between, at times the script does not fix (Keras
    draws them ahead of their use): no batch is drawn before the model is
    compiled, and every optimisation comes after more draws than there were
    optimisations before it. *)
Theorem train_follows_schedule
  fw data_dir atlas_file model_dir gpu_id lr nb_epochs prior_lambda image_sigma
  steps_per_epoch batch_size load_model_file initial_epoch w w' r :
  train fw data_dir atlas_file model_dir gpu_id lr nb_epochs prior_lambda
    image_sigma steps_per_epoch batch_size load_model_file initial_epoch w
  = (w', r) ->
  exists evs, trace w' = trace w ++ evs /\
    match r with
    | inr _ =>
        omap order_of evs =
        life_cycle lr prior_lambda image_sigma load_model_file initial_epoch
          nb_epochs steps_per_epoch
    | inl _ =>
        omap order_of evs `prefix_of`
        life_cycle lr prior_lambda image_sigma load_model_file initial_epoch
          nb_epochs steps_per_epoch
    end /\
    (forall pre post, evs = pre ++ EvNextBatch :: post ->
       exists o l, EvCompile o l ∈ pre) /\
    (forall pre b post, evs = pre ++ EvTrainOnBatch b :: post ->
       (optimised pre < drawn pre)%nat).
Proof.
  intros Hrun.
  destruct (follows_train _ _ _ _ _ _ _ _ _ _ _ _ _ _ _ _ Hrun)
    as (evs & Ht & Hfol).
  assert (Hpre : omap step_of evs `prefix_of`
            schedule lr prior_lambda image_sigma load_model_file initial_epoch
              nb_epochs steps_per_epoch).
  { destruct r; [done | by rewrite Hfol]. }
  exists evs. split; [done |]. split; [| split].
  - rewrite order_of_steps, <- schedule_without_draws.
    destruct r; [by apply omap_prefix | by rewrite Hfol].
  - intros pre post Heq. by eapply draw_after_compile.
  - intros pre b post Heq. by eapply draw_before_optimise.
Qed.

Lemma train_follows_schedule_witness :
  exists evs, trace (fst Demo.run) = trace Demo.world ++ evs /\
    omap order_of evs =
    life_cycle (PyFloat (1 # 10000)) (PyInt 10) (PyFloat (2 # 100)) None 0 2 5
    /\
    (forall pre post, evs = pre ++ EvNextBatch :: post ->
       exists o l, EvCompile o l ∈ pre) /\
    (forall pre b post, evs = pre ++ EvTrainOnBatch b :: post ->
       (optimised pre < drawn pre)%nat).
Proof.
  apply (train_follows_schedule Demo.fw "data" "atlas.npz" "models" 0
           (PyFloat (1 # 10000)) 2 (PyInt 10) (PyFloat (2 # 100)) 5 1 None 0
           Demo.world (fst Demo.run) (inr tt)).
  vm_compute. reflexivity.
Defined.

(** ** [random.shuffle] *)

Section Shuffle.

Context {A : Type}.
Implicit Types x : list A.

Lemma insert_displaces x i a b :
  x !! i = Some b -> a :: x ≡ₚ b :: <[i := a]> x.
Proof.
  revert i. induction x as [| c x IH]; intros [| i] Hi; simplify_eq/=.
  - apply Permutation_swap.
  - rewrite (Permutation_swap c a x), (IH _ Hi). apply Permutation_swap.
Qed.

Lemma swap_perm x i j : Random.swap x i j ≡ₚ x.
Proof.
  unfold Random.swap.
  destruct (x !! i) as [a |] eqn:Hi; [| done].
  destruct (x !! j) as [b |] eqn:Hj; [| done].
  assert (Hj' : <[i := b]> x !! j = Some b).
  { destruct (decide (i = j)) as [-> | Hne].
    - apply list_lookup_insert_eq. by eapply lookup_lt_Some.
    - by rewrite list_lookup_insert_ne. }
  apply (Permutation_cons_inv (a := b)).
  rewrite <- (insert_displaces _ _ a b Hj').
  symmetry. by apply insert_displaces.
Qed.


Lemma shuffle_from_perm i draws x : Random.shuffle_from i draws x ≡ₚ x.
Proof.
  revert draws x. induction i as [| i IH]; intros draws x; simpl; [done |].
  by rewrite IH, swap_perm.
Qed.

Lemma shuffle_from_length i draws x :
  length (Random.shuffle_from i draws x) = length x.
Proof. apply Permutation_length, shuffle_from_perm. Qed.




End Shuffle.

(** ** Paths and patterns *)

Lemma append_cons c a b : String c a +:+ b = String c (a +:+ b).
Proof. reflexivity. Qed.

Lemma append_empty b : "" +:+ b = b.
Proof. reflexivity. Qed.

Lemma endswith_cons c s p :
  Py.endswith (String c s) p = String.eqb (String c s) p || Py.endswith s p.
Proof. cbn [Py.endswith]. by destruct (String.eqb _ _). Qed.

Lemma rstrip_sep_fixed d : Py.endswith d "/" = false -> Py.rstrip_sep d = d.
Proof.
  induction d as [| c d IH]; [done |].
  rewrite endswith_cons. intros [H1 H2]%orb_false_elim.
  cbn [Py.rstrip_sep]. rewrite (IH H2).
  destruct (String.eqb_spec d "") as [-> | Hd]; [| done].
  destruct (Ascii.eqb_spec c "/") as [-> | Hc]; [| done].
  done.
Qed.

Lemma rstrip_sep_app_sep d : Py.rstrip_sep (d +:+ "/") = Py.rstrip_sep d.
Proof.
  induction d as [| c d IH]; [done |].
  rewrite append_cons. cbn [Py.rstrip_sep]. by rewrite IH.
Qed.

Lemma all_sep_app_sep d : Py.all_sep (d +:+ "/") = Py.all_sep d.
Proof.
  induction d as [| c d IH]; [done |].
  rewrite append_cons. cbn [Py.all_sep]. by rewrite IH.
Qed.

Lemma all_sep_endswith d :
  d <> "" -> Py.all_sep d = true -> Py.endswith d "/" = true.
Proof.
  induction d as [| c d IH]; [done |]. intros _.
  cbn [Py.all_sep]. intros [Hc Hd]%andb_true_iff.
  apply Ascii.eqb_eq in Hc as ->. rewrite endswith_cons.
  destruct d as [| c' d]; [done |].
  rewrite IH; [apply orb_true_r | done | done].
Qed.

Lemma contains_app c a b :
  Py.contains c (a +:+ b) = Py.contains c a || Py.contains c b.
Proof.
  induction a as [| x a IH]; [done |].
  rewrite append_cons. cbn [Py.contains]. rewrite IH. apply orb_assoc.
Qed.

Lemma rsplit_sep_none t : Py.contains "/" t = false -> OsPath.rsplit_sep t = None.
Proof.
  induction t as [| c t IH]; [done |].
  cbn [Py.contains]. intros [Hc Ht]%orb_false_elim.
  cbn [OsPath.rsplit_sep]. rewrite (IH Ht).
  rewrite Ascii.eqb_sym in Hc. by rewrite Hc.
Qed.

Lemma rsplit_sep_app d t :
  Py.contains "/" t = false ->
  OsPath.rsplit_sep (d +:+ "/" +:+ t) = Some (d +:+ "/", t).
Proof.
  intros Ht. induction d as [| c d IH].
  - rewrite append_empty. change ("/" +:+ t) with (String "/" t).
    cbn [OsPath.rsplit_sep]. by rewrite (rsplit_sep_none _ Ht).
  - change (String c d +:+ "/" +:+ t) with (String c (d +:+ "/" +:+ t)).
    cbn [OsPath.rsplit_sep]. by rewrite IH.
Qed.

(** A directory name that is not empty and does not end in a separator is
    the directory part of [data_dir/name]. *)
Lemma split_join d t :
  d <> "" -> Py.endswith d "/" = false ->
  Py.contains "/" t = false ->
  OsPath.join d t = d +:+ "/" +:+ t /\
  OsPath.split (d +:+ "/" +:+ t) = (d, t).
Proof.
  intros Hd Hend Ht. split.
  - unfold OsPath.join.
    assert (Py.startswith t OsPath.sep = false) as ->.
    { destruct t as [| c t]; [done |]. cbn [Py.contains] in Ht.
      apply orb_false_elim in Ht as [Hc _].
      apply Ascii.eqb_neq in Hc.
      unfold Py.startswith, OsPath.sep. cbn [String.prefix].
      by destruct (ascii_dec "/" c). }
    unfold OsPath.sep. rewrite Hend.
    by destruct (String.eqb_spec d "") as [-> | _].
  - unfold OsPath.split. rewrite (rsplit_sep_app _ _ Ht).
    rewrite all_sep_app_sep.
    destruct (Py.all_sep d) eqn:Hall.
    + by rewrite (all_sep_endswith _ Hd Hall) in Hend.
    + by rewrite rstrip_sep_app_sep, rstrip_sep_fixed.
Qed.

Lemma matches_literal p s :
  Forall (fun c => c <> "*"%char /\ c <> "?"%char) p ->
  Fnmatch.matches p s = true <-> s = p.
Proof.
  intros Hp. revert s. induction Hp as [| c p [Hstar Hq] _ IH]; intros s.
  - destruct s; simpl; split; congruence.
  - cbn [Fnmatch.matches].
    apply Ascii.eqb_neq in Hstar as ->. apply Ascii.eqb_neq in Hq as ->.
    destruct s as [| c' s]; [split; congruence |].
    rewrite orb_false_l, andb_true_iff, IH, Ascii.eqb_eq.
    split; [intros [-> ->]; done | intros [= -> ->]; done].
Qed.

Lemma matches_star p s :
  Fnmatch.matches ("*"%char :: p) s =
  Fnmatch.matches p s ||
  match s with
  | [] => false
  | _ :: s' => Fnmatch.matches ("*"%char :: p) s'
  end.
Proof. by destruct s. Qed.

(** The pattern [*.npz] matches the names that end in [.npz]. *)
Lemma fnmatch_npz n : Fnmatch.fnmatch n "*.npz" = Py.endswith n ".npz".
Proof.
  unfold Fnmatch.fnmatch.
  set (lit := list_ascii_of_string ".npz").
  change (list_ascii_of_string "*.npz") with ("*"%char :: lit).
  induction n as [| c n IH]; [done |].
  change (list_ascii_of_string (String c n))
    with (c :: list_ascii_of_string n).
  rewrite matches_star, endswith_cons, IH. f_equal.
  apply eq_true_iff_eq. rewrite String.eqb_eq, matches_literal.
  - change (c :: list_ascii_of_string n)
      with (list_ascii_of_string (String c n)).
    split; [| by intros ->].
    intros H. apply (f_equal string_of_list_ascii) in H.
    by rewrite string_of_list_ascii_of_string in H.
  - repeat constructor; done.
Qed.

(** ** [glob] on a literal directory *)


Lemma glob_literal_dir fs d :
  d <> "" -> Py.endswith d "/" = false -> Fnmatch.has_magic d = false ->
  Glob.glob fs (OsPath.join d "*.npz") = npz_files_in fs d.
Proof.
  intros Hd Hend Hmagic.
  destruct (split_join d "*.npz" Hd Hend eq_refl) as [-> Hsplit].
  unfold Glob.glob. cbn [Glob.iglob]. rewrite Hsplit.
  assert (Fnmatch.has_magic (d +:+ "/" +:+ "*.npz") = true) as ->.
  { unfold Fnmatch.has_magic. rewrite !contains_app. cbn.
    by rewrite !orb_true_r. }
  cbn [negb]. destruct (String.eqb_spec d "") as [-> | _]; [done |].
  rewrite Hmagic, andb_false_r.
  change (Fnmatch.has_magic "*.npz") with true. cbn [flat_map].
  rewrite app_nil_r. unfold npz_files_in, Glob.glob1.
  change (Fnmatch.ishidden "*.npz") with false. cbn match.
  f_equal. rewrite list_filter_filter.
  apply list_filter_iff. intros n. by rewrite fnmatch_npz.
Qed.

(** ** C9 *)




(** ** The command line *)

Section ParseArgs.

Import Argparse.

Variable p : list Argument.
Variable d : string.

Lemma store_untouched v a text st st' :
  untouched d v st -> dest a <> d -> store a text st = inr st' -> untouched d v st'.
Proof.
  intros [Hns _] Ha. unfold store. destruct (convert _ _); [| done].
  intros [= <-]. split; [| done]. cbn. by rewrite lookup_insert_ne.
Qed.

Lemma step_untouched v st tok st' :
  untouched d v st -> selected p tok <> Some d ->
  step p st tok = inr st' -> untouched d v st'.
Proof.
  intros Hst Hsel. unfold step.
  destruct (pending st) as [a |] eqn:Hpend.
  { destruct (looks_like_option tok); [done |].
    apply store_untouched; [done |]. by apply Hst. }
  pose proof Hst as [Hns _].
  destruct (only_args st || negb (looks_like_option tok)) eqn:Hopt.
  { intros [= <-]. by split. }
  apply orb_false_elim in Hopt as [_ Hopt%negb_false_iff].
  destruct (String.eqb tok "--"); [intros [= <-]; by split |].
  destruct (String.eqb tok "-h"); [done |].
  unfold selected in Hsel. rewrite Hopt in Hsel. cbn [andb] in Hsel.
  destruct (Py.startswith tok "--"); [| intros [= <-]; by split].
  destruct (Py.partition "=" tok) as [name explicit]. cbn [fst] in Hsel.
  destruct (resolve p name) as [a | | |]; try done.
  - assert (Ha : dest a <> d) by congruence.
    destruct explicit as [text |].
    + by apply store_untouched.
    + intros [= <-]. split; [done |]. cbn. by intros ? [= <-].
  - intros [= <-]. by split.
Qed.

Lemma steps_untouched v argv st st' :
  untouched d v st -> Forall (fun tok => selected p tok <> Some d) argv ->
  steps p st argv = inr st' -> untouched d v st'.
Proof.
  intros Hst Hall. revert st Hst.
  induction Hall as [| tok argv Htok _ IH]; intros st Hst; cbn [steps].
  - by intros [= <-].
  - destruct (step p st tok) as [e | st1] eqn:Hstep; [done |].
    apply IH. by eapply step_untouched.
Qed.

Lemma bind_positionals_other ps texts n kw :
  Forall (fun a => dest a <> d) ps ->
  bind_positionals ps texts n = inr kw -> kw !! d = n !! d.
Proof.
  intros Hps. revert texts n.
  induction Hps as [| a ps Ha _ IH]; intros texts n; cbn [bind_positionals].
  - destruct texts; [by intros [= <-] | done].
  - destruct texts as [| t texts]; [done |].
    destruct (convert _ _) as [v |]; [| done].
    intros H. rewrite (IH _ _ H). by apply lookup_insert_ne.
Qed.

(** An option nobody selects keeps its default. *)
Lemma parse_args_default v argv kw :
  defaults p !! d = Some v ->
  Forall (fun a => dest a <> d) (positionals p) ->
  Forall (fun tok => selected p tok <> Some d) argv ->
  parse_args p argv = inr kw -> kw !! d = Some v.
Proof.
  intros Hdef Hpos Hargv. unfold parse_args.
  destruct (steps _ _ _) as [e | st] eqn:Hsteps; [done |].
  eapply (steps_untouched v) in Hsteps as [Hns _]; [| by split | done].
  destruct (pending st); [done |]. destruct (extras st); [| done].
  intros H. by rewrite (bind_positionals_other _ _ _ _ Hpos H).
Qed.

(** An entry that only string-typed arguments store to holds a string. *)
Hypothesis str_typed : Forall (fun a => dest a = d -> type a = TStr) p.

Lemma resolve_in name a : resolve p name = Opt a -> a ∈ p.
Proof.
  unfold resolve. destruct (String.eqb name "--help"); [done |].
  destruct (List.filter (fun a => String.eqb (flag a) name) (optionals p))
    as [| a' l] eqn:Hexact.
  - destruct (List.filter (fun a => Py.startswith (flag a) name) (optionals p))
      as [| a' [| a'' l]] eqn:Hprefix.
    + by destruct (Py.startswith "--help" name).
    + destruct (Py.startswith "--help" name); [done |]. intros [= <-].
      assert (Hin : In a' (List.filter (fun a => Py.startswith (flag a) name)
                             (optionals p))) by (rewrite Hprefix; by left).
      apply filter_In in Hin as [Hin _]. apply filter_In in Hin as [Hin _].
      by apply list_elem_of_In.
    + by destruct (Py.startswith "--help" name).
  - intros [= <-].
    assert (Hin : In a' (List.filter (fun a => String.eqb (flag a) name)
                           (optionals p))) by (rewrite Hexact; by left).
    apply filter_In in Hin as [Hin _]. apply filter_In in Hin as [Hin _].
    by apply list_elem_of_In.
Qed.

Lemma store_holds_str a text st st' :
  a ∈ p -> holds_str d st -> store a text st = inr st' -> holds_str d st'.
Proof.
  intros Ha [s Hs]. unfold store.
  destruct (convert (type a) text) as [v |] eqn:Hconv; [| done].
  intros [= <-]. unfold holds_str. cbn.
  destruct (decide (dest a = d)) as [Hd | Hd].
  - rewrite Forall_forall in str_typed. rewrite (str_typed a Ha Hd) in Hconv.
    injection Hconv as <-. rewrite <- Hd, lookup_insert_eq. eauto.
  - rewrite lookup_insert_ne by done. eauto.
Qed.

Lemma step_holds_str st tok st' :
  holds_str d st /\ (forall a, pending st = Some a -> a ∈ p) ->
  step p st tok = inr st' ->
  holds_str d st' /\ (forall a, pending st' = Some a -> a ∈ p).
Proof.
  intros [Hst Hpend]. unfold step.
  destruct (pending st) as [a |] eqn:Hp.
  { destruct (looks_like_option tok); [done |]. intros H. split.
    - eapply store_holds_str; [| done | done]. by apply Hpend.
    - revert H. unfold store. destruct (convert _ _); [| done].
      by intros [= <-]. }
  destruct (only_args st || negb (looks_like_option tok)).
  { by intros [= <-]. }
  destruct (String.eqb tok "--"); [by intros [= <-] |].
  destruct (String.eqb tok "-h"); [done |].
  destruct (Py.startswith tok "--"); [| by intros [= <-]].
  destruct (Py.partition "=" tok) as [name explicit].
  destruct (resolve p name) as [a | | |] eqn:Hres; try done.
  - apply resolve_in in Hres. destruct explicit as [text |].
    + intros H. split; [by eapply store_holds_str |].
      revert H. unfold store. destruct (convert _ _); [| done].
      by intros [= <-].
    + intros [= <-]. split; [done |]. cbn. by intros ? [= <-].
  - by intros [= <-].
Qed.

Lemma steps_holds_str argv st st' :
  holds_str d st /\ (forall a, pending st = Some a -> a ∈ p) ->
  steps p st argv = inr st' -> holds_str d st'.
Proof.
  revert st. induction argv as [| tok argv IH]; intros st Hst; cbn [steps].
  - intros [= <-]. by destruct Hst.
  - destruct (step p st tok) as [e | st1] eqn:Hstep; [done |].
    apply IH. by eapply step_holds_str.
Qed.

Lemma step_args st tok st' :
  step p st tok = inr st' -> forall t, t ∈ args st' -> t ∈ args st \/ t = tok.
Proof.
  unfold step, store.
  repeat match goal with
         | |- context [match ?x with _ => _ end] => destruct x
         | |- context [if ?x then _ else _] => destruct x
         | |- (let '(_, _) := ?x in _) = _ -> _ => destruct x
         end;
    try done; intros [= <-] t; cbn; try (by left).
  all: rewrite elem_of_app, list_elem_of_singleton; tauto.
Qed.

Lemma steps_args argv st st' :
  steps p st argv = inr st' ->
  forall t, t ∈ args st' -> t ∈ args st \/ t ∈ argv.
Proof.
  revert st. induction argv as [| tok argv IH]; intros st; cbn [steps].
  - intros [= <-] t Ht. by left.
  - destruct (step p st tok) as [e | st1] eqn:Hstep; [done |].
    intros Hsteps t Ht.
    destruct (IH _ Hsteps t Ht) as [H1 | H1]; [| right; by right].
    destruct (step_args _ _ _ Hstep t H1) as [H2 | ->]; [by left |].
    right. by left.
Qed.

End ParseArgs.

(** ** C5 *)

(** C5. The parser takes one positional argument, [data_dir], stored as the
    string given on the command line; and every option of which the command
    line selects none keeps the default of the script: [--lr] 1e-4,
    [--epochs] 1500, [--prior_lambda] 10, [--image_sigma] 0.02,
    [--steps_per_epoch] 100 and [--batch_size] 1. *)
Theorem parser_defaults argv kw :
  Argparse.parse_args Argparse.parser argv = inr kw ->
  (exists s, s ∈ argv /\ kw !! "data_dir" = Some (PyStr s)) /\
  (Forall (fun tok => selected Argparse.parser tok <> Some "lr") argv ->
   kw !! "lr" = Some (PyFloat (1 # 10000))) /\
  (Forall (fun tok => selected Argparse.parser tok <> Some "nb_epochs") argv ->
   kw !! "nb_epochs" = Some (PyInt 1500)) /\
  (Forall (fun tok => selected Argparse.parser tok <> Some "prior_lambda") argv ->
   kw !! "prior_lambda" = Some (PyInt 10)) /\
  (Forall (fun tok => selected Argparse.parser tok <> Some "image_sigma") argv ->
   kw !! "image_sigma" = Some (PyFloat (2 # 100))) /\
  (Forall (fun tok => selected Argparse.parser tok <> Some "steps_per_epoch") argv ->
   kw !! "steps_per_epoch" = Some (PyInt 100)) /\
  (Forall (fun tok => selected Argparse.parser tok <> Some "batch_size") argv ->
   kw !! "batch_size" = Some (PyInt 1)).
Proof.
  intros Hparse.
  assert (Hdefault : forall d v,
    Argparse.defaults Argparse.parser !! d = Some v -> d <> "data_dir" ->
    Forall (fun tok => selected Argparse.parser tok <> Some d) argv ->
    kw !! d = Some v).
  { intros d v Hd Hne Hargv.
    eapply parse_args_default; [done | | done | done].
    by repeat constructor. }
  split; [| repeat split; intros H; by apply Hdefault].
  revert Hparse. unfold Argparse.parse_args.
  destruct (Argparse.steps _ _ _) as [e | st] eqn:Hsteps; [done |].
  destruct (Argparse.pending st); [done |].
  destruct (Argparse.extras st); [| done].
  change (Argparse.positionals Argparse.parser)
    with [{| Argparse.flag := "data_dir"; Argparse.type := Argparse.TStr;
             Argparse.dest := "data_dir"; Argparse.default := None;
             Argparse.help := "data folder" |}].
  cbn [Argparse.bind_positionals].
  destruct (Argparse.args st) as [| s [| s' l]] eqn:Hargs; try done.
  cbn. intros [= <-]. exists s. split; [| apply lookup_insert_eq].
  destruct (steps_args _ _ _ _ Hsteps s) as [H | H]; [| by apply elem_of_nil in H | done].
  rewrite Hargs. by left.
Qed.


Lemma parser_defaults_witness :
  (exists s, s ∈ ["data"] /\ Demo.namespace !! "data_dir" = Some (PyStr s)) /\
  (Forall (fun tok => selected Argparse.parser tok <> Some "lr") ["data"] ->
   Demo.namespace !! "lr" = Some (PyFloat (1 # 10000))) /\
  (Forall (fun tok => selected Argparse.parser tok <> Some "nb_epochs") ["data"] ->
   Demo.namespace !! "nb_epochs" = Some (PyInt 1500)) /\
  (Forall (fun tok => selected Argparse.parser tok <> Some "prior_lambda") ["data"] ->
   Demo.namespace !! "prior_lambda" = Some (PyInt 10)) /\
  (Forall (fun tok => selected Argparse.parser tok <> Some "image_sigma") ["data"] ->
   Demo.namespace !! "image_sigma" = Some (PyFloat (2 # 100))) /\
  (Forall (fun tok => selected Argparse.parser tok <> Some "steps_per_epoch")
     ["data"] ->
   Demo.namespace !! "steps_per_epoch" = Some (PyInt 100)) /\
  (Forall (fun tok => selected Argparse.parser tok <> Some "batch_size") ["data"] ->
   Demo.namespace !! "batch_size" = Some (PyInt 1)).
Proof.
  apply (parser_defaults ["data"] Demo.namespace).
  reflexivity.
Defined.

(** The literals of the script denote the defaults above. *)
Example float_literals :
  Py.float "1e-4" = Some (1 # 10000)%Q /\ Py.float "0.02" = Some (2 # 100)%Q.
Proof. split; reflexivity. Qed.

(** ** C4 *)

(** C4, as stated, fails: a command line that does not mention
    [--load_model_file] still makes [train] load initial weights, those of the
    default file of the parser; the checkpoint of epoch 0 holds them. *)
Lemma cli_without_load_model_file_loads_weights :
  let run := main Demo.fw Demo.argv Demo.world in
  Forall (fun tok => selected Argparse.parser tok <> Some "load_model_file")
    Demo.argv /\
  snd run = inr tt /\
  EvLoadWeights "../models/miccai2018_10_02_init1.h5" ∈ trace (fst run) /\
  fs (fst run) !! "models/00.h5" = Some (File (H5 [7; 7]%Q)).
Proof.
  cbn zeta. split; [| split; [| split]].
  - repeat constructor; by vm_compute.
  - vm_compute; reflexivity.
  - apply list_elem_of_In; vm_compute; tauto.
  - vm_compute; reflexivity.
Qed.

(** C4, amended.  [train] calls [load_weights] only on the file it is given,
    and not at all when [load_model_file] is [None]; when a file is given,
    every run that gets as far as saving a checkpoint has called
    [load_weights] on it.  On the command line [--load_model_file] may be
    left out, and [load_model_file] is then the default path of the parser,
    never [None]. *)
Theorem load_weights_iff_file_given
  fw data_dir atlas_file model_dir gpu_id lr nb_epochs prior_lambda image_sigma
  steps_per_epoch batch_size load_model_file initial_epoch w w' r argv kw :
  train fw data_dir atlas_file model_dir gpu_id lr nb_epochs prior_lambda
    image_sigma steps_per_epoch batch_size load_model_file initial_epoch w
  = (w', r) ->
  Argparse.parse_args Argparse.parser argv = inr kw ->
  (exists evs, trace w' = trace w ++ evs /\
     (forall f, EvLoadWeights f ∈ evs -> load_model_file = Some f) /\
     (forall f, load_model_file = Some f ->
        (exists p, EvSave p ∈ evs) -> EvLoadWeights f ∈ evs)) /\
  (exists s, kw !! "load_model_file" = Some (PyStr s) /\
     (Forall (fun tok => selected Argparse.parser tok <> Some "load_model_file")
        argv ->
      s = "../models/miccai2018_10_02_init1.h5")).
Proof.
  intros Hrun Hparse. split.
  - destruct (train_events _ _ _ _ _ _ _ _ _ _ _ _ _ _ _ _ Hrun)
      as (evs & Ht & Hall).
    destruct (follows_train _ _ _ _ _ _ _ _ _ _ _ _ _ _ _ _ Hrun)
      as (evs' & Ht' & Hsch).
    rewrite <- app_assoc in Ht.
    assert (evs' = [EvNpLoad atlas_file] ++ evs) as ->.
    { rewrite Ht in Ht'. by apply app_inv_head in Ht'. }
    eexists. split; [exact Ht' |]. split.
    + intros f [[=] | Hf]%elem_of_cons.
      rewrite Forall_forall in Hall. by destruct (Hall _ Hf) as [Hev _].
    + intros f -> [p Hp].
      assert (Hsave : StSave ∈ omap step_of ([EvNpLoad atlas_file] ++ evs)).
      { apply list_elem_of_omap. by exists (EvSave p). }
      assert (Hload : StLoadWeights f
                      ∈ omap step_of ([EvNpLoad atlas_file] ++ evs)
                      -> EvLoadWeights f ∈ [EvNpLoad atlas_file] ++ evs).
      { intros (ev & Hev & Hstep)%list_elem_of_omap.
        destruct ev; simplify_eq/=. done. }
      apply Hload. clear Hload.
      assert (Hpre : omap step_of ([EvNpLoad atlas_file] ++ evs) `prefix_of`
                schedule lr prior_lambda image_sigma (Some f) initial_epoch
                  nb_epochs steps_per_epoch).
      { destruct r; [done | by rewrite Hsch]. }
      destruct Hpre as [k Hk]. revert Hsave Hk. unfold schedule.
      generalize (omap step_of ([EvNpLoad atlas_file] ++ evs)).
      intros [| a [| b l]]; cbn.
      * by intros ?%elem_of_nil.
      * intros ?%list_elem_of_singleton [= <-]. done.
      * intros _ [= <- <- _]. apply list_elem_of_further, list_elem_of_here.
  - revert Hparse. unfold Argparse.parse_args.
    destruct (Argparse.steps _ _ _) as [e | st] eqn:Hsteps; [done |].
    destruct (Argparse.pending st) eqn:Hpend; [done |].
    destruct (Argparse.extras st); [| done]. intros Hbind.
    apply bind_positionals_other with (d := "load_model_file") in Hbind;
      [| by repeat constructor].
    rewrite Hbind.
    pose proof Hsteps as Hstr.
    apply steps_holds_str with (d := "load_model_file") in Hstr as [s Hs].
    + exists s. split; [done |]. intros Hargv.
      apply (steps_untouched Argparse.parser "load_model_file"
               (PyStr "../models/miccai2018_10_02_init1.h5"))
        in Hsteps as [Hns _]; [| by split | exact Hargv].
      rewrite Hs in Hns. by injection Hns.
    + repeat constructor; by vm_compute.
    + split; [by eexists | done].
Qed.

Lemma load_weights_iff_file_given_witness :
  (exists evs, trace (fst Demo.run) = trace Demo.world ++ evs /\
     (forall f, EvLoadWeights f ∈ evs -> None = Some f) /\
     (forall f, None = Some f ->
        (exists p, EvSave p ∈ evs) -> EvLoadWeights f ∈ evs)) /\
  (exists s, Demo.namespace !! "load_model_file" = Some (PyStr s) /\
     (Forall (fun tok => selected Argparse.parser tok <> Some "load_model_file")
        ["data"] ->
      s = "../models/miccai2018_10_02_init1.h5")).
Proof.
  apply (load_weights_iff_file_given Demo.fw "data" "atlas.npz" "models" 0
           (PyFloat (1 # 10000)) 2 (PyInt 10) (PyFloat (2 # 100)) 5 1 None 0
           Demo.world (fst Demo.run) (inr tt) ["data"] Demo.namespace).
  - vm_compute. reflexivity.
  - reflexivity.
Defined.

(** ** What runs keep *)

Section Keeps.

Context {X : Type} (proj : World -> X).

Lemma keeps_silent {A} (m : M A) :
  (forall w, proj (fst (m w)) = proj w) -> keeps proj m.
Proof. intros H w w' r Hm. specialize (H w). by rewrite Hm in H. Qed.

Lemma keeps_bind {A B} (m : M A) (f : A -> M B) :
  keeps proj m -> (forall a, keeps proj (f a)) -> keeps proj (bind m f).
Proof.
  intros Hm Hf w w' r Hrun.
  destruct (bind_inv _ _ _ _ _ Hrun) as [(e & Hm' & ->) | (w1 & a & Hm' & Hf')].
  - eauto.
  - by rewrite (Hf _ _ _ _ Hf'), (Hm _ _ _ Hm').
Qed.

Lemma keeps_with_device {A} d (body : M A) :
  (forall ev w, proj (fst (log ev w)) = proj w) ->
  keeps proj body -> keeps proj (with_device d body).
Proof.
  intros Hlog Hbody w w' r. unfold with_device, bind.
  destruct (log (EvDeviceEnter d) w) as [w0 [e | []]] eqn:Hin; [done |].
  destruct (body w0) as [w1 r1] eqn:Hb. intros [= <- <-].
  transitivity (proj w1); [exact (Hlog (EvDeviceExit d) w1) |].
  rewrite (Hbody _ _ _ Hb).
  specialize (Hlog (EvDeviceEnter d) w). by rewrite Hin in Hlog.
Qed.

Lemma keeps_stable {A} (P : X -> Prop) (m : M A) :
  keeps proj m -> stable (fun w => P (proj w)) m.
Proof. intros Hm w w' r Hrun. by rewrite (Hm _ _ _ Hrun). Qed.

End Keeps.

Lemma stable_bind {A B} I (m : M A) (f : A -> M B) :
  stable I m -> (forall a, stable I (f a)) -> stable I (bind m f).
Proof.
  intros Hm Hf w w' r Hrun HI.
  destruct (bind_inv _ _ _ _ _ Hrun) as [(e & Hm' & ->) | (w1 & a & Hm' & Hf')].
  - eauto.
  - eapply Hf; [done |]. by eapply Hm.
Qed.

Lemma stable_with_device {A} I d (body : M A) :
  (forall ev, stable I (log ev)) ->
  stable I body -> stable I (with_device d body).
Proof.
  intros Hlog Hbody w w' r. unfold with_device, bind.
  destruct (log (EvDeviceEnter d) w) as [w0 [e | []]] eqn:Hin; [done |].
  destruct (body w0) as [w1 r1] eqn:Hb. intros [= <- <-] HI.
  eapply (Hlog (EvDeviceExit d) w1 _ (inr tt)); [done |].
  eapply Hbody; [done |]. by eapply Hlog.
Qed.

Ltac keeps_step := first [ apply keeps_silent; intros; reflexivity ].
Ltac keeps_bind x := apply keeps_bind; [| intros x].

(** ** The file system *)

Lemma isdir_lookup fs d :
  Fs.isdir fs d = true <-> d <> "" /\ fs !! OsPath.norm d = Some Dir.
Proof.
  unfold Fs.isdir, Fs.lookup.
  destruct (String.eqb_spec d "") as [-> | Hd].
  { split; [done | by intros [? _]]. }
  destruct (fs !! OsPath.norm d) as [[| c] |];
    (split; [intros | intros [_ ?]]; try done).
Qed.

Lemma mkdir_inv fs p fs' :
  Fs.mkdir fs p = inr fs' ->
  p <> "" /\ fs !! OsPath.norm p = None /\ fs' = <[OsPath.norm p := Dir]> fs.
Proof.
  unfold Fs.mkdir, Fs.lookup.
  destruct (String.eqb_spec p "") as [-> | Hp]; [done |].
  destruct (fs !! OsPath.norm p); [done |].
  destruct (Fs.parent_ok _ _); [| done]. by intros [= <-].
Qed.

Lemma write_inv fs p c fs' :
  Fs.write fs p c = inr fs' ->
  p <> "" /\ fs !! OsPath.norm p <> Some Dir /\
  fs' = <[OsPath.norm p := File c]> fs.
Proof.
  unfold Fs.write, Fs.lookup.
  destruct (String.eqb_spec p "") as [-> | Hp]; [done |]. cbn [orb].
  destruct (fs !! OsPath.norm p) as [[| c'] |]; [done | |];
    destruct (Py.endswith p OsPath.sep); try done.
  - by intros [= <-].
  - destruct (Fs.parent_ok _ _); [| done]. by intros [= <-].
Qed.

Lemma mkdir_isdir fs p fs' :
  Fs.mkdir fs p = inr fs' ->
  Fs.isdir fs' p = true /\
  forall d, Fs.isdir fs d = true -> Fs.isdir fs' d = true.
Proof.
  intros (Hp & Hnew & ->)%mkdir_inv. split.
  - apply isdir_lookup. split; [done |]. apply lookup_insert_eq.
  - intros d [Hd Hdir]%isdir_lookup. apply isdir_lookup. split; [done |].
    destruct (decide (OsPath.norm p = OsPath.norm d)) as [Heq | Hne].
    + rewrite Heq. apply lookup_insert_eq.
    + by rewrite lookup_insert_ne.
Qed.

Lemma write_isdir fs p c fs' d :
  Fs.write fs p c = inr fs' -> Fs.isdir fs d = true -> Fs.isdir fs' d = true.
Proof.
  intros (Hp & Hnd & ->)%write_inv [Hd Hdir]%isdir_lookup.
  apply isdir_lookup. split; [done |].
  rewrite lookup_insert_ne; [done |]. intros Heq. by rewrite Heq in Hnd.
Qed.

Section KeepsFs.

Variable fw : Framework.

Lemma keeps_fs_lift {A} (x : exn + A) : keeps fs (lift x).
Proof. destruct x; keeps_step. Qed.

Lemma keeps_fs_np_load f : keeps fs (Np.load f).
Proof.
  unfold Np.load. keeps_bind u; [keeps_step |]. keeps_bind fs0; [keeps_step |].
  keeps_bind c; [apply keeps_fs_lift |]. destruct c; keeps_step.
Qed.

Lemma keeps_fs_np_getitem o k : keeps fs (Np.getitem o k).
Proof.
  unfold Np.getitem. destruct o; [| keeps_step].
  destruct (Np.assoc k arrays) as [[sh d] |]; keeps_step.
Qed.

Lemma keeps_fs_load_atlas f : keeps fs (load_atlas f).
Proof.
  unfold load_atlas. keeps_bind o; [apply keeps_fs_np_load |].
  keeps_bind vol; [apply keeps_fs_np_getitem | keeps_step].
Qed.

Lemma keeps_fs_prepare_data_files d : keeps fs (prepare_data_files d).
Proof. intros w w' r. rewrite prepare_data_files_eq. by intros [= <- _]. Qed.

Lemma keeps_fs_gpu_handling gpu_id : keeps fs (gpu_handling gpu_id).
Proof. keeps_step. Qed.

Lemma keeps_fs_miccai2018_net vs enc dec : keeps fs (miccai2018_net fw vs enc dec).
Proof.
  unfold miccai2018_net. keeps_bind u; [keeps_step |].
  destruct (net_init _ _ _ _); keeps_step.
Qed.

Lemma keeps_fs_load_weights model f : keeps fs (load_weights model f).
Proof.
  unfold load_weights. keeps_bind u; [keeps_step |].
  keeps_bind fs0; [keeps_step |]. keeps_bind c; [apply keeps_fs_lift |].
  destruct c; keeps_step.
Qed.

Lemma keeps_fs_np_repeat a n : keeps fs (Np.repeat a n).
Proof.
  unfold Np.repeat. keeps_bind u; [keeps_step |].
  destruct (n <? 0); [keeps_step |]. keeps_bind h; [keeps_step |].
  destruct (h !! buf a); [| keeps_step]. destruct (shape a); keeps_step.
Qed.

Lemma keeps_fs_data_generator names atlas_vol bs :
  keeps fs (data_generator names atlas_vol bs).
Proof.
  unfold data_generator. keeps_bind a; [apply keeps_fs_np_repeat | keeps_step].
Qed.

Lemma keeps_fs_next g : keeps fs (next fw g).
Proof.
  unfold next. keeps_bind u; [keeps_step |]. keeps_bind fs0; [keeps_step |].
  keeps_bind r; [keeps_step |].
  destruct (read_volumes _ _ _ _ _) as [[sh d] |]; keeps_step.
Qed.

Lemma keeps_fs_train_on_batch model b : keeps fs (train_on_batch fw model b).
Proof.
  unfold train_on_batch. keeps_bind u; [keeps_step |].
  destruct (compiled model); [| keeps_step]. keeps_bind h; [keeps_step |].
  destruct (train_step _ _ _ _) as [[w' h'] |]; keeps_step.
Qed.

Lemma keeps_fs_fit_steps n model g : keeps fs (fit_steps fw n model g).
Proof.
  revert model. induction n as [| n IH]; intros model; cbn [fit_steps].
  - keeps_step.
  - keeps_bind b; [apply keeps_fs_next |].
    keeps_bind m; [apply keeps_fs_train_on_batch | apply IH].
Qed.

(** [model.save(p)], when it returns, has written the weights of the model
    to [p], which was not a directory. *)
Lemma save_inv model p w w' :
  save model p w = (w', inr tt) ->
  p <> "" /\ fs w !! OsPath.norm p <> Some Dir /\
  fs w' = <[OsPath.norm p := File (H5 (weights model))]> (fs w).
Proof.
  unfold save, bind, log, get_fs, put_fs, lift. cbn [fs set_trace].
  destruct (Fs.write _ _ _) as [e | fs'] eqn:Hw; [done |].
  intros [= <-]. cbn. by apply write_inv in Hw.
Qed.

Lemma prepare_model_folder_inv model_dir w w' :
  prepare_model_folder model_dir w = (w', inr tt) ->
  Fs.isdir (fs w') model_dir = true /\
  fs w' = (if Fs.isdir (fs w) model_dir then fs w
           else <[OsPath.norm model_dir := Dir]> (fs w)) /\
  trace w' = trace w ++ (if Fs.isdir (fs w) model_dir then []
                         else [EvMkdir model_dir]).
Proof.
  unfold prepare_model_folder, os_path_isdir, os_mkdir, bind, get_fs, ret.
  destruct (Fs.isdir (fs w) model_dir) eqn:Hdir; cbn [negb].
  - intros [= <-]. by rewrite app_nil_r.
  - unfold log, lift, put_fs. cbn [fs set_trace].
    destruct (Fs.mkdir _ _) as [e | fs'] eqn:Hmk; [done |].
    intros [= <-]. cbn. pose proof (mkdir_isdir _ _ _ Hmk) as [Hnew _].
    by apply mkdir_inv in Hmk as (_ & _ & ->).
Qed.

Lemma prepare_model_folder_fail model_dir w w' e :
  prepare_model_folder model_dir w = (w', inl e) ->
  fs w' = fs w /\ trace w' = trace w ++ [EvMkdir model_dir].
Proof.
  unfold prepare_model_folder, os_path_isdir, os_mkdir, bind, get_fs, ret.
  destruct (Fs.isdir (fs w) model_dir) eqn:Hdir; cbn [negb]; [done |].
  unfold log, lift, put_fs. cbn [fs set_trace].
  destruct (Fs.mkdir _ _) as [e' | fs'] eqn:Hmk; [| done].
  by intros [= <- _].
Qed.

End KeepsFs.

(** ** Names of checkpoints *)

Lemma append_assoc a b c : (a +:+ b) +:+ c = a +:+ (b +:+ c).
Proof. induction a as [| x a IH]; [done |]. rewrite !append_cons. by rewrite IH. Qed.

Lemma append_empty_r a : a +:+ "" = a.
Proof. induction a as [| x a IH]; [done |]. rewrite append_cons. by rewrite IH. Qed.

Lemma length_append a b :
  String.length (a +:+ b) = (String.length a + String.length b)%nat.
Proof.
  induction a as [| x a IH]; [done |]. rewrite append_cons. cbn. by rewrite IH.
Qed.

(** Two strings with suffixes of one length are equal only if the suffixes
    are. *)
Lemma append_suffix_inj a b s t :
  String.length s = String.length t -> a +:+ s = b +:+ t -> s = t.
Proof.
  intros Hlen. revert b. induction a as [| x a IH]; intros b Heq.
  - destruct b as [| y b]; [done |].
    apply (f_equal String.length) in Heq. rewrite append_empty in Heq.
    rewrite length_append in Heq. cbn in Heq. lia.
  - destruct b as [| y b].
    + apply (f_equal String.length) in Heq. rewrite append_empty in Heq.
      rewrite length_append in Heq. cbn in Heq. lia.
    + rewrite !append_cons in Heq. injection Heq as _ Heq. by eapply IH.
Qed.

(** Joining a relative name to a directory puts the name after a prefix that
    only the directory decides. *)
Lemma join_relative m t :
  Py.startswith t OsPath.sep = false ->
  OsPath.join m t = OsPath.join m "" +:+ t.
Proof.
  intros Ht. unfold OsPath.join. rewrite Ht.
  change (Py.startswith "" OsPath.sep) with false. cbn match.
  destruct (_ || _).
  - by rewrite append_empty_r.
  - by rewrite append_empty_r, append_assoc.
Qed.

Lemma join_head_contains c m :
  c <> "/"%char -> Py.contains c m = false ->
  Py.contains c (OsPath.join m "") = false.
Proof.
  intros Hc Hm. unfold OsPath.join.
  change (Py.startswith "" OsPath.sep) with false. cbn match.
  destruct (_ || _); rewrite ?append_empty_r; [done |].
  rewrite contains_app, Hm. cbn. apply Ascii.eqb_neq in Hc. by rewrite Hc.
Qed.

Lemma string_of_uint_digits d :
  Py.all_digits (NilEmpty.string_of_uint d) = true.
Proof. induction d; simpl; done. Qed.

Lemma str_nonneg_digits e :
  0 <= e -> Py.all_digits (Py.str e) = true /\ Py.str e <> "".
Proof.
  intros He. unfold Py.str. destruct e as [| p | p]; [done | | lia].
  cbn [Z.to_int NilZero.string_of_int].
  pose proof (DecimalPos.Unsigned.to_uint_nonnil p) as Hnn.
  unfold NilZero.string_of_uint.
  destruct (Pos.to_uint p) eqn:Hd; try done;
    (split; [apply (string_of_uint_digits (_ _)) | done]).
Qed.

Lemma str_first e :
  exists c s, Py.str e = String c s /\ (Py.is_digit c = true \/ c = "-"%char).
Proof.
  unfold Py.str. destruct (Z.to_int e) as [d | d]; cbn [NilZero.string_of_int].
  - destruct d; cbn; eauto.
  - eauto.
Qed.

Lemma format_02d_first e s :
  Py.startswith (Py.format_02d e +:+ s) OsPath.sep = false.
Proof.
  unfold Py.format_02d. destruct (_ <? _)%nat; [done |].
  destruct (str_first e) as (c & r & -> & Hc). rewrite append_cons.
  unfold Py.startswith, OsPath.sep. cbn [String.prefix].
  destruct (ascii_dec "/" c) as [<- | _]; [| done].
  by destruct Hc.
Qed.

(** For an epoch that is not negative the name is made of decimal digits, at
    least two of them. *)
Lemma format_02d_digits e :
  0 <= e ->
  Py.all_digits (Py.format_02d e) = true /\
  (2 <= String.length (Py.format_02d e))%nat.
Proof.
  intros He. destruct (str_nonneg_digits e He) as [Hd Hne].
  unfold Py.format_02d.
  destruct (String.length (Py.str e) <? 2)%nat eqn:Hlen.
  - change ("0" +:+ Py.str e) with (String "0" (Py.str e)).
    split; [cbn [Py.all_digits]; by rewrite Hd |].
    destruct (Py.str e); [done | cbn; lia].
  - split; [done |]. by apply Nat.ltb_ge in Hlen.
Qed.

Lemma scan_lit_plain a t e :
  Py.contains "{" a = false -> Py.contains "}" a = false ->
  Format.scan Format.Lit (a +:+ t) e =
  match Format.scan Format.Lit t e with
  | inl x => inl x
  | inr r => inr (a +:+ r)
  end.
Proof.
  induction a as [| c a IH]; intros Ho Hc.
  - rewrite append_empty. by destruct (Format.scan _ _ _).
  - cbn [Py.contains] in Ho, Hc.
    apply orb_false_elim in Ho as [Ho1 Ho2].
    apply orb_false_elim in Hc as [Hc1 Hc2].
    rewrite append_cons. cbn [Format.scan].
    rewrite Ascii.eqb_sym in Ho1. rewrite Ascii.eqb_sym in Hc1.
    rewrite Ho1, Hc1, (IH Ho2 Hc2).
    by destruct (Format.scan Format.Lit t e).
Qed.

(** With no brace in [model_dir], the checkpoint of an epoch is the file
    named after it in [model_dir]. *)
Lemma format_plain_dir m e :
  Py.contains "{" m = false -> Py.contains "}" m = false ->
  Format.format (OsPath.join m "{epoch:02d}.h5") e =
  inr (OsPath.join m (Py.format_02d e +:+ ".h5")).
Proof.
  intros Ho Hc. rewrite (join_relative m "{epoch:02d}.h5") by done.
  rewrite (join_relative m (_ +:+ ".h5")) by apply format_02d_first.
  unfold Format.format. rewrite scan_lit_plain; [done | |];
    by apply join_head_contains.
Qed.

Lemma emit_inr (x : string) (k : exn + string) p :
  match k with
  | inl e => inl e
  | inr r => inr (x +:+ r)
  end = inr p ->
  exists r, k = inr r /\ p = x +:+ r.
Proof. destruct k as [e | r]; [done |]. intros [= <-]. eauto. Qed.

(** Whatever [model_dir] is, a path the checkpoint template formats to ends
    in the name of the epoch. *)
Lemma scan_suffix a m e p :
  Format.scan m (a +:+ "{epoch:02d}.h5") e = inr p ->
  exists q, p = q +:+ Py.format_02d e +:+ ".h5".
Proof.
  revert m p. induction a as [| c a IH]; intros m p.
  - rewrite append_empty. destruct m; cbn; try done.
    intros [= <-]. by exists "".
  - rewrite append_cons. cbn [Format.scan].
    destruct m as [| | | name].
    + destruct (Ascii.eqb c "{"); [apply IH |].
      destruct (Ascii.eqb c "}"); [apply IH |].
      intros (r & Hr & ->)%emit_inr. destruct (IH _ _ Hr) as [q ->].
      exists (String c q). by rewrite append_cons.
    + destruct (Ascii.eqb c "{").
      { intros (r & Hr & ->)%emit_inr. destruct (IH _ _ Hr) as [q ->].
        exists ("{" +:+ q). by rewrite append_assoc. }
      destruct (Ascii.eqb c "}"); [done | apply IH].
    + destruct (Ascii.eqb c "}"); [| done].
      intros (r & Hr & ->)%emit_inr. destruct (IH _ _ Hr) as [q ->].
      exists ("}" +:+ q). by rewrite append_assoc.
    + destruct (Ascii.eqb c "}").
      { destruct (Format.field name e) as [x | v]; [done |].
        intros (r & Hr & ->)%emit_inr. destruct (IH _ _ Hr) as [q ->].
        exists (v +:+ q). by rewrite append_assoc. }
      destruct (Ascii.eqb c "{"); [done | apply IH].
Qed.

Lemma format_suffix m e p :
  Format.format (OsPath.join m "{epoch:02d}.h5") e = inr p ->
  exists q, p = q +:+ Py.format_02d e +:+ ".h5".
Proof.
  rewrite (join_relative m "{epoch:02d}.h5") by done. apply scan_suffix.
Qed.

Lemma endswith_sep_app q s :
  s <> "" -> Py.endswith (q +:+ s) "/" = Py.endswith s "/".
Proof.
  intros Hs. induction q as [| c q IH]; [done |].
  rewrite append_cons, endswith_cons, IH.
  destruct (String.eqb_spec (String c (q +:+ s)) "/") as [Heq | _]; [| done].
  injection Heq as _ Heq. destruct q; [by rewrite append_empty in Heq | done].
Qed.

Lemma norm_fixed p :
  p <> "" -> Py.endswith p "/" = false -> OsPath.norm p = p.
Proof.
  intros Hp Hend. unfold OsPath.norm.
  destruct (String.eqb_spec p "") as [-> | _]; [done |].
  destruct (Py.all_sep p) eqn:Hall.
  - by rewrite (all_sep_endswith _ Hp Hall) in Hend.
  - by apply rstrip_sep_fixed.
Qed.

(** A path that ends in a file name with extension [.h5] is its own
    normal form. *)
Lemma norm_h5 q s : OsPath.norm (q +:+ s +:+ ".h5") = q +:+ s +:+ ".h5".
Proof.
  assert (Hne : s +:+ ".h5" <> "").
  { destruct s; [done |]. by rewrite append_cons. }
  apply norm_fixed.
  - destruct q; [by rewrite append_empty | by rewrite append_cons].
  - rewrite endswith_sep_app by done.
    clear Hne. induction s as [| c s IH]; [done |].
    rewrite append_cons, endswith_cons, IH, orb_false_r.
    destruct (String.eqb_spec (String c (s +:+ ".h5")) "/") as [Heq | _]; [| done].
    injection Heq as _ Heq. destruct s; done.
Qed.

(** ** Checkpoints *)

Lemma bind_inv_ok {A B} (m : M A) (f : A -> M B) w w' b :
  bind m f w = (w', inr b) ->
  exists w1 a, m w = (w1, inr a) /\ f a w1 = (w', inr b).
Proof.
  intros H. destruct (bind_inv _ _ _ _ _ H) as [(e & _ & [=]) | H']; done.
Qed.

Tactic Notation "run_ok" hyp(H) "as" ident(w1) ident(a) ident(H1) :=
  apply bind_inv_ok in H; destruct H as (w1 & a & H1 & H).

Section Checkpoints.

Variable fw : Framework.

Lemma follows_save_of_save model p : follows save_of (save model p) [p].
Proof.
  unfold save, put_fs.
  eapply follows_bind; [apply follows_log | intros _ | done].
  apply follows_silent. only_bind fs0; [only_step |]. only_bind fs1; only_step.
Qed.

Lemma follows_save_of_prepare_the_model gpu vol_size nf_enc nf_dec model_dir lr
  prior_lambda image_sigma load_model_file initial_epoch :
  follows save_of
    (prepare_the_model fw gpu vol_size nf_enc nf_dec model_dir lr prior_lambda
       image_sigma load_model_file initial_epoch)
    [OsPath.join model_dir (Py.format_02d initial_epoch +:+ ".h5")].
Proof.
  unfold prepare_the_model. apply follows_with_device; [done | done |].
  eapply follows_bind with (s1 := []); [| intros model0 | reflexivity].
  { apply follows_silent. unfold miccai2018_net.
    only_bind u; [by only_step |]. destruct (net_init _ _ _ _); only_step. }
  eapply follows_bind with (s1 := []); [| intros model1 | reflexivity].
  { apply follows_silent. destruct load_model_file; [| only_step].
    by apply only_load_weights. }
  eapply follows_bind; [apply follows_save_of_save | intros _ | reflexivity].
  apply follows_silent. unfold compile. only_bind u; [by only_step | only_step].
Qed.

Lemma follows_save_of_fit_epochs n epoch model g template steps :
  follows save_of
    (fit_epochs fw n epoch model g [ModelCheckpoint template] steps)
    (checkpoint_paths template epoch n).
Proof.
  revert epoch model. induction n as [| n IH]; intros epoch model.
  - apply follows_ret.
  - cbn [fit_epochs checkpoint_paths].
    eapply follows_bind with (s1 := []);
      [exact (follows_log save_of (EvEpochBegin epoch)) | intros _
      | reflexivity].
    eapply follows_bind with (s1 := []); [| intros model' | reflexivity].
    { by apply follows_silent, only_fit_steps. }
    eapply follows_bind; [| intros _; apply IH | reflexivity].
    eapply follows_bind; [| intros _; apply follows_ret | symmetry; apply app_nil_r].
    unfold on_epoch_end.
    destruct (Format.format template (epoch + 1)) as [e | p]; simpl.
    + intros w w' r [= <- <-]. exists []. split; [by rewrite app_nil_r | done].
    + change (follows save_of (save model' p) [p]). apply follows_save_of_save.
Qed.

Lemma follows_save_of_train data_dir atlas_file model_dir gpu_id lr nb_epochs
  prior_lambda image_sigma steps_per_epoch batch_size load_model_file
  initial_epoch :
  follows save_of
    (train fw data_dir atlas_file model_dir gpu_id lr nb_epochs prior_lambda
       image_sigma steps_per_epoch batch_size load_model_file initial_epoch)
    (OsPath.join model_dir (Py.format_02d initial_epoch +:+ ".h5")
     :: checkpoint_paths (OsPath.join model_dir "{epoch:02d}.h5")
          initial_epoch (Z.to_nat (nb_epochs - initial_epoch))).
Proof.
  unfold train.
  eapply follows_bind with (s1 := []); [| intros atlas_vol | reflexivity].
  { by apply follows_silent, only_load_atlas. }
  eapply follows_bind with (s1 := []); [| intros names | reflexivity].
  { by apply follows_silent, only_prepare_data_files. }
  eapply follows_bind with (s1 := []); [| intros u | reflexivity].
  { by apply follows_silent, only_prepare_model_folder. }
  eapply follows_bind with (s1 := []); [| intros gpu | reflexivity].
  { by apply follows_silent, only_gpu_handling. }
  eapply follows_bind with (s1 := [_]);
    [apply follows_save_of_prepare_the_model | intros model | reflexivity].
  eapply follows_bind with (s1 := []); [| intros g | reflexivity].
  { by apply follows_silent, only_data_generator. }
  eapply follows_bind; [| intros _; apply follows_ret | symmetry; apply app_nil_r].
  unfold fit, fit_generator. apply follows_with_device; [done | done |].
  apply follows_save_of_fit_epochs.
Qed.

Lemma fit_epochs_written n epoch model g template steps w w' model' :
  fit_epochs fw n epoch model g [ModelCheckpoint template] steps w
  = (w', inr model') ->
  epochs_written template epoch n (fs w) (fs w').
Proof.
  revert epoch model w. induction n as [| n IH]; intros epoch model w Hrun.
  - by injection Hrun as <- _.
  - cbn [fit_epochs] in Hrun.
    run_ok Hrun as w1 u H1. injection H1 as <- _.
    run_ok Hrun as w2 model1 H2. apply keeps_fs_fit_steps in H2.
    run_ok Hrun as w3 v H3. apply IH in Hrun.
    cbn [callbacks_on_epoch_end on_epoch_end] in H3.
    run_ok H3 as w4 v' H4. injection H3 as <- _.
    run_ok H4 as w5 p H5.
    destruct (Format.format template (epoch + 1)) as [e | p'] eqn:Hf; [done |].
    injection H5 as <- <-. destruct v'.
    apply save_inv in H4 as (Hp & Hnd & Hfs).
    cbn [epochs_written]. exists p', (weights model1).
    cbn [fs set_trace] in H2. rewrite H2 in Hnd, Hfs.
    rewrite <- Hfs. done.
Qed.

Lemma prepare_the_model_fs gpu vol_size nf_enc nf_dec model_dir lr prior_lambda
  image_sigma load_model_file initial_epoch w w' model :
  prepare_the_model fw gpu vol_size nf_enc nf_dec model_dir lr prior_lambda
    image_sigma load_model_file initial_epoch w = (w', inr model) ->
  let p := OsPath.join model_dir (Py.format_02d initial_epoch +:+ ".h5") in
  fs w !! OsPath.norm p <> Some Dir /\
  fs w' = <[OsPath.norm p := File (H5 (weights model))]> (fs w).
Proof.
  unfold prepare_the_model, with_device. intros Hrun.
  run_ok Hrun as w0 u H0. injection H0 as <- _.
  destruct (bind _ _ _) as [w1 r1] eqn:Hbody. injection Hrun as <- ->.
  run_ok Hbody as w2 model0 H2. apply keeps_fs_miccai2018_net in H2.
  run_ok Hbody as w3 model1 H3.
  assert (Hfs3 : fs w3 = fs w2).
  { destruct load_model_file; [by apply keeps_fs_load_weights in H3 |].
    by injection H3 as <- _. }
  run_ok Hbody as w4 v H4. destruct v.
  apply save_inv in H4 as (_ & Hnd & Hfs).
  injection Hbody as <- <-. cbn [fs set_trace weights] in *.
  rewrite Hfs3, H2 in Hnd, Hfs. done.
Qed.

End Checkpoints.

Lemma with_device_ok {A} d (body : M A) w w' a :
  with_device d body w = (w', inr a) ->
  exists w1,
    body (set_trace (trace w ++ [EvDeviceEnter d]) w) = (w1, inr a) /\
    w' = set_trace (trace w1 ++ [EvDeviceExit d]) w1.
Proof.
  unfold with_device, bind, log.
  destruct (body _) as [w1 r1] eqn:Hb. intros [= <- ->]. by exists w1.
Qed.

(** ** C3 *)

(** C3. A run of two epochs of five steps from epoch 0 that returns has
    called [model.save] exactly three times: on [model_dir/00.h5] and on the
    two paths the checkpoint template formats to for epochs 1 and 2, which
    are [model_dir/01.h5] and [model_dir/02.h5] when [model_dir] has no
    brace.  The three paths differ, and the file system at the end is the one
    at the start, with [model_dir] created if it was missing, and with a
    model file at each of the three paths. *)
Theorem two_epochs_three_checkpoints
  fw data_dir atlas_file model_dir gpu_id lr prior_lambda image_sigma
  batch_size load_model_file w w' :
  train fw data_dir atlas_file model_dir gpu_id lr 2 prior_lambda image_sigma
    5 batch_size load_model_file 0 w = (w', inr tt) ->
  exists p1 p2 wts0 wts1 wts2 evs,
    let p0 := OsPath.join model_dir "00.h5" in
    Format.format (OsPath.join model_dir "{epoch:02d}.h5") 1 = inr p1 /\
    Format.format (OsPath.join model_dir "{epoch:02d}.h5") 2 = inr p2 /\
    (Py.contains "{" model_dir = false -> Py.contains "}" model_dir = false ->
     p1 = OsPath.join model_dir "01.h5" /\ p2 = OsPath.join model_dir "02.h5") /\
    trace w' = trace w ++ evs /\
    omap save_of evs = [p0; p1; p2] /\
    NoDup [p0; p1; p2] /\
    fs w' =
      <[p2 := File (H5 wts2)]>
        (<[p1 := File (H5 wts1)]>
           (<[p0 := File (H5 wts0)]>
              (if Fs.isdir (fs w) model_dir then fs w
               else <[OsPath.norm model_dir := Dir]> (fs w)))).
Proof.
  intros Hrun.
  destruct (follows_save_of_train _ _ _ _ _ _ _ _ _ _ _ _ _ _ _ _ Hrun)
    as (evs & Htrace & Hsaves).
  unfold train in Hrun.
  run_ok Hrun as w1 atlas_vol H1. apply keeps_fs_load_atlas in H1.
  run_ok Hrun as w2 names H2. apply keeps_fs_prepare_data_files in H2.
  run_ok Hrun as w3 u H3. destruct u.
  apply prepare_model_folder_inv in H3 as (_ & H3 & _).
  run_ok Hrun as w4 gpu H4. apply keeps_fs_gpu_handling in H4.
  run_ok Hrun as w5 model H5. apply prepare_the_model_fs in H5 as [_ H5].
  run_ok Hrun as w6 g H6. apply keeps_fs_data_generator in H6.
  run_ok Hrun as w7 model' H7. injection Hrun as <-.
  unfold fit in H7. apply with_device_ok in H7 as (w8 & H7 & ->).
  unfold fit_generator in H7. apply fit_epochs_written in H7.
  change (Z.to_nat (2 - 0)) with 2%nat in H7. cbn [epochs_written] in H7.
  destruct H7 as (p1 & wts1 & Hf1 & _ & _ & p2 & wts2 & Hf2 & _ & _ & H7).
  change (0 + 1) with 1 in Hf1. change (0 + 1 + 1) with 2 in Hf2.
  change (Z.to_nat (2 - 0)) with 2%nat in Hsaves.
  cbn [checkpoint_paths] in Hsaves.
  change (0 + 1 + 1) with 2 in Hsaves. change (0 + 1) with 1 in Hsaves.
  rewrite Hf1, Hf2 in Hsaves.
  change (Py.format_02d 0 +:+ ".h5") with "00.h5" in *.
  destruct (format_suffix _ _ _ Hf1) as [q1 Hq1].
  destruct (format_suffix _ _ _ Hf2) as [q2 Hq2].
  assert (Hq0 : OsPath.join model_dir "00.h5"
                = OsPath.join model_dir "" +:+ "00" +:+ ".h5")
    by by apply join_relative.
  exists p1, p2, (weights model), wts1, wts2, evs. cbn zeta.
  split; [done |]. split; [done |]. split.
  { intros Ho Hc. rewrite (format_plain_dir _ 1 Ho Hc) in Hf1.
    rewrite (format_plain_dir _ 2 Ho Hc) in Hf2.
    injection Hf1 as <-. injection Hf2 as <-. done. }
  split; [done |]. split; [done |]. split.
  { rewrite Hq0, Hq1, Hq2. repeat constructor.
    - rewrite !elem_of_cons, elem_of_nil.
      intros [H | [H | []]]; by apply append_suffix_inj in H.
    - rewrite !elem_of_cons, elem_of_nil.
      intros [H | []]; by apply append_suffix_inj in H.
    - apply not_elem_of_nil. }
  assert (Hn0 : OsPath.norm (OsPath.join model_dir "00.h5")
                = OsPath.join model_dir "00.h5")
    by (rewrite Hq0; apply norm_h5).
  assert (Hn1 : OsPath.norm p1 = p1) by (rewrite Hq1; apply norm_h5).
  assert (Hn2 : OsPath.norm p2 = p2) by (rewrite Hq2; apply norm_h5).
  cbn [fs set_trace] in H7 |- *.
  by rewrite H7, H6, H5, H4, H3, H2, H1, Hn0, Hn1, Hn2.
Qed.

Lemma two_epochs_three_checkpoints_witness :
  exists p1 p2 wts0 wts1 wts2 evs,
    let p0 := OsPath.join "models" "00.h5" in
    Format.format (OsPath.join "models" "{epoch:02d}.h5") 1 = inr p1 /\
    Format.format (OsPath.join "models" "{epoch:02d}.h5") 2 = inr p2 /\
    (Py.contains "{" "models" = false -> Py.contains "}" "models" = false ->
     p1 = OsPath.join "models" "01.h5" /\ p2 = OsPath.join "models" "02.h5") /\
    trace (fst Demo.run) = trace Demo.world ++ evs /\
    omap save_of evs = [p0; p1; p2] /\
    NoDup [p0; p1; p2] /\
    fs (fst Demo.run) =
      <[p2 := File (H5 wts2)]>
        (<[p1 := File (H5 wts1)]>
           (<[p0 := File (H5 wts0)]>
              (if Fs.isdir (fs Demo.world) "models" then fs Demo.world
               else <[OsPath.norm "models" := Dir]> (fs Demo.world)))).
Proof.
  apply (two_epochs_three_checkpoints Demo.fw "data" "atlas.npz" "models" 0
           (PyFloat (1 # 10000)) (PyInt 10) (PyFloat (2 # 100)) 1 None
           Demo.world (fst Demo.run)).
  vm_compute. reflexivity.
Defined.

(** ** C7 *)

(** Without braces in [model_dir], and from an initial epoch that is not
    negative, every call to [model.save] is on a file of [model_dir] named by
    the number of an epoch, in decimal digits, at least two of them, with the
    extension [.h5]. *)
Lemma checkpoints_named_by_epoch
  fw data_dir atlas_file model_dir gpu_id lr nb_epochs prior_lambda image_sigma
  steps_per_epoch batch_size load_model_file initial_epoch w w' r :
  Py.contains "{" model_dir = false -> Py.contains "}" model_dir = false ->
  0 <= initial_epoch ->
  train fw data_dir atlas_file model_dir gpu_id lr nb_epochs prior_lambda
    image_sigma steps_per_epoch batch_size load_model_file initial_epoch w
  = (w', r) ->
  exists evs, trace w' = trace w ++ evs /\
    forall p, EvSave p ∈ evs ->
      exists epoch, initial_epoch <= epoch /\
        p = OsPath.join model_dir (Py.format_02d epoch +:+ ".h5") /\
        Py.all_digits (Py.format_02d epoch) = true /\
        (2 <= String.length (Py.format_02d epoch))%nat.
Proof.
  intros Ho Hc He Hrun.
  destruct (train_events _ _ _ _ _ _ _ _ _ _ _ _ _ _ _ _ Hrun)
    as (evs & Ht & Hall).
  exists ([EvNpLoad atlas_file] ++ evs). split; [by rewrite app_assoc |].
  intros p [[=] | Hp]%elem_of_cons.
  rewrite Forall_forall in Hall. destruct (Hall _ Hp) as [Hev _].
  destruct Hev as [-> | (e & Hrange & Hfmt)].
  - exists initial_epoch. split; [lia |]. split; [done |].
    by apply format_02d_digits.
  - rewrite format_plain_dir in Hfmt by done. injection Hfmt as <-.
    exists (e + 1). split; [lia |]. split; [done |].
    apply format_02d_digits. lia.
Qed.

(** C7 fails on the code when [model_dir] has braces: the folder [{epoch}]
    gets the checkpoint of epoch 0, and the checkpoints of epochs 1 and 2 go
    to the folders [1] and [2], because the callback formats the joined path
    and not the file name alone, as the save of line 91 does. *)
Theorem checkpoints_leave_model_dir_with_braces :
  snd Demo.braces_run = inr tt /\
  omap save_of (trace (fst Demo.braces_run))
  = ["{epoch}/00.h5"; "1/01.h5"; "2/02.h5"] /\
  fs (fst Demo.braces_run) !! "1/01.h5"
  = Some (File (H5 [11 # 2; 16 # 3]%Q)) /\
  fs (fst Demo.braces_run) !! "{epoch}/01.h5" = None /\
  forall name, OsPath.join "{epoch}" name <> "1/01.h5".
Proof.
  split; [by vm_compute |]. split; [by vm_compute |].
  split; [by vm_compute |]. split; [by vm_compute |].
  intros name. unfold OsPath.join.
  destruct (Py.startswith name OsPath.sep) eqn:Hs.
  - intros ->. done.
  - cbn. done.
Qed.

(** ** The model folder *)

Section ModelFolder.

Variable fw : Framework.
Variable d : string.

Lemma stable_isdir_keeps {A} (m : M A) : keeps fs m -> stable (is_dir d) m.
Proof. apply (keeps_stable fs (fun x => Fs.isdir x d = true)). Qed.

Lemma stable_isdir_log ev : stable (is_dir d) (log ev).
Proof. apply stable_isdir_keeps. keeps_step. Qed.

Lemma stable_isdir_save model p : stable (is_dir d) (save model p).
Proof.
  intros w w' r. unfold save, bind, log, get_fs, put_fs, lift.
  cbn [fs set_trace].
  destruct (Fs.write _ _ _) as [e | fs'] eqn:Hw; intros [= <- _] Hd; [done |].
  unfold is_dir in *. cbn. by eapply write_isdir.
Qed.

Lemma stable_isdir_prepare_the_model gpu vol_size nf_enc nf_dec model_dir lr
  prior_lambda image_sigma load_model_file initial_epoch :
  stable (is_dir d)
    (prepare_the_model fw gpu vol_size nf_enc nf_dec model_dir lr prior_lambda
       image_sigma load_model_file initial_epoch).
Proof.
  unfold prepare_the_model.
  apply stable_with_device; [apply stable_isdir_log |].
  apply stable_bind; [apply stable_isdir_keeps, keeps_fs_miccai2018_net |].
  intros model0. apply stable_bind.
  { destruct load_model_file; apply stable_isdir_keeps;
      [apply keeps_fs_load_weights | keeps_step]. }
  intros model1. apply stable_bind; [apply stable_isdir_save |].
  intros _. apply stable_isdir_keeps. keeps_step.
Qed.

Lemma stable_isdir_fit_epochs n epoch model g template steps :
  stable (is_dir d)
    (fit_epochs fw n epoch model g [ModelCheckpoint template] steps).
Proof.
  revert epoch model. induction n as [| n IH]; intros epoch model.
  - apply stable_isdir_keeps. keeps_step.
  - cbn [fit_epochs]. apply stable_bind; [apply stable_isdir_log |].
    intros _. apply stable_bind;
      [apply stable_isdir_keeps, keeps_fs_fit_steps |].
    intros model'. apply stable_bind; [| intros _; apply IH].
    cbn [callbacks_on_epoch_end on_epoch_end].
    apply stable_bind; [| intros _; apply stable_isdir_keeps; keeps_step].
    apply stable_bind; [apply stable_isdir_keeps, keeps_fs_lift |].
    intros p. apply stable_isdir_save.
Qed.

Lemma stable_isdir_fit gpu model g model_dir initial_epoch nb_epochs steps :
  stable (is_dir d)
    (fit fw gpu model g model_dir initial_epoch nb_epochs steps).
Proof.
  unfold fit, fit_generator.
  apply stable_with_device; [apply stable_isdir_log |].
  apply stable_isdir_fit_epochs.
Qed.

End ModelFolder.

Lemma prepare_model_folder_noop model_dir w :
  Fs.isdir (fs w) model_dir = true ->
  prepare_model_folder model_dir w = (w, inr tt).
Proof.
  intros Hd. unfold prepare_model_folder, os_path_isdir, bind, get_fs, ret.
  by rewrite Hd.
Qed.

Lemma only_stable_after {A} (psi : Event -> Prop) I (m : M A) t w w' r :
  only psi m -> stable I m -> m w = (w', r) ->
  (exists evs, trace w = t ++ evs /\ Forall psi evs) /\ I w ->
  (exists evs, trace w' = t ++ evs /\ Forall psi evs) /\ I w'.
Proof.
  intros Ho Hs Hrun [Hacc HI]. split.
  - by eapply only_after.
  - by eapply Hs.
Qed.

(** ** C8 *)

(** C8. When [model_dir] is a directory at the start, the folder step does
    nothing, no run calls [os.mkdir], and [model_dir] is a directory at the
    end.  When it is not, every call to [model.save] of a run comes after the
    call [os.mkdir(model_dir)], and [model_dir] is a directory from then on.
    In both cases the folder step, when it returns, leaves [model_dir] a
    directory. *)
Theorem model_folder_exists_before_checkpoints
  fw data_dir atlas_file model_dir gpu_id lr nb_epochs prior_lambda image_sigma
  steps_per_epoch batch_size load_model_file initial_epoch w w' r :
  train fw data_dir atlas_file model_dir gpu_id lr nb_epochs prior_lambda
    image_sigma steps_per_epoch batch_size load_model_file initial_epoch w
  = (w', r) ->
  exists evs, trace w' = trace w ++ evs /\
    (Fs.isdir (fs w) model_dir = true ->
       prepare_model_folder model_dir w = (w, inr tt) /\
       (forall p, EvMkdir p ∉ evs) /\
       Fs.isdir (fs w') model_dir = true) /\
    (Fs.isdir (fs w) model_dir = false ->
       forall pre p post, evs = pre ++ EvSave p :: post ->
         EvMkdir model_dir ∈ pre /\ Fs.isdir (fs w') model_dir = true) /\
    (forall w0 w0',
       prepare_model_folder model_dir w0 = (w0', inr tt) ->
       Fs.isdir (fs w0') model_dir = true).
Proof.
  intros Hrun.
  set (psi := fun ev : Event => forall p, ev <> EvMkdir p).
  assert (Hfinish : forall evs3 later,
    trace w' = (trace w ++ evs3) ++ later ->
    (forall p, EvSave p ∉ evs3) ->
    Forall psi later ->
    (Fs.isdir (fs w) model_dir = true ->
       (forall p, EvMkdir p ∉ evs3) /\ Fs.isdir (fs w') model_dir = true) ->
    (Fs.isdir (fs w) model_dir = false -> later <> [] ->
       EvMkdir model_dir ∈ evs3 /\ Fs.isdir (fs w') model_dir = true) ->
    exists evs, trace w' = trace w ++ evs /\
      (Fs.isdir (fs w) model_dir = true ->
         prepare_model_folder model_dir w = (w, inr tt) /\
         (forall p, EvMkdir p ∉ evs) /\
         Fs.isdir (fs w') model_dir = true) /\
      (Fs.isdir (fs w) model_dir = false ->
         forall pre p post, evs = pre ++ EvSave p :: post ->
           EvMkdir model_dir ∈ pre /\ Fs.isdir (fs w') model_dir = true) /\
      (forall w0 w0',
         prepare_model_folder model_dir w0 = (w0', inr tt) ->
         Fs.isdir (fs w0') model_dir = true)).
  { intros evs3 later Ht Hsave Hlater Hyes Hno.
    exists (evs3 ++ later). split; [by rewrite app_assoc |]. split; [| split].
    - intros Hd. destruct (Hyes Hd) as [Hmk Hend].
      split; [by apply prepare_model_folder_noop |]. split; [| done].
      intros p [Hp | Hp]%elem_of_app; [by apply (Hmk p) |].
      rewrite Forall_forall in Hlater. by apply (Hlater _ Hp p).
    - intros Hd pre p post Heq.
      destruct (app_eq_split _ _ _ _ _ Heq (Hsave p)) as [k ->].
      rewrite <- app_assoc in Heq. apply app_inv_head in Heq.
      destruct (Hno Hd) as [Hmk Hend]; [by rewrite Heq; destruct k |].
      split; [| done]. apply elem_of_app. by left.
    - intros w0 w0' H0. by apply prepare_model_folder_inv in H0 as [? _]. }
  unfold train in Hrun.
  run_bind Hrun as w1 atlas_vol H1;
    pose proof (load_atlas_trace _ _ _ _ H1) as Ht1;
    apply keeps_fs_load_atlas in H1 as Hfs1.
  { apply (Hfinish [EvNpLoad atlas_file] []).
    - by rewrite app_nil_r.
    - by intros p [[=] | []%elem_of_nil]%elem_of_cons.
    - constructor.
    - intros Hd. rewrite Hfs1. split; [| done].
      by intros p [[=] | []%elem_of_nil]%elem_of_cons.
    - done. }
  clear H1.
  assert (Hpre : forall w2 r2, prepare_data_files data_dir w1 = (w2, r2) ->
            fs w2 = fs w /\
            exists n, trace w2 = trace w
              ++ [EvNpLoad atlas_file; EvGlob (OsPath.join data_dir "*.npz");
                  EvShuffle n]).
  { intros w2 r2. rewrite prepare_data_files_eq. cbn zeta. intros [= <- _].
    cbn. split; [done |]. eexists. by rewrite Ht1, <- !app_assoc. }
  run_bind Hrun as w2 names H2; apply Hpre in H2 as (Hfs2 & n & Ht2).
  { eapply (Hfinish _ []).
    - by rewrite app_nil_r.
    - intros p Hp. by repeat (apply elem_of_cons in Hp as [[=] | Hp]);
        apply elem_of_nil in Hp.
    - constructor.
    - intros Hd. rewrite Hfs2. split; [| done].
      intros p Hp. by repeat (apply elem_of_cons in Hp as [[=] | Hp]);
        apply elem_of_nil in Hp.
    - done. }
  clear Hpre.
  run_bind Hrun as w3 u H3.
  { pose proof (prepare_model_folder_fail _ _ _ _ H3) as [Hfs3 Ht3].
    eapply (Hfinish _ []).
    - by rewrite app_nil_r, Ht3, Ht2, <- app_assoc.
    - intros p Hp. apply elem_of_app in Hp as [Hp | Hp];
        by repeat (apply elem_of_cons in Hp as [[=] | Hp]);
        apply elem_of_nil in Hp.
    - constructor.
    - intros Hd. rewrite <- Hfs2 in Hd.
      by rewrite (prepare_model_folder_noop _ _ Hd) in H3.
    - done. }
  destruct u. apply prepare_model_folder_inv in H3 as (Hd3 & _ & Ht3).
  rewrite Hfs2, Ht2, <- app_assoc in Ht3.
  set (evs3 := [EvNpLoad atlas_file; EvGlob (OsPath.join data_dir "*.npz");
                EvShuffle n]
               ++ (if Fs.isdir (fs w) model_dir then []
                   else [EvMkdir model_dir])) in Ht3.
  assert (Hacc : (exists later, trace w3 = (trace w ++ evs3) ++ later
                                /\ Forall psi later) /\ is_dir model_dir w3).
  { split; [| done]. exists []. by rewrite app_nil_r. }
  assert (Hdone : (exists later, trace w' = (trace w ++ evs3) ++ later
                                 /\ Forall psi later) /\ is_dir model_dir w' ->
    exists evs, trace w' = trace w ++ evs /\
      (Fs.isdir (fs w) model_dir = true ->
         prepare_model_folder model_dir w = (w, inr tt) /\
         (forall p, EvMkdir p ∉ evs) /\
         Fs.isdir (fs w') model_dir = true) /\
      (Fs.isdir (fs w) model_dir = false ->
         forall pre p post, evs = pre ++ EvSave p :: post ->
           EvMkdir model_dir ∈ pre /\ Fs.isdir (fs w') model_dir = true) /\
      (forall w0 w0',
         prepare_model_folder model_dir w0 = (w0', inr tt) ->
         Fs.isdir (fs w0') model_dir = true)).
  { intros [(later & Ht & Hlater) Hend]. apply (Hfinish evs3 later Ht).
    - intros p Hp. unfold evs3 in Hp. apply elem_of_app in Hp as [Hp | Hp].
      + by repeat (apply elem_of_cons in Hp as [[=] | Hp]);
          apply elem_of_nil in Hp.
      + destruct (Fs.isdir (fs w) model_dir);
          by repeat (apply elem_of_cons in Hp as [[=] | Hp]);
          apply elem_of_nil in Hp.
    - done.
    - intros Hd. split; [| done]. unfold evs3. rewrite Hd, app_nil_r.
      intros p Hp. by repeat (apply elem_of_cons in Hp as [[=] | Hp]);
        apply elem_of_nil in Hp.
    - intros Hd _. split; [| done]. unfold evs3. rewrite Hd.
      apply elem_of_app. right. apply list_elem_of_here. }
  clear Hfinish Ht3 Hd3 Ht2 Hfs2 Ht1 Hfs1.
  run_bind Hrun as w4 gpu H4.
  { apply Hdone. eapply only_stable_after; [| | exact H4 | exact Hacc].
    - by apply only_gpu_handling.
    - apply stable_isdir_keeps, keeps_fs_gpu_handling. }
  eapply only_stable_after in H4;
    [| by apply (only_gpu_handling psi)
     | apply stable_isdir_keeps, keeps_fs_gpu_handling | exact Hacc].
  clear Hacc. rename H4 into Hacc.
  run_bind Hrun as w5 model H5;
    (eapply only_stable_after in H5;
     [| by apply (only_prepare_the_model fw psi)
      | apply stable_isdir_prepare_the_model | exact Hacc]);
    [by apply Hdone |].
  clear Hacc. rename H5 into Hacc.
  run_bind Hrun as w6 g H6;
    (eapply only_stable_after in H6;
     [| by apply (only_data_generator psi)
      | apply stable_isdir_keeps, keeps_fs_data_generator | exact Hacc]);
    [by apply Hdone |].
  clear Hacc. rename H6 into Hacc.
  run_bind Hrun as w7 model' H7;
    (eapply only_stable_after in H7;
     [| by apply (only_fit fw psi) | apply stable_isdir_fit | exact Hacc]);
    [by apply Hdone |].
  injection Hrun as <- _. by apply Hdone.
Qed.

Lemma model_folder_exists_before_checkpoints_witness :
  (Fs.isdir (fs Demo.world) "models" = true /\
   exists evs, trace (fst Demo.run) = trace Demo.world ++ evs /\
     prepare_model_folder "models" Demo.world = (Demo.world, inr tt) /\
     (forall p, EvMkdir p ∉ evs) /\
     Fs.isdir (fs (fst Demo.run)) "models" = true) /\
  (Fs.isdir (fs Demo.world) "fresh" = false /\
   exists evs,
     trace (fst Sample.fresh_folder_run) = trace Demo.world ++ evs /\
     (exists pre post, evs = pre ++ EvSave "fresh/00.h5" :: post) /\
     (forall pre p post, evs = pre ++ EvSave p :: post ->
        EvMkdir "fresh" ∈ pre /\
        Fs.isdir (fs (fst Sample.fresh_folder_run)) "fresh" = true)).
Proof.
  split; (split; [reflexivity |]).
  - destruct (model_folder_exists_before_checkpoints Demo.fw "data"
                "atlas.npz" "models" 0 (PyFloat (1 # 10000)) 2 (PyInt 10)
                (PyFloat (2 # 100)) 5 1 None 0 Demo.world (fst Demo.run)
                (inr tt))
      as (evs & Ht & Hthere & _).
    { vm_compute. reflexivity. }
    exists evs. split; [exact Ht |]. apply Hthere. reflexivity.
  - destruct (model_folder_exists_before_checkpoints Demo.fw "data"
                "atlas.npz" "fresh" 0 (PyFloat (1 # 10000)) 2 (PyInt 10)
                (PyFloat (2 # 100)) 5 1 None 0 Demo.world
                (fst Sample.fresh_folder_run) (inr tt))
      as (evs & Ht & _ & Hfresh & _).
    { vm_compute. reflexivity. }
    exists evs. split; [exact Ht |]. split.
    + apply list_elem_of_split.
      change (trace Demo.world ++ evs) with evs in Ht. rewrite <- Ht.
      apply list_elem_of_In. vm_compute. tauto.
    + apply Hfresh. reflexivity.
Defined.

(** ** The atlas *)

Lemma prod_app_one sh : Np.prod (sh ++ [1%nat]) = Np.prod sh.
Proof.
  induction sh as [| n sh IH]; [done |].
  cbn [app]. unfold Np.prod in *. cbn [foldr]. by rewrite IH.
Qed.

(** Repeating the single block of a well-formed array gives so many copies
    of its data. *)
Lemma repeat_blocks_one sh reps data :
  length data = Np.prod sh ->
  Np.repeat_blocks 1 (Np.prod (sh ++ [1%nat])) reps data
  = concat (replicate reps data).
Proof.
  intros Hlen. cbn [Np.repeat_blocks]. rewrite app_nil_r, prod_app_one.
  by rewrite <- Hlen, firstn_all.
Qed.

Section Atlas.

Variable fw : Framework.
Hypothesis frame : frame_ok fw.
Variable a : nat.
Variable data : list Q.

Lemma stable_holds_silent {A} (m : M A) :
  (forall w, heap (fst (m w)) = heap w) -> stable (holds a data) m.
Proof.
  intros H w w' r Hm. unfold holds. specialize (H w). rewrite Hm in H.
  cbn in H. by rewrite H.
Qed.

Lemma alloc_inv d w w' l :
  alloc d w = (w', inr l) ->
  l = fresh (dom (heap w)) /\ heap w' = <[l := d]> (heap w) /\
  fs w' = fs w /\ trace w' = trace w.
Proof. by intros [= <- <-]. Qed.

Lemma holds_alloc d w :
  holds a data w ->
  fresh (dom (heap w)) <> a /\
  <[fresh (dom (heap w)) := d]> (heap w) !! a = Some data.
Proof.
  intros Ha. assert (Hne : fresh (dom (heap w)) <> a).
  { intros Heq. apply (is_fresh (dom (heap w))). rewrite Heq.
    apply elem_of_dom. by eexists. }
  split; [done |]. by rewrite lookup_insert_ne.
Qed.

Lemma stable_holds_alloc d : stable (holds a data) (alloc d).
Proof.
  intros w w' r [= <- _] Ha. unfold holds. cbn. by apply holds_alloc.
Qed.

Ltac holds_step :=
  first [ apply stable_holds_silent; intros; reflexivity
        | apply stable_holds_alloc ].
Ltac holds_bind x := apply stable_bind; [| intros x].

Lemma stable_holds_lift {A} (x : exn + A) : stable (holds a data) (lift x).
Proof. destruct x; holds_step. Qed.

Lemma stable_holds_prepare_data_files d :
  stable (holds a data) (prepare_data_files d).
Proof.
  intros w w' r. rewrite prepare_data_files_eq. by intros [= <- _].
Qed.

Lemma stable_holds_prepare_model_folder d :
  stable (holds a data) (prepare_model_folder d).
Proof.
  unfold prepare_model_folder, os_path_isdir, os_mkdir, put_fs.
  holds_bind b; [holds_step |]. destruct (negb b); [| holds_step].
  holds_bind u; [holds_step |]. holds_bind fs0; [holds_step |].
  holds_bind fs1; [apply stable_holds_lift | holds_step].
Qed.

Lemma stable_holds_save model p : stable (holds a data) (save model p).
Proof.
  unfold save, put_fs. holds_bind u; [holds_step |].
  holds_bind fs0; [holds_step |].
  holds_bind fs1; [apply stable_holds_lift | holds_step].
Qed.

Lemma stable_holds_log ev : stable (holds a data) (log ev).
Proof. holds_step. Qed.

Lemma stable_holds_prepare_the_model gpu vol_size nf_enc nf_dec model_dir lr
  prior_lambda image_sigma load_model_file initial_epoch :
  stable (holds a data)
    (prepare_the_model fw gpu vol_size nf_enc nf_dec model_dir lr prior_lambda
       image_sigma load_model_file initial_epoch).
Proof.
  unfold prepare_the_model.
  apply stable_with_device; [apply stable_holds_log |].
  holds_bind model0.
  { unfold miccai2018_net. holds_bind u; [holds_step |].
    destruct (net_init _ _ _ _); holds_step. }
  holds_bind model1.
  { destruct load_model_file; [| holds_step]. unfold load_weights.
    holds_bind u; [holds_step |]. holds_bind fs0; [holds_step |].
    holds_bind c; [apply stable_holds_lift |]. destruct c; holds_step. }
  holds_bind u; [apply stable_holds_save | holds_step].
Qed.

Lemma stable_holds_np_repeat arr n : stable (holds a data) (Np.repeat arr n).
Proof.
  unfold Np.repeat. holds_bind u; [holds_step |].
  destruct (n <? 0); [holds_step |]. holds_bind h; [holds_step |].
  destruct (h !! buf arr); [| holds_step]. destruct (shape arr); [holds_step |].
  holds_bind loc; [apply stable_holds_alloc | holds_step].
Qed.

(** A batch is made of a fresh buffer and of the array the generator was
    given. *)
Lemma next_inv g w w' b :
  next fw g w = (w', inr b) -> holds a data w ->
  holds a data w' /\ buf (moving b) <> a /\ fixed b = atlas_vol_bs g.
Proof.
  unfold next, bind, log, get_fs, draw.
  cbn [fs rng rng_pos set_trace set_rng_pos].
  destruct (read_volumes _ _ _ _ _) as [[sh d] |]; [| done].
  intros [= <- <-] Ha. unfold holds. cbn.
  destruct (holds_alloc d w Ha) as [Hne Hl]. done.
Qed.

Lemma stable_holds_next g : stable (holds a data) (next fw g).
Proof.
  unfold next. holds_bind u; [holds_step |]. holds_bind fs0; [holds_step |].
  holds_bind r; [holds_step |].
  destruct (read_volumes _ _ _ _ _) as [[sh d] |]; [| holds_step].
  holds_bind loc; [apply stable_holds_alloc | holds_step].
Qed.

(** A step of training may write to the buffers of its batch, and to no
    other. *)
Lemma stable_holds_train_on_batch model b :
  buf (moving b) <> a -> buf (fixed b) <> a ->
  stable (holds a data) (train_on_batch fw model b).
Proof.
  intros Hm Hf w w' r. unfold train_on_batch, bind, log, get_heap, put_heap.
  cbn [heap set_trace].
  destruct (compiled model); [| by intros [= <- _]].
  destruct (train_step _ _ _ _) as [[wts h'] |] eqn:Hstep; [| by intros [= <- _]].
  intros [= <- _] Ha. unfold holds in *. cbn.
  by rewrite (frame _ _ _ _ _ a Hstep).
Qed.

Lemma stable_holds_fit_steps n model g :
  buf (atlas_vol_bs g) <> a -> stable (holds a data) (fit_steps fw n model g).
Proof.
  intros Hg. revert model. induction n as [| n IH]; intros model.
  - holds_step.
  - cbn [fit_steps]. intros w w' r Hrun Ha.
    run_bind Hrun as w1 b H1; [by eapply stable_holds_next |].
    destruct (next_inv _ _ _ _ H1 Ha) as (Ha1 & Hmov & Hfix).
    assert (Hstep : stable (holds a data) (train_on_batch fw model b)).
    { apply stable_holds_train_on_batch; [done | by rewrite Hfix]. }
    run_bind Hrun as w2 model' H2; [by eapply Hstep |].
    eapply IH; [done |]. by eapply Hstep.
Qed.

Lemma stable_holds_fit gpu model g model_dir initial_epoch nb_epochs steps :
  buf (atlas_vol_bs g) <> a ->
  stable (holds a data)
    (fit fw gpu model g model_dir initial_epoch nb_epochs steps).
Proof.
  intros Hg. unfold fit, fit_generator.
  apply stable_with_device; [apply stable_holds_log |].
  generalize (Z.to_nat (nb_epochs - initial_epoch)) as n.
  generalize initial_epoch as epoch. intros epoch n. revert epoch model.
  induction n as [| n IH]; intros epoch model; [holds_step |].
  cbn [fit_epochs]. holds_bind u; [holds_step |].
  holds_bind model'; [by apply stable_holds_fit_steps |].
  holds_bind v; [| apply IH].
  cbn [callbacks_on_epoch_end on_epoch_end].
  holds_bind x; [| holds_step].
  holds_bind p; [apply stable_holds_lift | apply stable_holds_save].
Qed.

(** [np.repeat] on the atlas: a new array of [batch_size] atlases. *)
Lemma np_repeat_atlas sh batch_size w w' arr :
  length data = Np.prod sh -> holds a data w ->
  Np.repeat {| buf := a; shape := (1 :: sh ++ [1])%nat |} batch_size w
  = (w', inr arr) ->
  shape arr = (Z.to_nat batch_size :: sh ++ [1])%nat /\
  heap w' !! buf arr = Some (concat (replicate (Z.to_nat batch_size) data)) /\
  buf arr <> a /\ holds a data w' /\ 0 <= batch_size.
Proof.
  intros Hlen Ha. unfold Np.repeat, bind, log, get_heap.
  cbn [heap set_trace buf shape].
  destruct (batch_size <? 0) eqn:Hneg; [done |]. apply Z.ltb_ge in Hneg.
  unfold holds in Ha. unfold set_trace at 1. cbn [heap]. rewrite Ha.
  unfold alloc, bind, get_heap, put_heap, ret.
  cbn [heap set_trace set_heap]. intros [= <- <-]. cbn [shape buf heap set_heap].
  pose proof (repeat_blocks_one sh (Z.to_nat batch_size) data Hlen) as Hblk.
  cbn [Np.repeat_blocks] in Hblk. rewrite Hblk, Nat.add_0_r.
  destruct (holds_alloc (concat (replicate (Z.to_nat batch_size) data)) w Ha)
    as [Hne Hl].
  split; [done |]. split; [apply lookup_insert_eq |]. done.
Qed.

Lemma np_repeat_trace arr n w w' r :
  Np.repeat arr n w = (w', r) -> trace w' = trace w ++ [EvNpRepeat arr n].
Proof.
  unfold Np.repeat, bind, log, get_heap. cbn [heap set_trace].
  destruct (n <? 0); [by intros [= <- _] |].
  destruct (heap _ !! buf arr); [| by intros [= <- _]].
  destruct (shape arr); by intros [= <- _].
Qed.

(** A run that has read its atlas either raises before it trains on any
    batch, or calls [np.repeat] on the atlas before it trains, and then
    trains only on batches whose fixed volume is the array that call
    returned. *)
Lemma train_repeats_atlas data_dir atlas_file model_dir gpu_id lr nb_epochs
  prior_lambda image_sigma steps_per_epoch batch_size load_model_file
  initial_epoch w w' r sh :
  a = fresh (dom (heap w)) ->
  read_atlas (fs w) atlas_file = inr (sh, data) ->
  train fw data_dir atlas_file model_dir gpu_id lr nb_epochs prior_lambda
    image_sigma steps_per_epoch batch_size load_model_file initial_epoch w
  = (w', r) ->
  let atlas_vol := {| buf := a; shape := (1 :: sh ++ [1])%nat |} in
  (r <> inr tt /\
   exists evs, trace w' = trace w ++ evs /\
     Forall (fun ev => is_optimise ev = false) evs) \/
  (exists w0 w1 arr pre post,
     trace w' = trace w ++ pre ++ EvNpRepeat atlas_vol batch_size :: post /\
     Forall (fun ev => is_optimise ev = false) pre /\
     trace w0 = trace w ++ pre /\ holds a data w0 /\
     Np.repeat atlas_vol batch_size w0 = (w1, inr arr) /\
     forall b, EvTrainOnBatch b ∈ post -> fixed b = arr).
Proof.
  intros Hfresh Hatlas Hrun atlas_vol.
  set (psi := fun ev => is_optimise ev = false).
  unfold train in Hrun.
  rewrite (bind_unfold_ok _ _ _ _ _ (load_atlas_ok _ _ _ _ Hatlas)) in Hrun.
  rewrite <- Hfresh in Hrun. fold atlas_vol in Hrun.
  match type of Hrun with bind _ _ ?x = _ => set (w1 := x) in * end.
  assert (Hacc : (exists evs, trace w1 = trace w ++ evs /\ Forall psi evs)
                 /\ holds a data w1).
  { split; [exists [EvNpLoad atlas_file]; split; [done | by repeat constructor] |].
    unfold holds, w1. cbn. apply lookup_insert_eq. }
  clearbody w1.
  assert (Hstop : forall wx (e : exn),
            (exists evs, trace wx = trace w ++ evs /\ Forall psi evs)
            /\ holds a data wx ->
            (@inl exn unit e <> inr tt /\
             exists evs, trace wx = trace w ++ evs /\ Forall psi evs) \/
            (exists w0 w1 arr pre post,
               trace wx
               = trace w ++ pre ++ EvNpRepeat atlas_vol batch_size :: post /\
               Forall psi pre /\
               trace w0 = trace w ++ pre /\ holds a data w0 /\
               Np.repeat atlas_vol batch_size w0 = (w1, inr arr) /\
               forall b, EvTrainOnBatch b ∈ post -> fixed b = arr)).
  { intros wx e [H _]. by left. }
  run_bind Hrun as w2 names H2;
    (eapply only_stable_after in H2;
     [| by apply (only_prepare_data_files psi)
      | apply stable_holds_prepare_data_files | exact Hacc]);
    [by apply Hstop |].
  clear Hacc. rename H2 into Hacc.
  run_bind Hrun as w3 u H3;
    (eapply only_stable_after in H3;
     [| by apply (only_prepare_model_folder psi)
      | apply stable_holds_prepare_model_folder | exact Hacc]);
    [by apply Hstop |].
  clear Hacc. rename H3 into Hacc.
  assert (Hgpu : stable (holds a data) (gpu_handling gpu_id))
    by (apply stable_holds_silent; intros; reflexivity).
  run_bind Hrun as w4 gpu H4;
    (eapply only_stable_after in H4;
     [| by apply (only_gpu_handling psi) | exact Hgpu | exact Hacc]);
    [by apply Hstop |].
  clear Hacc. rename H4 into Hacc.
  run_bind Hrun as w5 model H5;
    (eapply only_stable_after in H5;
     [| by apply (only_prepare_the_model fw psi)
      | apply stable_holds_prepare_the_model | exact Hacc]);
    [by apply Hstop |].
  clear Hacc Hstop. destruct H5 as [(pre & Hpre & Hall) Ha5].
  run_bind Hrun as w6 g H6.
  { left. split; [done |].
    destruct (only_data_generator psi names atlas_vol batch_size
                ltac:(done) _ _ _ H6) as (evs6 & Ht6 & Hall6).
    exists (pre ++ evs6). split; [by rewrite Ht6, Hpre, app_assoc |].
    by apply Forall_app. }
  unfold data_generator in H6. run_ok H6 as w6' arr H6'.
  injection H6 as <- <-.
  pose proof (np_repeat_trace _ _ _ _ _ H6') as Ht6.
  set (g := miccai2018_gen (example_gen names batch_size) arr batch_size)
    in Hrun.
  assert (Hfit : only
            (fun ev => forall b, ev = EvTrainOnBatch b -> fixed b = arr)
            (fit fw gpu model g model_dir initial_epoch nb_epochs
               steps_per_epoch)).
  { apply only_fit; try done. intros b Hb b' [= <-]. exact Hb. }
  assert (Hend : forall w7 (r7 : exn + Model),
            fit fw gpu model g model_dir initial_epoch nb_epochs
              steps_per_epoch w6' = (w7, r7) ->
            exists post,
              trace w7
              = trace w ++ pre ++ EvNpRepeat atlas_vol batch_size :: post /\
              forall b, EvTrainOnBatch b ∈ post -> fixed b = arr).
  { intros w7 r7 H7. destruct (Hfit _ _ _ H7) as (post & Ht7 & Hpost).
    exists post. split.
    - rewrite Ht7, Ht6, Hpre. by rewrite <- !app_assoc.
    - intros b Hb. rewrite Forall_forall in Hpost. by apply (Hpost _ Hb). }
  right. exists w5, w6', arr, pre.
  run_bind Hrun as w7 model' H7; destruct (Hend _ _ H7) as (post & Ht7 & Hfix).
  - by exists post.
  - injection Hrun as <- _. by exists post.
Qed.

End Atlas.

(** ** C6 *)

(** C6. With a framework that writes to no buffer but those of the batch it
    is given, and an atlas file whose array [vol] has shape [sh]: every run
    calls [np.load] once, on the atlas file; the atlas array is a view of
    shape [1 :: sh ++ [1]] on a fresh buffer, which holds the data of [vol]
    to the end of the run; [np.repeat] is called on no other array and with
    no other count than [batch_size].  A run that returns, or that trains
    on a batch, has made that call before it trained on any batch, in a
    world where the atlas held its data; the call returned another array,
    of shape [batch_size :: sh ++ [1]], holding [batch_size] copies of the
    data; and this array is the fixed volume of every batch the model is
    trained on. *)
Theorem atlas_loaded_once_replicated_and_kept
  fw data_dir atlas_file model_dir gpu_id lr nb_epochs prior_lambda image_sigma
  steps_per_epoch batch_size load_model_file initial_epoch w w' r sh data :
  frame_ok fw ->
  read_atlas (fs w) atlas_file = inr (sh, data) ->
  length data = Np.prod sh ->
  train fw data_dir atlas_file model_dir gpu_id lr nb_epochs prior_lambda
    image_sigma steps_per_epoch batch_size load_model_file initial_epoch w
  = (w', r) ->
  let a := fresh (dom (heap w)) in
  let atlas_vol := {| buf := a; shape := (1 :: sh ++ [1])%nat |} in
  exists evs, trace w' = trace w ++ evs /\
    omap np_load_of evs = [atlas_file] /\
    heap w' !! a = Some data /\
    Forall (atlas_event atlas_vol sh batch_size) evs /\
    (r = inr tt \/ (exists b, EvTrainOnBatch b ∈ evs) ->
     exists w0 w1 arr pre post,
       evs = pre ++ EvNpRepeat atlas_vol batch_size :: post /\
       Forall (fun ev => is_optimise ev = false) pre /\
       trace w0 = trace w ++ pre /\
       heap w0 !! a = Some data /\
       Np.repeat atlas_vol batch_size w0 = (w1, inr arr) /\
       shape arr = (Z.to_nat batch_size :: sh ++ [1])%nat /\
       heap w1 !! buf arr
       = Some (concat (replicate (Z.to_nat batch_size) data)) /\
       buf arr <> a /\
       forall b, EvTrainOnBatch b ∈ post -> fixed b = arr) /\
    (forall w0 w1 arr,
       heap w0 !! a = Some data ->
       Np.repeat atlas_vol batch_size w0 = (w1, inr arr) ->
       shape arr = (Z.to_nat batch_size :: sh ++ [1])%nat /\
       heap w1 !! buf arr
       = Some (concat (replicate (Z.to_nat batch_size) data)) /\
       buf arr <> a /\ heap w1 !! a = Some data).
Proof.
  intros Hframe Hatlas Hlen Hrun a atlas_vol.
  destruct (train_events _ _ _ _ _ _ _ _ _ _ _ _ _ _ _ _ Hrun)
    as (evs & Ht & Hlater).
  set (phi := atlas_event atlas_vol sh batch_size).
  assert (Hmain : (exists later,
             trace w' = (trace w ++ [EvNpLoad atlas_file]) ++ later
             /\ Forall phi later) /\ holds a data w').
  { unfold train in Hrun. rewrite (bind_unfold_ok _ _ _ _ _
                                     (load_atlas_ok _ _ _ _ Hatlas)) in Hrun.
    fold a atlas_vol in Hrun.
    match type of Hrun with bind _ _ ?x = _ => set (w1 := x) in * end.
    assert (Hacc : (exists later,
               trace w1 = (trace w ++ [EvNpLoad atlas_file]) ++ later
               /\ Forall phi later) /\ holds a data w1).
    { split; [exists []; by rewrite app_nil_r |].
      unfold holds, w1. cbn. apply lookup_insert_eq. }
    clearbody w1.
    run_bind Hrun as w2 names H2;
      (eapply only_stable_after in H2;
       [| by apply (only_prepare_data_files phi)
        | apply stable_holds_prepare_data_files | exact Hacc]); [done |].
    clear Hacc. rename H2 into Hacc.
    run_bind Hrun as w3 u H3;
      (eapply only_stable_after in H3;
       [| by apply (only_prepare_model_folder phi)
        | apply stable_holds_prepare_model_folder | exact Hacc]); [done |].
    clear Hacc. rename H3 into Hacc.
    assert (Hgpu : stable (holds a data) (gpu_handling gpu_id))
      by (apply stable_holds_silent; intros; reflexivity).
    run_bind Hrun as w4 gpu H4;
      (eapply only_stable_after in H4;
       [| by apply (only_gpu_handling phi) | exact Hgpu | exact Hacc]);
      [done |].
    clear Hacc. rename H4 into Hacc.
    run_bind Hrun as w5 model H5;
      (eapply only_stable_after in H5;
       [| by apply (only_prepare_the_model fw phi)
        | apply stable_holds_prepare_the_model | exact Hacc]); [done |].
    clear Hacc. rename H5 into Hacc.
    assert (Hgen : stable (holds a data)
                     (data_generator names atlas_vol batch_size)).
    { unfold data_generator. apply stable_bind;
        [apply stable_holds_np_repeat |].
      intros arr. apply stable_holds_silent. intros; reflexivity. }
    run_bind Hrun as w6 g H6.
    { eapply only_stable_after in H6;
        [done | by apply (only_data_generator phi) | exact Hgen | exact Hacc]. }
    assert (Hg : shape (atlas_vol_bs g)
                 = (Z.to_nat batch_size :: sh ++ [1])%nat
                 /\ buf (atlas_vol_bs g) <> a).
    { unfold data_generator in H6. run_ok H6 as w6' arr H6'.
      injection H6 as _ <-. cbn [atlas_vol_bs miccai2018_gen].
      destruct Hacc as [_ Ha].
      by destruct (np_repeat_atlas a data sh _ _ _ _ Hlen Ha H6')
        as (? & _ & ? & _). }
    eapply only_stable_after in H6;
      [| by apply (only_data_generator phi) | exact Hgen | exact Hacc].
    clear Hacc. rename H6 into Hacc. destruct Hg as [Hshape Hbuf].
    assert (Hfit : only phi
              (fit fw gpu model g model_dir initial_epoch nb_epochs
                 steps_per_epoch)).
    { apply only_fit; try done. intros b Hb. cbn. by rewrite Hb. }
    run_bind Hrun as w7 model' H7;
      (eapply only_stable_after in H7;
       [| exact Hfit | by apply stable_holds_fit | exact Hacc]); [done |].
    by injection Hrun as <- _. }
  destruct Hmain as [(later & Ht' & Hphi) Ha].
  assert (later = evs) as ->.
  { rewrite Ht in Ht'. by apply app_inv_head in Ht'. }
  exists ([EvNpLoad atlas_file] ++ evs). split; [by rewrite app_assoc |].
  split.
  { rewrite omap_app. cbn [omap list_omap np_load_of].
    rewrite (omap_silent np_load_of evs); [done |].
    eapply Forall_impl; [exact Hlater |]. by intros ev [_ ?]. }
  split; [exact Ha |]. split.
  { apply Forall_app. split; [by repeat constructor | done]. }
  split.
  - intros Hgot.
    destruct (train_repeats_atlas fw a data _ _ _ _ _ _ _ _ _ _ _ _ _ _ _ _
                eq_refl Hatlas Hrun)
      as [(Hr & evs' & Ht'' & Hno)
         | (w0 & w1 & arr & pre & post & Ht'' & Hpre & Ht0 & Ha0 & Hrep & Hfix)].
    + destruct Hgot as [-> | [b Hb]]; [done |].
      rewrite Ht'', <- app_assoc in Ht'. apply app_inv_head in Ht'.
      subst evs'. rewrite Forall_forall in Hno. by apply Hno in Hb.
    + rewrite Ht'', <- app_assoc in Ht'. apply app_inv_head in Ht'.
      destruct (np_repeat_atlas a data sh _ _ _ _ Hlen Ha0 Hrep)
        as (Hshape & Hdata & Hne & _).
      by exists w0, w1, arr, pre, post.
  - intros w0 w1 arr Ha0 Hrep.
    by destruct (np_repeat_atlas a data sh _ _ _ _ Hlen Ha0 Hrep)
      as (? & ? & ? & ? & _).
Qed.

Lemma demo_frame_ok : frame_ok Demo.fw.
Proof. intros m h b wts h' l [= _ <-] _ _. reflexivity. Qed.

Lemma atlas_loaded_once_replicated_and_kept_witness :
  let a := fresh (dom (heap Demo.world)) in
  let atlas_vol := {| buf := a; shape := [1; 2; 2; 2; 1]%nat |} in
  let data := [1; 2; 3; 4; 5; 6; 7; 8]%Q in
  exists evs, trace (fst Sample.batch2_run) = trace Demo.world ++ evs /\
    omap np_load_of evs = ["atlas.npz"] /\
    heap (fst Sample.batch2_run) !! a = Some data /\
    Forall (atlas_event atlas_vol [2; 2; 2]%nat 2) evs /\
    exists w0 w1 arr pre post,
      evs = pre ++ EvNpRepeat atlas_vol 2 :: post /\
      Forall (fun ev => is_optimise ev = false) pre /\
      trace w0 = trace Demo.world ++ pre /\
      heap w0 !! a = Some data /\
      Np.repeat atlas_vol 2 w0 = (w1, inr arr) /\
      shape arr = [2; 2; 2; 2; 1]%nat /\
      heap w1 !! buf arr = Some (data ++ data) /\
      buf arr <> a /\
      forall b, EvTrainOnBatch b ∈ post -> fixed b = arr.
Proof.
  intros a atlas_vol data.
  destruct (atlas_loaded_once_replicated_and_kept Demo.fw "data" "atlas.npz"
              "models" 0 (PyFloat (1 # 10000)) 2 (PyInt 10)
              (PyFloat (2 # 100)) 5 2 None 0 Demo.world
              (fst Sample.batch2_run) (inr tt) [2; 2; 2]%nat data)
    as (evs & Ht & Hload & Hkept & Hall & Hrep & _).
  - exact demo_frame_ok.
  - reflexivity.
  - reflexivity.
  - vm_compute. reflexivity.
  - exists evs. do 4 (split; [assumption |]).
    exact (Hrep (or_introl eq_refl)).
Defined.

(** * Further properties of the script *)

(** ** Epochs and the names of their checkpoints *)

Lemma int_no_plus c s :
  c <> "+"%char ->
  Py.int (String c s) = Z.of_int <$> NilZero.int_of_string (String c s).
Proof.
  intros Hc. unfold Py.int.
  destruct c as [[] [] [] [] [] [] [] []]; try reflexivity. by destruct Hc.
Qed.

Lemma to_int_proper z :
  Z.to_int z <> Decimal.Pos Decimal.Nil /\
  Z.to_int z <> Decimal.Neg Decimal.Nil.
Proof.
  destruct z as [| p | p]; cbn; (split; [| try done]); try done;
    intros [= H]; by apply (DecimalPos.Unsigned.to_uint_nonnil p).
Qed.

(** [int(str(z)) == z] *)
Lemma int_str z : Py.int (Py.str z) = Some z.
Proof.
  destruct (str_first z) as (c & s & Hs & Hc). rewrite Hs, int_no_plus.
  - rewrite <- Hs. unfold Py.str.
    destruct (to_int_proper z) as [H1 H2].
    rewrite NilZero.isi by done. cbn. by rewrite DecimalZ.of_to.
  - intros ->. by destruct Hc.
Qed.

(** [int('%02d' % z) == z]: the zero the format pads with does not change
    the number read back. *)
Lemma int_format_02d z : Py.int (Py.format_02d z) = Some z.
Proof.
  unfold Py.format_02d.
  destruct (String.length (Py.str z) <? 2)%nat eqn:Hlen; [| apply int_str].
  pose proof (int_str z) as Hz.
  destruct (str_first z) as (c & s & Hs & Hc). rewrite Hs in Hlen, Hz |- *.
  destruct s; [| done].
  destruct Hc as [Hc | ->]; [| done].
  destruct c as [[] [] [] [] [] [] [] []]; try discriminate Hc;
    vm_compute in Hz; injection Hz as <-; reflexivity.
Qed.

Lemma append_cancel_r a b s : a +:+ s = b +:+ s -> a = b.
Proof.
  revert b. induction a as [| x a IH]; intros b Heq.
  - destruct b as [| y b]; [done |].
    apply (f_equal String.length) in Heq. rewrite append_empty in Heq.
    rewrite length_append in Heq. cbn in Heq. lia.
  - destruct b as [| y b].
    + apply (f_equal String.length) in Heq. rewrite append_empty in Heq.
      rewrite length_append in Heq. cbn in Heq. lia.
    + rewrite !append_cons in Heq. injection Heq as -> Heq.
      by rewrite (IH _ Heq).
Qed.

Lemma checkpoint_path_inj m e1 e2 :
  OsPath.join m (Py.format_02d e1 +:+ ".h5")
  = OsPath.join m (Py.format_02d e2 +:+ ".h5") ->
  e1 = e2.
Proof.
  rewrite !(join_relative m (_ +:+ ".h5")) by apply format_02d_first.
  intros H%String.app_inj%append_cancel_r.
  apply (f_equal Py.int) in H. rewrite !int_format_02d in H. by injection H.
Qed.

(** X1. The name of the first checkpoint, ['%02d.h5' % initial_epoch] (line
    91), tells the epoch: the number read back from the formatted text is the
    epoch, for every integer; and in one folder the checkpoints of two
    different epochs are two different paths. *)
Theorem checkpoint_name_tells_epoch model_dir e :
  Py.int (Py.format_02d e) = Some e /\
  forall e', e' <> e ->
    OsPath.join model_dir (Py.format_02d e' +:+ ".h5")
    <> OsPath.join model_dir (Py.format_02d e +:+ ".h5").
Proof.
  split; [apply int_format_02d |].
  intros e' Hne Heq. by apply checkpoint_path_inj in Heq.
Qed.

(** ** How much a run trains and saves *)

Lemma length_omap_same {A B C} (f : A -> option B) (g : A -> option C)
  (l : list A) :
  (forall x, is_Some (f x) <-> is_Some (g x)) ->
  length (omap f l) = length (omap g l).
Proof.
  intros H. induction l as [| x l IH]; [done |]. cbn.
  destruct (f x) as [b |] eqn:Hf, (g x) as [c |] eqn:Hg; cbn; try by rewrite IH.
  - assert (Hs : is_Some (g x)) by (apply H; rewrite Hf; eauto).
    rewrite Hg in Hs. by destruct Hs.
  - assert (Hs : is_Some (f x)) by (apply H; rewrite Hg; eauto).
    rewrite Hf in Hs. by destruct Hs.
Qed.

Lemma length_concat_replicate {A} n (l : list A) :
  length (concat (replicate n l)) = (n * length l)%nat.
Proof.
  induction n as [| n IH]; [done |]. cbn. by rewrite length_app, IH.
Qed.

(** The optimisation steps and the saves of the schedule of a run. *)
Lemma schedule_optimize lr prior_lambda image_sigma load_model_file
  initial_epoch nb_epochs steps_per_epoch :
  length (omap (fun s => match s with StOptimize => Some tt | _ => None end)
            (schedule lr prior_lambda image_sigma load_model_file
               initial_epoch nb_epochs steps_per_epoch))
  = (Z.to_nat (nb_epochs - initial_epoch) * Z.to_nat steps_per_epoch)%nat.
Proof.
  unfold schedule, epoch_schedule.
  rewrite !omap_app, !length_app, omap_concat_replicate,
    length_concat_replicate, omap_app, length_app, omap_concat_replicate,
    length_concat_replicate.
  destruct load_model_file; cbn; lia.
Qed.

Lemma schedule_save lr prior_lambda image_sigma load_model_file
  initial_epoch nb_epochs steps_per_epoch :
  length (omap (fun s => match s with StSave => Some tt | _ => None end)
            (schedule lr prior_lambda image_sigma load_model_file
               initial_epoch nb_epochs steps_per_epoch))
  = S (Z.to_nat (nb_epochs - initial_epoch)).
Proof.
  unfold schedule, epoch_schedule.
  rewrite !omap_app, !length_app, omap_concat_replicate,
    length_concat_replicate, omap_app, length_app, omap_concat_replicate,
    length_concat_replicate.
  destruct load_model_file; cbn; lia.
Qed.

(** X2. A run of [train] that returns has called [train_on_batch]
    [steps_per_epoch] times for each of the [nb_epochs - initial_epoch]
    epochs, and [model.save] once more than there are epochs.  When
    [nb_epochs] is not above [initial_epoch] nothing is trained: the run
    only saves the model it built or loaded, as the checkpoint of
    [initial_epoch]. *)
Theorem steps_and_checkpoints_of_a_run
  fw data_dir atlas_file model_dir gpu_id lr nb_epochs prior_lambda image_sigma
  steps_per_epoch batch_size load_model_file initial_epoch w w' :
  train fw data_dir atlas_file model_dir gpu_id lr nb_epochs prior_lambda
    image_sigma steps_per_epoch batch_size load_model_file initial_epoch w
  = (w', inr tt) ->
  exists evs, trace w' = trace w ++ evs /\
    length (omap batch_of evs)
    = (Z.to_nat (nb_epochs - initial_epoch) * Z.to_nat steps_per_epoch)%nat /\
    length (omap save_of evs) = S (Z.to_nat (nb_epochs - initial_epoch)) /\
    (nb_epochs <= initial_epoch ->
     omap batch_of evs = [] /\
     omap save_of evs
     = [OsPath.join model_dir (Py.format_02d initial_epoch +:+ ".h5")]).
Proof.
  intros Hrun.
  destruct (follows_train _ _ _ _ _ _ _ _ _ _ _ _ _ _ _ _ Hrun)
    as (evs & Ht & Hsch).
  destruct (follows_save_of_train _ _ _ _ _ _ _ _ _ _ _ _ _ _ _ _ Hrun)
    as (evs' & Ht' & Hsaves).
  assert (evs' = evs) as ->.
  { rewrite Ht in Ht'. by apply app_inv_head in Ht'. }
  assert (Hopt : length (omap batch_of evs)
                 = (Z.to_nat (nb_epochs - initial_epoch)
                    * Z.to_nat steps_per_epoch)%nat).
  { rewrite <- (schedule_optimize lr prior_lambda image_sigma load_model_file),
      <- Hsch, omap_omap.
    apply length_omap_same. intros ev.
    destruct ev; cbn; split; intros [? ?]; eauto; done. }
  exists evs. split; [done |]. split; [done |]. split.
  - rewrite <- (schedule_save lr prior_lambda image_sigma load_model_file
                  initial_epoch nb_epochs steps_per_epoch),
      <- Hsch, omap_omap.
    apply length_omap_same. intros ev.
    destruct ev; cbn; split; intros [? ?]; eauto; done.
  - intros Hle. replace (Z.to_nat (nb_epochs - initial_epoch)) with 0%nat in *
      by lia.
    split; [| done]. by apply nil_length_inv.
Qed.

Lemma steps_and_checkpoints_of_a_run_witness :
  exists evs, trace (fst Demo.run) = trace Demo.world ++ evs /\
    length (omap batch_of evs) = (Z.to_nat (2 - 0) * Z.to_nat 5)%nat /\
    length (omap save_of evs) = S (Z.to_nat (2 - 0)) /\
    (2 <= 0 ->
     omap batch_of evs = [] /\
     omap save_of evs = [OsPath.join "models" (Py.format_02d 0 +:+ ".h5")]).
Proof.
  apply (steps_and_checkpoints_of_a_run Demo.fw "data" "atlas.npz" "models" 0
           (PyFloat (1 # 10000)) 2 (PyInt 10) (PyFloat (2 # 100)) 5 1 None 0
           Demo.world (fst Demo.run)).
  vm_compute. reflexivity.
Defined.

(** ** The GPU and the network *)

(** A run built from primitives that leave the part [proj] of the world
    alone leaves it alone. *)
Ltac keeps_auto :=
  repeat first
    [ apply keeps_silent; intros; reflexivity
    | apply keeps_bind; [| intros ?]
    | apply keeps_with_device; [intros; reflexivity |]
    | match goal with
      | |- keeps _ (lift ?x) => destruct x
      | |- keeps _ (match ?x with _ => _ end) => destruct x
      | |- keeps _ (if ?x then _ else _) => destruct x
      end ].

Section KeepsConfig.

Variable fw : Framework.

Lemma keeps_config_load_atlas f : keeps gpu_config (load_atlas f).
Proof. unfold load_atlas, Np.load, Np.getitem, alloc. keeps_auto. Qed.

Lemma keeps_config_prepare_data_files d :
  keeps gpu_config (prepare_data_files d).
Proof. intros w w' r. rewrite prepare_data_files_eq. by intros [= <- _]. Qed.

Lemma keeps_config_prepare_model_folder d :
  keeps gpu_config (prepare_model_folder d).
Proof.
  unfold prepare_model_folder, os_path_isdir, os_mkdir, put_fs. keeps_auto.
Qed.

Lemma keeps_config_save model p : keeps gpu_config (save model p).
Proof. unfold save, put_fs. keeps_auto. Qed.

Lemma keeps_config_prepare_the_model gpu vol_size nf_enc nf_dec model_dir lr
  prior_lambda image_sigma load_model_file initial_epoch :
  keeps gpu_config
    (prepare_the_model fw gpu vol_size nf_enc nf_dec model_dir lr prior_lambda
       image_sigma load_model_file initial_epoch).
Proof.
  unfold prepare_the_model, miccai2018_net, load_weights, compile.
  apply keeps_with_device; [intros; reflexivity |].
  apply keeps_bind; [keeps_auto | intros model0].
  apply keeps_bind; [keeps_auto | intros model1].
  apply keeps_bind; [apply keeps_config_save | intros _]. keeps_auto.
Qed.

Lemma keeps_config_data_generator names atlas_vol bs :
  keeps gpu_config (data_generator names atlas_vol bs).
Proof. unfold data_generator, Np.repeat, alloc. keeps_auto. Qed.

Lemma keeps_config_fit_steps n model g :
  keeps gpu_config (fit_steps fw n model g).
Proof.
  revert model. induction n as [| n IH]; intros model; cbn [fit_steps].
  - keeps_auto.
  - apply keeps_bind; [unfold next, alloc; keeps_auto | intros b].
    apply keeps_bind; [unfold train_on_batch, put_heap; keeps_auto | intros m].
    apply IH.
Qed.

Lemma keeps_config_fit_epochs n epoch model g template steps :
  keeps gpu_config
    (fit_epochs fw n epoch model g [ModelCheckpoint template] steps).
Proof.
  revert epoch model. induction n as [| n IH]; intros epoch model.
  - keeps_auto.
  - cbn [fit_epochs callbacks_on_epoch_end on_epoch_end].
    apply keeps_bind; [keeps_auto | intros _].
    apply keeps_bind; [apply keeps_config_fit_steps | intros model'].
    apply keeps_bind; [| intros _; apply IH].
    apply keeps_bind; [| intros _; keeps_auto].
    apply keeps_bind; [keeps_auto | intros p]. apply keeps_config_save.
Qed.

Lemma keeps_config_fit gpu model g model_dir initial_epoch nb_epochs steps :
  keeps gpu_config
    (fit fw gpu model g model_dir initial_epoch nb_epochs steps).
Proof.
  unfold fit, fit_generator. apply keeps_with_device; [intros; reflexivity |].
  apply keeps_config_fit_epochs.
Qed.

End KeepsConfig.

(** With a session that is always granted, the GPU is configured all at
    once or not at all. *)
Lemma gpu_all_or_nothing
  fw data_dir atlas_file model_dir gpu_id lr nb_epochs prior_lambda image_sigma
  steps_per_epoch batch_size load_model_file initial_epoch w w' r :
  train fw data_dir atlas_file model_dir gpu_id lr nb_epochs prior_lambda
    image_sigma steps_per_epoch batch_size load_model_file initial_epoch w
  = (w', r) ->
  (environ w' = environ w /\ session w' = session w /\ r <> inr tt) \/
  (environ w' = <["CUDA_VISIBLE_DEVICES" := Py.str gpu_id]> (environ w) /\
   session w'
   = Some {| allow_growth := true; allow_soft_placement := true |}).
Proof.
  intros Hrun. unfold train in Hrun.
  assert (Hleft : forall w0 e,
            gpu_config w0 = gpu_config w ->
            (environ w0 = environ w /\ session w0 = session w
             /\ @inl exn unit e <> inr tt) \/
            (environ w0
             = <["CUDA_VISIBLE_DEVICES" := Py.str gpu_id]> (environ w) /\
             session w0
             = Some {| allow_growth := true; allow_soft_placement := true |})).
  { intros w0 e [= H1 H2]. by left. }
  run_bind Hrun as w1 atlas_vol H1; apply keeps_config_load_atlas in H1;
    [by apply Hleft |].
  run_bind Hrun as w2 names H2; apply keeps_config_prepare_data_files in H2;
    [apply Hleft; congruence |].
  run_bind Hrun as w3 u H3; apply keeps_config_prepare_model_folder in H3;
    [apply Hleft; congruence |].
  run_bind Hrun as w4 gpu H4; [done |].
  assert (Hcfg : gpu_config w4
                 = (<["CUDA_VISIBLE_DEVICES" := Py.str gpu_id]> (environ w),
                    Some {| allow_growth := true;
                            allow_soft_placement := true |})).
  { injection H4 as <- _. unfold gpu_config in *. cbn.
    injection H3 as -> _. injection H2 as -> _. by injection H1 as -> _. }
  clear H1 H2 H3 H4 Hleft. right.
  assert (Hkeep : gpu_config w' = gpu_config w4).
  { revert Hrun. generalize w4 w' r. change (keeps gpu_config
      (model <- prepare_the_model fw gpu
                  (Np.slice_1_m1 (shape atlas_vol)) [16; 32; 32; 32]%nat
                  [32; 32; 32; 32; 16; 3]%nat model_dir lr prior_lambda
                  image_sigma load_model_file initial_epoch ;;
       g <- data_generator names atlas_vol batch_size ;;
       fit fw gpu model g model_dir initial_epoch nb_epochs steps_per_epoch ;;
       ret tt)).
    apply keeps_bind; [apply keeps_config_prepare_the_model | intros model].
    apply keeps_bind; [apply keeps_config_data_generator | intros g].
    apply keeps_bind; [apply keeps_config_fit | intros _]. keeps_auto. }
  rewrite Hcfg in Hkeep. by injection Hkeep.
Qed.

(** X3. [train] configures the GPU as asked and touches nothing else of
    the environment.  After any run, every variable but
    [CUDA_VISIBLE_DEVICES] is as it was; that variable is as it was or holds
    [str(gpu_id)]; the session is as it was or one with [allow_growth] and
    [allow_soft_placement] set, and it has changed only after the variable
    was set.  A run that returns has set both. *)
Theorem gpu_is_configured_as_asked
  fw data_dir atlas_file model_dir gpu_id lr nb_epochs prior_lambda image_sigma
  steps_per_epoch batch_size load_model_file initial_epoch w w' r :
  train fw data_dir atlas_file model_dir gpu_id lr nb_epochs prior_lambda
    image_sigma steps_per_epoch batch_size load_model_file initial_epoch w
  = (w', r) ->
  (forall k, k <> "CUDA_VISIBLE_DEVICES" -> environ w' !! k = environ w !! k) /\
  (environ w' !! "CUDA_VISIBLE_DEVICES" = environ w !! "CUDA_VISIBLE_DEVICES" \/
   environ w' !! "CUDA_VISIBLE_DEVICES" = Some (Py.str gpu_id)) /\
  (session w' = session w \/
   session w'
   = Some {| allow_growth := true; allow_soft_placement := true |}) /\
  (session w' <> session w ->
   environ w' !! "CUDA_VISIBLE_DEVICES" = Some (Py.str gpu_id)) /\
  (r = inr tt ->
   environ w' !! "CUDA_VISIBLE_DEVICES" = Some (Py.str gpu_id) /\
   session w'
   = Some {| allow_growth := true; allow_soft_placement := true |}).
Proof.
  intros Hrun.
  destruct (gpu_all_or_nothing _ _ _ _ _ _ _ _ _ _ _ _ _ _ _ _ Hrun)
    as [(Henv & Hses & Hr) | (Henv & Hses)].
  - rewrite Henv, Hses. repeat split; try done; by left.
  - rewrite Henv. split; [intros k Hk; by rewrite lookup_insert_ne |].
    rewrite lookup_insert_eq. split; [by right |]. split; [by right |]. done.
Qed.

Lemma gpu_is_configured_as_asked_witness :
  (forall k, k <> "CUDA_VISIBLE_DEVICES" ->
     environ (fst Demo.run) !! k = environ Demo.world !! k) /\
  (environ (fst Demo.run) !! "CUDA_VISIBLE_DEVICES"
   = environ Demo.world !! "CUDA_VISIBLE_DEVICES" \/
   environ (fst Demo.run) !! "CUDA_VISIBLE_DEVICES" = Some (Py.str 0)) /\
  (session (fst Demo.run) = session Demo.world \/
   session (fst Demo.run)
   = Some {| allow_growth := true; allow_soft_placement := true |}) /\
  (session (fst Demo.run) <> session Demo.world ->
   environ (fst Demo.run) !! "CUDA_VISIBLE_DEVICES" = Some (Py.str 0)) /\
  (@inr exn unit tt = inr tt ->
   environ (fst Demo.run) !! "CUDA_VISIBLE_DEVICES" = Some (Py.str 0) /\
   session (fst Demo.run)
   = Some {| allow_growth := true; allow_soft_placement := true |}).
Proof.
  apply (gpu_is_configured_as_asked Demo.fw "data" "atlas.npz" "models" 0
           (PyFloat (1 # 10000)) 2 (PyInt 10) (PyFloat (2 # 100)) 5 1 None 0
           Demo.world (fst Demo.run) (inr tt)).
  vm_compute. reflexivity.
Defined.

Lemma slice_of_newaxis sh : Np.slice_1_m1 (1 :: sh ++ [1])%nat = sh.
Proof. unfold Np.slice_1_m1. cbn [tail]. apply removelast_last. Qed.

(** X4. The network is built for the atlas: with an atlas file whose array
    [vol] has shape [sh], every call to [networks.miccai2018_net] of a run
    has [vol_size = sh] (line 55 takes the atlas shape without the two axes
    line 54 added), the encoder features [16, 32, 32, 32] and the decoder
    features [32, 32, 32, 32, 16, 3]; a run that returns has made that
    call. *)
Theorem network_is_sized_by_the_atlas
  fw data_dir atlas_file model_dir gpu_id lr nb_epochs prior_lambda image_sigma
  steps_per_epoch batch_size load_model_file initial_epoch w w' r sh data :
  read_atlas (fs w) atlas_file = inr (sh, data) ->
  train fw data_dir atlas_file model_dir gpu_id lr nb_epochs prior_lambda
    image_sigma steps_per_epoch batch_size load_model_file initial_epoch w
  = (w', r) ->
  exists evs, trace w' = trace w ++ evs /\
    Forall (builds_for sh) evs /\
    (r = inr tt ->
     EvBuildNet sh [16; 32; 32; 32]%nat [32; 32; 32; 32; 16; 3]%nat ∈ evs).
Proof.
  intros Hatlas Hrun.
  assert (Hall : exists evs, trace w' = trace w ++ evs /\
                   Forall (builds_for sh) evs).
  { unfold train in Hrun.
    rewrite (bind_unfold_ok _ _ _ _ _ (load_atlas_ok _ _ _ _ Hatlas)) in Hrun.
    cbn [shape] in Hrun. rewrite slice_of_newaxis in Hrun.
    eapply only_after; [| exact Hrun |].
    - only_bind names; [by apply only_prepare_data_files |].
      only_bind u; [by apply only_prepare_model_folder |].
      only_bind gpu; [by apply only_gpu_handling |].
      only_bind model; [by apply only_prepare_the_model |].
      only_bind g; [by apply only_data_generator |].
      only_bind model'; [by apply only_fit | only_step].
    - exists [EvNpLoad atlas_file]. split; [done | by repeat constructor]. }
  destruct Hall as (evs & Ht & Hall). exists evs. split; [done |].
  split; [done |]. intros ->.
  destruct (follows_train _ _ _ _ _ _ _ _ _ _ _ _ _ _ _ _ Hrun)
    as (evs' & Ht' & Hsch).
  assert (evs' = evs) as ->.
  { rewrite Ht in Ht'. by apply app_inv_head in Ht'. }
  assert (Hin : StBuild ∈ omap step_of evs).
  { rewrite Hsch. unfold schedule. apply list_elem_of_here. }
  apply list_elem_of_omap in Hin as (ev & Hev & Hstep).
  rewrite Forall_forall in Hall. specialize (Hall _ Hev).
  destruct ev; simplify_eq/=. by destruct Hall as (-> & -> & ->).
Qed.

Lemma network_is_sized_by_the_atlas_witness :
  exists evs, trace (fst Demo.run) = trace Demo.world ++ evs /\
    Forall (builds_for [2; 2; 2]%nat) evs /\
    (@inr exn unit tt = inr tt ->
     EvBuildNet [2; 2; 2]%nat [16; 32; 32; 32]%nat
       [32; 32; 32; 32; 16; 3]%nat ∈ evs).
Proof.
  apply (network_is_sized_by_the_atlas Demo.fw "data" "atlas.npz" "models" 0
           (PyFloat (1 # 10000)) 2 (PyInt 10) (PyFloat (2 # 100)) 5 1 None 0
           Demo.world (fst Demo.run) (inr tt) [2; 2; 2]%nat
           [1; 2; 3; 4; 5; 6; 7; 8]%Q).
  - reflexivity.
  - vm_compute. reflexivity.
Defined.

(** ** A model folder that cannot be made *)

(** X5. The model folder is made with [os.mkdir], one level only.  When
    [model_dir] is not a directory and [os.mkdir] refuses it, a run that has
    its atlas and its data raises the error of [os.mkdir]: [FileExistsError]
    when [model_dir] is a regular file; when nothing exists at [model_dir],
    [NotADirectoryError] if the path goes through a regular file, and
    [FileNotFoundError] if not.  Nothing of the GPU is touched by then, and
    the file system is as it was. *)
Theorem model_folder_that_cannot_be_made
  fw data_dir atlas_file model_dir gpu_id lr nb_epochs prior_lambda image_sigma
  steps_per_epoch batch_size load_model_file initial_epoch w sh data e :
  read_atlas (fs w) atlas_file = inr (sh, data) ->
  Glob.glob (fs w) (OsPath.join data_dir "*.npz") <> [] ->
  Fs.isdir (fs w) model_dir = false ->
  Fs.mkdir (fs w) model_dir = inl e ->
  exists w' evs,
    train fw data_dir atlas_file model_dir gpu_id lr nb_epochs prior_lambda
      image_sigma steps_per_epoch batch_size load_model_file initial_epoch w
    = (w', inl e) /\
    trace w' = trace w ++ evs /\
    Forall (fun ev => gpu_event ev = false) evs /\
    EvMkdir model_dir ∈ evs /\
    environ w' = environ w /\ session w' = session w /\ fs w' = fs w /\
    (forall c, Fs.lookup (fs w) model_dir = Some (File c) ->
       e = FileExistsError model_dir) /\
    (Fs.lookup (fs w) model_dir = None ->
     e = if Fs.below_file (fs w) model_dir
         then NotADirectoryError model_dir
         else FileNotFoundError model_dir).
Proof.
  intros Hatlas Hglob Hdir Hmk.
  pose proof (load_atlas_ok _ _ _ _ Hatlas) as H1.
  match type of H1 with _ = (?x, _) => set (w1 := x) in * end.
  pose proof (prepare_data_files_eq data_dir w1) as H2. cbn zeta in H2.
  rewrite shuffle_from_length in H2. change (fs w1) with (fs w) in H2.
  destruct (Glob.glob (fs w) (OsPath.join data_dir "*.npz")) as [| n ns] eqn:Hg;
    [done |].
  cbn [length Nat.ltb Nat.leb] in H2.
  match type of H2 with _ = (?x, _) => set (w2 := x) in * end.
  assert (H3 : prepare_model_folder model_dir w2
               = (set_trace (trace w2 ++ [EvMkdir model_dir]) w2, inl e)).
  { unfold prepare_model_folder, os_path_isdir, os_mkdir, bind, get_fs, ret,
      log, lift.
    change (fs w2) with (fs w). rewrite Hdir. cbn [negb fs set_trace].
    change (fs w2) with (fs w). by rewrite Hmk. }
  eexists _, [EvNpLoad atlas_file; EvGlob _; EvShuffle _; EvMkdir model_dir].
  split.
  { unfold train. rewrite (bind_unfold_ok _ _ _ _ _ H1).
    rewrite (bind_unfold_ok _ _ _ _ _ H2). unfold bind at 1. by rewrite H3. }
  cbn. split; [by rewrite <- !app_assoc |].
  split; [by repeat constructor |].
  split; [rewrite !elem_of_cons; tauto |].
  do 3 (split; [done |]). revert Hmk. unfold Fs.mkdir.
  destruct (String.eqb_spec model_dir "") as [-> | Hne].
  { intros [= <-]. split; [done |]. intros _. reflexivity. }
  destruct (Fs.lookup (fs w) model_dir) as [nd |] eqn:Hl.
  { intros ?. split; [congruence | done]. }
  split; [done |]. intros _. revert Hmk.
  destruct (Fs.parent_ok (fs w) model_dir); [done |].
  unfold Fs.missing. congruence.
Qed.

Lemma model_folder_that_cannot_be_made_witness :
  exists w' evs,
    train Demo.fw "data" "atlas.npz" "atlas.npz/sub/deeper" 0
      (PyFloat (1 # 10000)) 2 (PyInt 10) (PyFloat (2 # 100)) 5 1 None 0
      Demo.world
    = (w', inl (NotADirectoryError "atlas.npz/sub/deeper")) /\
    trace w' = trace Demo.world ++ evs /\
    Forall (fun ev => gpu_event ev = false) evs /\
    EvMkdir "atlas.npz/sub/deeper" ∈ evs /\
    environ w' = environ Demo.world /\ session w' = session Demo.world /\
    fs w' = fs Demo.world /\
    (forall c, Fs.lookup (fs Demo.world) "atlas.npz/sub/deeper"
               = Some (File c) ->
       NotADirectoryError "atlas.npz/sub/deeper"
       = FileExistsError "atlas.npz/sub/deeper") /\
    (Fs.lookup (fs Demo.world) "atlas.npz/sub/deeper" = None ->
     NotADirectoryError "atlas.npz/sub/deeper"
     = if Fs.below_file (fs Demo.world) "atlas.npz/sub/deeper"
       then NotADirectoryError "atlas.npz/sub/deeper"
       else FileNotFoundError "atlas.npz/sub/deeper").
Proof.
  apply (model_folder_that_cannot_be_made Demo.fw "data" "atlas.npz"
           "atlas.npz/sub/deeper" 0 (PyFloat (1 # 10000)) 2 (PyInt 10)
           (PyFloat (2 # 100)) 5 1 None 0 Demo.world [2; 2; 2]%nat
           [1; 2; 3; 4; 5; 6; 7; 8]%Q).
  - reflexivity.
  - vm_compute. discriminate.
  - vm_compute. reflexivity.
  - vm_compute. reflexivity.
Defined.

(** ** What a run writes *)

Section Written.

Variable fw : Framework.
Variable model_dir : string.
Variable fs0 : gmap string node.
Variable t0 : list Event.

Lemma written_keeps {A} (m : M A) :
  keeps fs m -> only (fun _ => True) m ->
  stable (written_since model_dir fs0 t0) m.
Proof.
  intros Hk Ho w w' r Hrun (evs & Ht & Hch & Hdom).
  destruct (Ho _ _ _ Hrun) as (evs' & Ht' & _).
  exists (evs ++ evs'). rewrite (Hk _ _ _ Hrun).
  split; [by rewrite Ht', Ht, app_assoc |]. split; [| done].
  intros k Hne. destruct (Hch k Hne) as [-> | (p & Hp & ->)]; [by left |].
  right. exists p. split; [| done]. apply elem_of_app. by left.
Qed.

Lemma written_log ev : stable (written_since model_dir fs0 t0) (log ev).
Proof. apply written_keeps; [keeps_step | by apply only_log]. Qed.

Lemma written_save model p :
  stable (written_since model_dir fs0 t0) (save model p).
Proof.
  intros w w' r Hrun (evs & Ht & Hch & Hdom).
  revert Hrun. unfold save, bind, log, get_fs, put_fs, lift.
  cbn [fs set_trace].
  destruct (Fs.write _ _ _) as [e | fs'] eqn:Hw; intros [= <- _];
    exists (evs ++ [EvSave p]); cbn; (split; [by rewrite Ht, app_assoc |]).
  - split; [| done]. intros k Hne.
    destruct (Hch k Hne) as [-> | (q & Hq & ->)]; [by left |].
    right. exists q. split; [| done]. apply elem_of_app. by left.
  - apply write_inv in Hw as (_ & _ & ->). split.
    + intros k Hne. destruct (decide (k = OsPath.norm p)) as [-> | Hk].
      { right. exists p. split; [| done]. apply elem_of_app. right.
        apply list_elem_of_here. }
      rewrite lookup_insert_ne in Hne by done.
      destruct (Hch k Hne) as [-> | (q & Hq & ->)]; [by left |].
      right. exists q. split; [| done]. apply elem_of_app. by left.
    + intros k Hk. destruct (decide (k = OsPath.norm p)) as [-> | Hne].
      * rewrite lookup_insert_eq. eauto.
      * rewrite lookup_insert_ne by done. by apply Hdom.
Qed.

Lemma written_prepare_model_folder :
  stable (written_since model_dir fs0 t0) (prepare_model_folder model_dir).
Proof.
  intros w w' r Hrun (evs & Ht & Hch & Hdom).
  destruct r as [e | []].
  - apply prepare_model_folder_fail in Hrun as [Hfs Htr].
    exists (evs ++ [EvMkdir model_dir]). rewrite Hfs.
    split; [by rewrite Htr, Ht, app_assoc |]. split; [| done].
    intros k Hne. destruct (Hch k Hne) as [-> | (q & Hq & ->)]; [by left |].
    right. exists q. split; [| done]. apply elem_of_app. by left.
  - apply prepare_model_folder_inv in Hrun as (_ & Hfs & Htr).
    eexists. split; [by rewrite Htr, Ht, <- app_assoc |].
    rewrite Hfs. destruct (Fs.isdir (fs w) model_dir).
    { split; [| done]. intros k Hne.
      destruct (Hch k Hne) as [-> | (q & Hq & ->)]; [by left |].
      right. exists q. split; [| done]. apply elem_of_app. by left. }
    split.
    + intros k Hne.
      destruct (decide (k = OsPath.norm model_dir)) as [-> | Hk]; [by left |].
      rewrite lookup_insert_ne in Hne by done.
      destruct (Hch k Hne) as [-> | (q & Hq & ->)]; [by left |].
      right. exists q. split; [| done]. apply elem_of_app. by left.
    + intros k Hk.
      destruct (decide (k = OsPath.norm model_dir)) as [-> | Hne].
      * rewrite lookup_insert_eq. eauto.
      * rewrite lookup_insert_ne by done. by apply Hdom.
Qed.

Lemma written_prepare_the_model gpu vol_size nf_enc nf_dec lr prior_lambda
  image_sigma load_model_file initial_epoch :
  stable (written_since model_dir fs0 t0)
    (prepare_the_model fw gpu vol_size nf_enc nf_dec model_dir lr prior_lambda
       image_sigma load_model_file initial_epoch).
Proof.
  unfold prepare_the_model.
  apply stable_with_device; [apply written_log |].
  apply stable_bind.
  { apply written_keeps; [apply keeps_fs_miccai2018_net |].
    unfold miccai2018_net. only_bind u; [by only_step |].
    destruct (net_init _ _ _ _); only_step. }
  intros model0. apply stable_bind.
  { destruct load_model_file.
    - apply written_keeps;
        [apply keeps_fs_load_weights | by apply only_load_weights].
    - apply written_keeps; [keeps_step | only_step]. }
  intros model1. apply stable_bind; [apply written_save |].
  intros _. apply written_keeps; [keeps_step |].
  unfold compile. only_bind u; [by only_step | only_step].
Qed.

Lemma written_fit_epochs n epoch model g template steps :
  stable (written_since model_dir fs0 t0)
    (fit_epochs fw n epoch model g [ModelCheckpoint template] steps).
Proof.
  revert epoch model. induction n as [| n IH]; intros epoch model.
  - apply written_keeps; [keeps_step | only_step].
  - cbn [fit_epochs]. apply stable_bind; [apply written_log |].
    intros _. apply stable_bind.
    { apply written_keeps; [apply keeps_fs_fit_steps |].
      by apply only_fit_steps. }
    intros model'. apply stable_bind; [| intros _; apply IH].
    cbn [callbacks_on_epoch_end on_epoch_end].
    apply stable_bind;
      [| intros _; apply written_keeps; [keeps_step | only_step]].
    apply stable_bind.
    { apply written_keeps; [apply keeps_fs_lift | only_step]. }
    intros p. apply written_save.
Qed.

Lemma written_train data_dir atlas_file gpu_id lr nb_epochs prior_lambda
  image_sigma steps_per_epoch batch_size load_model_file initial_epoch :
  stable (written_since model_dir fs0 t0)
    (train fw data_dir atlas_file model_dir gpu_id lr nb_epochs prior_lambda
       image_sigma steps_per_epoch batch_size load_model_file initial_epoch).
Proof.
  unfold train.
  apply stable_bind.
  { apply written_keeps;
      [apply keeps_fs_load_atlas | by apply only_load_atlas]. }
  intros atlas_vol. apply stable_bind.
  { apply written_keeps;
      [apply keeps_fs_prepare_data_files | by apply only_prepare_data_files]. }
  intros names. apply stable_bind; [apply written_prepare_model_folder |].
  intros u. apply stable_bind.
  { apply written_keeps;
      [apply keeps_fs_gpu_handling | by apply only_gpu_handling]. }
  intros gpu. apply stable_bind; [apply written_prepare_the_model |].
  intros model. apply stable_bind.
  { apply written_keeps;
      [apply keeps_fs_data_generator | by apply only_data_generator]. }
  intros g. apply stable_bind.
  { unfold fit, fit_generator.
    apply stable_with_device; [apply written_log |].
    apply written_fit_epochs. }
  intros _. apply written_keeps; [keeps_step | only_step].
Qed.

End Written.

(** X6. [train] writes nothing but its checkpoints.  Whatever the run,
    every path that existed before exists after it (nothing is deleted), and
    a path whose node has changed is the folder [model_dir] or the path of a
    call to [model.save] of the run; with no brace in [model_dir] such a path
    is a file of [model_dir] named by a zero-padded number and [.h5]. *)
Theorem train_writes_only_checkpoints
  fw data_dir atlas_file model_dir gpu_id lr nb_epochs prior_lambda image_sigma
  steps_per_epoch batch_size load_model_file initial_epoch w w' r :
  train fw data_dir atlas_file model_dir gpu_id lr nb_epochs prior_lambda
    image_sigma steps_per_epoch batch_size load_model_file initial_epoch w
  = (w', r) ->
  exists evs, trace w' = trace w ++ evs /\
    (forall k, fs w' !! k <> fs w !! k ->
       k = OsPath.norm model_dir \/
       exists p, EvSave p ∈ evs /\ k = OsPath.norm p) /\
    (forall k, is_Some (fs w !! k) -> is_Some (fs w' !! k)) /\
    (Py.contains "{" model_dir = false -> Py.contains "}" model_dir = false ->
     forall p, EvSave p ∈ evs ->
       exists epoch,
         p = OsPath.join model_dir (Py.format_02d epoch +:+ ".h5") /\
         OsPath.norm p = p).
Proof.
  intros Hrun.
  destruct (written_train fw model_dir (fs w) (trace w) _ _ _ _ _ _ _ _ _ _ _
              _ _ _ Hrun) as (evs & Ht & Hch & Hdom).
  { exists []. by rewrite app_nil_r. }
  exists evs. do 3 (split; [done |]).
  intros Ho Hc p Hp.
  destruct (train_events _ _ _ _ _ _ _ _ _ _ _ _ _ _ _ _ Hrun)
    as (evs' & Ht' & Hall).
  assert (evs = [EvNpLoad atlas_file] ++ evs') as ->.
  { rewrite <- app_assoc in Ht'. rewrite Ht in Ht'.
    by apply app_inv_head in Ht'. }
  apply elem_of_cons in Hp as [[=] | Hp].
  rewrite Forall_forall in Hall. destruct (Hall _ Hp) as [Hev _].
  assert (Hnorm : forall e,
            OsPath.norm (OsPath.join model_dir (Py.format_02d e +:+ ".h5"))
            = OsPath.join model_dir (Py.format_02d e +:+ ".h5")).
  { intros e. rewrite (join_relative model_dir (_ +:+ ".h5"))
      by apply format_02d_first. apply norm_h5. }
  destruct Hev as [-> | (e & Hrange & Hfmt)].
  - by exists initial_epoch.
  - rewrite format_plain_dir in Hfmt by done. injection Hfmt as <-.
    by exists (e + 1).
Qed.

Lemma train_writes_only_checkpoints_witness :
  exists evs, trace (fst Demo.run) = trace Demo.world ++ evs /\
    (forall k, fs (fst Demo.run) !! k <> fs Demo.world !! k ->
       k = OsPath.norm "models" \/
       exists p, EvSave p ∈ evs /\ k = OsPath.norm p) /\
    (forall k, is_Some (fs Demo.world !! k) ->
       is_Some (fs (fst Demo.run) !! k)) /\
    (Py.contains "{" "models" = false -> Py.contains "}" "models" = false ->
     forall p, EvSave p ∈ evs ->
       exists epoch,
         p = OsPath.join "models" (Py.format_02d epoch +:+ ".h5") /\
         OsPath.norm p = p).
Proof.
  apply (train_writes_only_checkpoints Demo.fw "data" "atlas.npz" "models" 0
           (PyFloat (1 # 10000)) 2 (PyInt 10) (PyFloat (2 # 100)) 5 1 None 0
           Demo.world (fst Demo.run) (inr tt)).
  vm_compute. reflexivity.
Defined.

(** ** The checkpoints a run leaves *)

Lemma epochs_written_changes template epoch n fs fs' k :
  epochs_written template epoch n fs fs' ->
  fs' !! k = fs !! k \/ exists wts, fs' !! k = Some (File (H5 wts)).
Proof.
  revert epoch fs. induction n as [| n IH]; intros epoch fs; cbn.
  - intros ->. by left.
  - intros (p & wts & _ & _ & _ & Hrest).
    destruct (IH _ _ Hrest) as [Heq | ?]; [| by right].
    rewrite Heq. destruct (decide (OsPath.norm p = k)) as [<- | Hne].
    + right. exists wts. apply lookup_insert_eq.
    + left. by apply lookup_insert_ne.
Qed.

Lemma epochs_written_files template epoch n fs fs' :
  epochs_written template epoch n fs fs' ->
  forall e, epoch < e <= epoch + Z.of_nat n ->
    exists p wts,
      Format.format template e = inr p /\
      fs' !! OsPath.norm p = Some (File (H5 wts)).
Proof.
  revert epoch fs.
  induction n as [| n IH]; intros epoch fs; cbn [epochs_written].
  - intros _ e He. lia.
  - intros (p & wts & Hf & _ & _ & Hrest) e He.
    destruct (decide (e = epoch + 1)) as [-> | Hne].
    + exists p.
      destruct (epochs_written_changes _ _ _ _ _ (OsPath.norm p) Hrest)
        as [Heq | [wts' Hw]]; [| by eauto].
      exists wts. split; [done |]. rewrite Heq. apply lookup_insert_eq.
    + apply (IH _ _ Hrest). lia.
Qed.

Lemma epochs_written_frame template epoch n fs fs' k :
  epochs_written template epoch n fs fs' ->
  (forall e p, epoch < e <= epoch + Z.of_nat n ->
     Format.format template e = inr p -> OsPath.norm p <> k) ->
  fs' !! k = fs !! k.
Proof.
  revert epoch fs.
  induction n as [| n IH]; intros epoch fs; cbn [epochs_written].
  - by intros ->.
  - intros (p & wts & Hf & _ & _ & Hrest) Hk.
    rewrite (IH _ _ Hrest).
    + apply lookup_insert_ne. apply (Hk (epoch + 1)); [lia | done].
    + intros e q He. apply Hk. lia.
Qed.

Section Weights.

Variable fw : Framework.

(** The model the fit starts from: the weights of the file given, or else
    those the network is built with. *)
Lemma prepare_the_model_weights gpu vol_size nf_enc nf_dec model_dir lr
  prior_lambda image_sigma load_model_file initial_epoch w w' model :
  prepare_the_model fw gpu vol_size nf_enc nf_dec model_dir lr prior_lambda
    image_sigma load_model_file initial_epoch w = (w', inr model) ->
  match load_model_file with
  | Some f => Fs.read (fs w) f = inr (H5 (weights model))
  | None => net_init fw vol_size nf_enc nf_dec = Some (weights model)
  end.
Proof.
  unfold prepare_the_model. intros Hrun.
  apply with_device_ok in Hrun as (w1 & Hrun & _).
  run_ok Hrun as w2 model0 H2.
  assert (Hfs2 : fs w2 = fs w) by by apply keeps_fs_miccai2018_net in H2.
  assert (H0 : net_init fw vol_size nf_enc nf_dec = Some (weights model0)).
  { revert H2. unfold miccai2018_net, bind, log.
    destruct (net_init _ _ _ _); [| done]. by intros [= _ <-]. }
  run_ok Hrun as w3 model1 H3.
  run_ok Hrun as w4 v H4. unfold compile in Hrun.
  run_ok Hrun as w5 v' H5. injection Hrun as _ <-. cbn [weights].
  destruct load_model_file as [f |].
  - revert H3. unfold load_weights, bind, log, get_fs, lift.
    cbn [fs set_trace]. rewrite Hfs2.
    destruct (Fs.read (fs w) f) as [e | [| | wts |]]; try done.
    by intros [= _ <-].
  - by injection H3 as _ <-.
Qed.

End Weights.

(** X7. With no brace in [model_dir], a run that returns leaves a model
    file [model_dir/NN.h5] for the initial epoch and for every epoch up to
    [nb_epochs].  The file of the initial epoch is not touched by the
    training: at the end it still holds the weights the run started from,
    those of [load_model_file] when one is given and those of the network as
    built otherwise. *)
Theorem every_epoch_has_its_checkpoint
  fw data_dir atlas_file model_dir gpu_id lr nb_epochs prior_lambda image_sigma
  steps_per_epoch batch_size load_model_file initial_epoch w w' sh data :
  Py.contains "{" model_dir = false -> Py.contains "}" model_dir = false ->
  read_atlas (fs w) atlas_file = inr (sh, data) ->
  train fw data_dir atlas_file model_dir gpu_id lr nb_epochs prior_lambda
    image_sigma steps_per_epoch batch_size load_model_file initial_epoch w
  = (w', inr tt) ->
  (forall e, e = initial_epoch \/ initial_epoch <= e <= nb_epochs ->
     exists wts,
       fs w' !! OsPath.join model_dir (Py.format_02d e +:+ ".h5")
       = Some (File (H5 wts))) /\
  exists wts0,
    fs w' !! OsPath.join model_dir (Py.format_02d initial_epoch +:+ ".h5")
    = Some (File (H5 wts0)) /\
    match load_model_file with
    | Some f =>
        Fs.read (if Fs.isdir (fs w) model_dir then fs w
                 else <[OsPath.norm model_dir := Dir]> (fs w)) f
        = inr (H5 wts0)
    | None =>
        net_init fw sh [16; 32; 32; 32]%nat [32; 32; 32; 32; 16; 3]%nat
        = Some wts0
    end.
Proof.
  intros Ho Hc Hatlas Hrun. unfold train in Hrun.
  rewrite (bind_unfold_ok _ _ _ _ _ (load_atlas_ok _ _ _ _ Hatlas)) in Hrun.
  cbn [shape] in Hrun. rewrite slice_of_newaxis in Hrun.
  match type of Hrun with bind _ _ ?x = _ => set (w1 := x) in * end.
  run_ok Hrun as w2 names H2. apply keeps_fs_prepare_data_files in H2.
  run_ok Hrun as w3 u H3. destruct u.
  apply prepare_model_folder_inv in H3 as (_ & H3 & _).
  run_ok Hrun as w4 gpu H4. apply keeps_fs_gpu_handling in H4.
  run_ok Hrun as w5 model Hpm.
  pose proof (prepare_the_model_weights _ _ _ _ _ _ _ _ _ _ _ _ _ _ Hpm) as Hw.
  apply prepare_the_model_fs in Hpm as [_ Hpm].
  run_ok Hrun as w6 g H6. apply keeps_fs_data_generator in H6.
  run_ok Hrun as w7 model' H7. injection Hrun as <-.
  unfold fit in H7. apply with_device_ok in H7 as (w8 & H7 & ->).
  unfold fit_generator in H7. apply fit_epochs_written in H7.
  cbn [fs set_trace] in H7 |- *. rewrite H6 in H7.
  assert (Hnorm : forall e,
            OsPath.norm (OsPath.join model_dir (Py.format_02d e +:+ ".h5"))
            = OsPath.join model_dir (Py.format_02d e +:+ ".h5")).
  { intros e. rewrite (join_relative model_dir (_ +:+ ".h5"))
      by apply format_02d_first. apply norm_h5. }
  rewrite Hnorm in Hpm.
  assert (Hfirst : fs w8 !! OsPath.join model_dir
                                (Py.format_02d initial_epoch +:+ ".h5")
                   = Some (File (H5 (weights model)))).
  { rewrite (epochs_written_frame _ _ _ _ _ _ H7).
    - rewrite Hpm. apply lookup_insert_eq.
    - intros e p He. rewrite format_plain_dir by done. intros [= <-].
      rewrite Hnorm. intros Heq%checkpoint_path_inj. lia. }
  split.
  - intros e [-> | He]; [by eauto |].
    destruct (decide (e = initial_epoch)) as [-> | Hne]; [by eauto |].
    destruct (epochs_written_files _ _ _ _ _ H7 e) as (p & wts & Hf & Hp);
      [lia |].
    rewrite format_plain_dir in Hf by done. injection Hf as <-.
    rewrite Hnorm in Hp. eauto.
  - exists (weights model). split; [done |].
    rewrite H4, H3, H2 in Hw. exact Hw.
Qed.

Lemma every_epoch_has_its_checkpoint_witness :
  (forall e, e = 0 \/ 0 <= e <= 2 ->
     exists wts,
       fs (fst Demo.run) !! OsPath.join "models" (Py.format_02d e +:+ ".h5")
       = Some (File (H5 wts))) /\
  exists wts0,
    fs (fst Demo.run) !! OsPath.join "models" (Py.format_02d 0 +:+ ".h5")
    = Some (File (H5 wts0)) /\
    net_init Demo.fw [2; 2; 2]%nat [16; 32; 32; 32]%nat
      [32; 32; 32; 32; 16; 3]%nat
    = Some wts0.
Proof.
  apply (every_epoch_has_its_checkpoint Demo.fw "data" "atlas.npz" "models" 0
           (PyFloat (1 # 10000)) 2 (PyInt 10) (PyFloat (2 # 100)) 5 1 None 0
           Demo.world (fst Demo.run) [2; 2; 2]%nat
           [1; 2; 3; 4; 5; 6; 7; 8]%Q).
  - reflexivity.
  - reflexivity.
  - reflexivity.
  - vm_compute. reflexivity.
Defined.

(** ** Runs that stop on the way *)

Section Setup.

Variable fw : Framework.

(** The first four blocks of [train]: a run either raises in one of them,
    or goes on with the model from a world where the model folder exists
    and only set-up calls have been made. *)
Lemma train_setup data_dir atlas_file model_dir gpu_id lr nb_epochs
  prior_lambda image_sigma steps_per_epoch batch_size load_model_file
  initial_epoch w w' r :
  train fw data_dir atlas_file model_dir gpu_id lr nb_epochs prior_lambda
    image_sigma steps_per_epoch batch_size load_model_file initial_epoch w
  = (w', r) ->
  (exists e evs, r = inl e /\ trace w' = trace w ++ evs /\
     Forall (fun ev => setup_event ev = true) evs) \/
  (exists w4 atlas_vol names evs,
     trace w4 = trace w ++ evs /\
     Forall (fun ev => setup_event ev = true) evs /\
     fs w4 = (if Fs.isdir (fs w) model_dir then fs w
              else <[OsPath.norm model_dir := Dir]> (fs w)) /\
     (model <- prepare_the_model fw ("/gpu:" +:+ Py.str gpu_id)
                 (Np.slice_1_m1 (shape atlas_vol)) [16; 32; 32; 32]%nat
                 [32; 32; 32; 32; 16; 3]%nat model_dir lr prior_lambda
                 image_sigma load_model_file initial_epoch ;;
      g <- data_generator names atlas_vol batch_size ;;
      fit fw ("/gpu:" +:+ Py.str gpu_id) model g model_dir initial_epoch
        nb_epochs steps_per_epoch ;;
      ret tt) w4 = (w', r)).
Proof.
  intros Hrun. unfold train in Hrun.
  set (psi := fun ev => setup_event ev = true).
  assert (Hacc : exists evs, trace w = trace w ++ evs /\ Forall psi evs).
  { exists []. by rewrite app_nil_r. }
  run_bind Hrun as w1 atlas_vol H1;
    (pose proof (keeps_fs_load_atlas _ _ _ _ H1) as Hfs1;
     eapply only_after in H1;
     [| apply (only_load_atlas psi); done | exact Hacc]);
    [left; destruct H1 as (evs & ? & ?); by eauto |].
  clear Hacc; rename H1 into Hacc.
  run_bind Hrun as w2 names H2;
    (pose proof (keeps_fs_prepare_data_files _ _ _ _ H2) as Hfs2;
     eapply only_after in H2;
     [| apply (only_prepare_data_files psi); done | exact Hacc]);
    [left; destruct H2 as (evs & ? & ?); by eauto |].
  clear Hacc; rename H2 into Hacc.
  run_bind Hrun as w3 u H3.
  { eapply only_after in H3;
      [| apply (only_prepare_model_folder psi); done | exact Hacc].
    left. destruct H3 as (evs & ? & ?). by eauto. }
  destruct u.
  pose proof (prepare_model_folder_inv _ _ _ H3) as (_ & Hfs3 & _).
  eapply only_after in H3;
    [| apply (only_prepare_model_folder psi); done | exact Hacc].
  clear Hacc; rename H3 into Hacc.
  run_bind Hrun as w4 gpu H4; [done |].
  pose proof (gpu_handling_value _ _ _ _ H4) as ->.
  pose proof (keeps_fs_gpu_handling _ _ _ _ H4) as Hfs4.
  eapply only_after in H4;
    [| apply (only_gpu_handling psi); done | exact Hacc].
  destruct H4 as (evs & Ht & Hall).
  right. exists w4, atlas_vol, names, evs.
  split; [done |]. split; [done |]. split; [| done].
  by rewrite Hfs4, Hfs3, Hfs2, Hfs1.
Qed.

End Setup.

Lemma read_missing_after_folder fs model_dir f :
  Fs.lookup fs f = None ->
  exists e,
    Fs.read (if Fs.isdir fs model_dir then fs
             else <[OsPath.norm model_dir := Dir]> fs) f = inl e.
Proof.
  intros Hl. unfold Fs.read.
  destruct (Fs.isdir fs model_dir); [rewrite Hl; by eauto |].
  revert Hl. unfold Fs.lookup.
  destruct (String.eqb f ""); [by eauto |]. intros Hl.
  destruct (decide (OsPath.norm f = OsPath.norm model_dir)) as [-> | Hne].
  - rewrite lookup_insert_eq. by eauto.
  - rewrite lookup_insert_ne, Hl by done. by eauto.
Qed.

Section Failures.

Variable fw : Framework.

Lemma prepare_the_model_no_weights gpu vol_size nf_enc nf_dec model_dir lr
  prior_lambda image_sigma f initial_epoch w w' r e :
  Fs.read (fs w) f = inl e ->
  prepare_the_model fw gpu vol_size nf_enc nf_dec model_dir lr prior_lambda
    image_sigma (Some f) initial_epoch w = (w', r) ->
  exists e' evs,
    r = inl e' /\ trace w' = trace w ++ evs /\
    Forall (fun ev => save_or_train ev = false) evs.
Proof.
  intros Hread. unfold prepare_the_model, with_device, miccai2018_net,
    load_weights, bind, log, get_fs, lift.
  cbn [fs set_trace].
  destruct (net_init fw vol_size nf_enc nf_dec) as [wts |]; cbn [ret raise].
  - cbn [fs set_trace trace]. rewrite Hread. cbn [raise].
    intros [= <- <-].
    exists e, [EvDeviceEnter gpu; EvBuildNet vol_size nf_enc nf_dec;
               EvLoadWeights f; EvDeviceExit gpu].
    split; [done |]. cbn. split; [by rewrite <- !app_assoc |].
    by repeat constructor.
  - intros [= <- <-].
    exists (FrameworkError "miccai2018_net"),
      [EvDeviceEnter gpu; EvBuildNet vol_size nf_enc nf_dec;
       EvDeviceExit gpu].
    split; [done |]. cbn. split; [by rewrite <- !app_assoc |].
    by repeat constructor.
Qed.

End Failures.

(** A run asked for initial weights that are not there raises before it
    saves or trains. *)
Lemma train_without_weights
  fw data_dir atlas_file model_dir gpu_id lr nb_epochs prior_lambda image_sigma
  steps_per_epoch batch_size f initial_epoch w w' r :
  Fs.lookup (fs w) f = None ->
  train fw data_dir atlas_file model_dir gpu_id lr nb_epochs prior_lambda
    image_sigma steps_per_epoch batch_size (Some f) initial_epoch w
  = (w', r) ->
  exists e evs,
    r = inl e /\ trace w' = trace w ++ evs /\
    Forall (fun ev => save_or_train ev = false) evs.
Proof.
  intros Hl Hrun.
  destruct (train_setup _ _ _ _ _ _ _ _ _ _ _ _ _ _ _ _ Hrun)
    as [(e & evs & -> & Ht & Hall)
       | (w4 & atlas_vol & names & evs & Ht & Hall & Hfs & Hrest)].
  - exists e, evs. split; [done |]. split; [done |].
    eapply Forall_impl; [exact Hall |]. intros ev. by destruct ev.
  - destruct (read_missing_after_folder _ model_dir _ Hl) as (e & Hread).
    rewrite <- Hfs in Hread.
    run_bind Hrest as w5 model Hpm;
      destruct (prepare_the_model_no_weights _ _ _ _ _ _ _ _ _ _ _ _ _ _ _
                  Hread Hpm) as (e' & evs' & Hr & Ht' & Hall');
      [| done].
    injection Hr as <-.
    exists x, (evs ++ evs'). split; [done |].
    split; [by rewrite Ht', Ht, app_assoc |].
    apply Forall_app. split; [| done].
    eapply Forall_impl; [exact Hall |]. intros ev. by destruct ev.
Qed.


(** X8. Initial weights that are not there stop the run before anything is
    saved or trained.  When [load_model_file] names a path that does not
    exist, no run of [train] returns, and none calls [model.save], draws a
    batch or calls [train_on_batch]. *)
Theorem missing_weights_stop_the_run
  fw data_dir atlas_file model_dir gpu_id lr nb_epochs prior_lambda image_sigma
  steps_per_epoch batch_size f initial_epoch w w' r :
  Fs.lookup (fs w) f = None ->
  train fw data_dir atlas_file model_dir gpu_id lr nb_epochs prior_lambda
    image_sigma steps_per_epoch batch_size (Some f) initial_epoch w
  = (w', r) ->
  exists e evs,
    r = inl e /\ trace w' = trace w ++ evs /\
    Forall (fun ev => save_or_train ev = false) evs.
Proof. apply train_without_weights. Qed.

Lemma missing_weights_stop_the_run_witness :
  exists e evs,
    snd Sample.no_weights_run = inl e /\
    trace (fst Sample.no_weights_run) = trace Demo.world ++ evs /\
    Forall (fun ev => save_or_train ev = false) evs.
Proof.
  apply (missing_weights_stop_the_run Demo.fw "data" "atlas.npz" "models" 0
           (PyFloat (1 # 10000)) 2 (PyInt 10) (PyFloat (2 # 100)) 5 1
           "init.h5" 0 Demo.world).
  - reflexivity.
  - vm_compute. reflexivity.
Defined.

(** X9. A batch size below zero is found late: no run with
    [batch_size < 0] returns or trains, but the error comes from
    [np.repeat] (line 100), a [ValueError], after the model was built and
    the checkpoint of the initial epoch written. *)
Theorem negative_batch_size_is_found_late
  fw data_dir atlas_file model_dir gpu_id lr nb_epochs prior_lambda image_sigma
  steps_per_epoch batch_size load_model_file initial_epoch w w' r :
  batch_size < 0 ->
  train fw data_dir atlas_file model_dir gpu_id lr nb_epochs prior_lambda
    image_sigma steps_per_epoch batch_size load_model_file initial_epoch w
  = (w', r) ->
  exists e evs,
    r = inl e /\ trace w' = trace w ++ evs /\
    Forall (fun ev => training_event ev = false) evs /\
    (forall a n, EvNpRepeat a n ∈ evs ->
       (exists msg, e = ValueError msg) /\
       EvSave (OsPath.join model_dir (Py.format_02d initial_epoch +:+ ".h5"))
       ∈ evs).
Proof.
  intros Hneg Hrun.
  set (phi := fun ev => training_event ev = false /\
                        forall a n, ev <> EvNpRepeat a n).
  destruct (train_setup _ _ _ _ _ _ _ _ _ _ _ _ _ _ _ _ Hrun)
    as [(e & evs & -> & Ht & Hall)
       | (w4 & atlas_vol & names & evs & Ht & Hall & Hfs & Hrest)].
  - exists e, evs. split; [done |]. split; [done |]. split.
    + eapply Forall_impl; [exact Hall |]. intros ev. by destruct ev.
    + intros a n Hin. rewrite Forall_forall in Hall. by apply Hall in Hin.
  - assert (Hphi : Forall phi evs).
    { eapply Forall_impl; [exact Hall |]. intros ev. by destruct ev. }
    clear Hall.
    run_bind Hrest as w5 model Hpm.
    + destruct (only_prepare_the_model fw phi _ _ _ _ _ _ _ _ _ _
                  ltac:(done) ltac:(done) ltac:(done) ltac:(done) ltac:(done)
                  ltac:(done) _ _ _ Hpm) as (evs' & Ht' & Hall').
      exists x, (evs ++ evs'). split; [done |].
      split; [by rewrite Ht', Ht, app_assoc |].
      assert (Hboth : Forall phi (evs ++ evs')) by by apply Forall_app.
      split.
      * eapply Forall_impl; [exact Hboth |]. by intros ev [? _].
      * intros a n Hin. rewrite Forall_forall in Hboth.
        destruct (Hboth _ Hin) as [_ Hne]. by destruct (Hne a n).
    + destruct (follows_save_of_prepare_the_model fw _ _ _ _ _ _ _ _ _ _ _ _ _
                  Hpm) as (evs1 & Ht1 & Hs1).
      destruct (only_prepare_the_model fw
                  (fun ev => training_event ev = false) _ _ _ _ _ _ _ _ _ _
                  ltac:(done) ltac:(done) ltac:(done) ltac:(done) ltac:(done)
                  ltac:(done) _ _ _ Hpm) as (evs' & Ht' & Hall').
      assert (evs' = evs1) as ->.
      { rewrite Ht1 in Ht'. by apply app_inv_head in Ht'. }
      assert (Hsave : EvSave (OsPath.join model_dir
                                (Py.format_02d initial_epoch +:+ ".h5"))
                      ∈ evs1).
      { assert (Hin : OsPath.join model_dir
                        (Py.format_02d initial_epoch +:+ ".h5")
                      ∈ omap save_of evs1)
          by (rewrite Hs1; apply list_elem_of_here).
        apply list_elem_of_omap in Hin as (ev & Hev & Hp).
        destruct ev; simplify_eq/=. done. }
      revert Hrest. unfold data_generator, Np.repeat, bind, log.
      apply Z.ltb_lt in Hneg. rewrite Hneg. cbn [raise].
      intros [= <- <-].
      eexists _, (evs ++ evs1 ++ [EvNpRepeat atlas_vol batch_size]).
      split; [done |]. cbn.
      split; [by rewrite Ht1, Ht, <- !app_assoc |]. split.
      * apply Forall_app. split.
        { eapply Forall_impl; [exact Hphi |]. by intros ev [? _]. }
        apply Forall_app. split; [done | by repeat constructor].
      * intros a n _. split; [by eauto |].
        apply elem_of_app. right. apply elem_of_app. by left.
Qed.

Lemma negative_batch_size_is_found_late_witness :
  exists e evs,
    snd Sample.negative_batch_run = inl e /\
    trace (fst Sample.negative_batch_run) = trace Demo.world ++ evs /\
    Forall (fun ev => training_event ev = false) evs /\
    (forall a n, EvNpRepeat a n ∈ evs ->
       (exists msg, e = ValueError msg) /\
       EvSave (OsPath.join "models" (Py.format_02d 0 +:+ ".h5")) ∈ evs).
Proof.
  apply (negative_batch_size_is_found_late Demo.fw "data" "atlas.npz"
           "models" 0 (PyFloat (1 # 10000)) 2 (PyInt 10) (PyFloat (2 # 100))
           5 (-1) None 0 Demo.world).
  - reflexivity.
  - vm_compute. reflexivity.
Defined.

(** ** Device scopes *)

Lemma only_extends_with {A} (phi : Event -> Prop) (m : M A) w w' r :
  only phi m -> m w = (w', r) ->
  exists evs, trace w' = trace w ++ evs /\ Forall phi evs.
Proof. intros H Hrun. exact (H _ _ _ Hrun). Qed.


Lemma scoped_outside d evs rest :
  Forall (fun ev => setup_event ev = true \/ exists a n, ev = EvNpRepeat a n)
    evs ->
  scoped d false (evs ++ rest) = scoped d false rest.
Proof.
  induction 1 as [| ev evs Hev _ IH]; [done |].
  destruct Hev as [Hev | (a & n & ->)]; [| exact IH].
  destruct ev; try done; exact IH.
Qed.

Lemma scoped_inside d evs rest :
  Forall (fun ev => model_event ev = true) evs ->
  scoped d true (evs ++ EvDeviceExit d :: rest) = scoped d false rest.
Proof.
  induction 1 as [| ev evs Hev _ IH].
  - cbn. by rewrite String.eqb_refl.
  - destruct ev; try done; exact IH.
Qed.

Lemma scoped_scope d evs rest :
  Forall (fun ev => model_event ev = true) evs ->
  scoped d false ((EvDeviceEnter d :: evs ++ [EvDeviceExit d]) ++ rest)
  = scoped d false rest.
Proof.
  intros H. cbn. rewrite String.eqb_refl, <- app_assoc. cbn.
  by apply scoped_inside.
Qed.

Lemma with_device_inv {A} d (body : M A) w w' r :
  with_device d body w = (w', r) ->
  exists w1,
    body (set_trace (trace w ++ [EvDeviceEnter d]) w) = (w1, r) /\
    trace w' = trace w1 ++ [EvDeviceExit d].
Proof.
  unfold with_device, bind, log.
  destruct (body _) as [w1 r1] eqn:Hb. intros [= <- <-]. by exists w1.
Qed.

Section Scopes.

Variable fw : Framework.

Lemma prepare_the_model_scope gpu vol_size nf_enc nf_dec model_dir lr
  prior_lambda image_sigma load_model_file initial_epoch w w' r :
  prepare_the_model fw gpu vol_size nf_enc nf_dec model_dir lr prior_lambda
    image_sigma load_model_file initial_epoch w = (w', r) ->
  exists evs,
    trace w' = trace w ++ EvDeviceEnter gpu :: evs ++ [EvDeviceExit gpu] /\
    Forall (fun ev => model_event ev = true) evs.
Proof.
  unfold prepare_the_model. intros (w1 & Hbody & Ht)%with_device_inv.
  eapply only_extends_with in Hbody as (evs & Ht1 & Hall).
  - exists evs. split; [| done]. rewrite Ht, Ht1. cbn.
    by rewrite <- !app_assoc.
  - only_bind model0.
    { unfold miccai2018_net. only_bind x; [by only_step |].
      destruct (net_init _ _ _ _); only_step. }
    only_bind model1.
    { destruct load_model_file as [file |]; [| only_step].
      by apply only_load_weights. }
    only_bind x; [by apply only_save |].
    unfold compile. only_bind y; [by only_step | only_step].
Qed.

Lemma fit_scope gpu model g model_dir initial_epoch nb_epochs steps w w' r :
  fit fw gpu model g model_dir initial_epoch nb_epochs steps w = (w', r) ->
  exists evs,
    trace w' = trace w ++ EvDeviceEnter gpu :: evs ++ [EvDeviceExit gpu] /\
    Forall (fun ev => model_event ev = true) evs.
Proof.
  unfold fit, fit_generator. intros (w1 & Hbody & Ht)%with_device_inv.
  eapply only_extends_with in Hbody as (evs & Ht1 & Hall).
  - exists evs. split; [| done]. rewrite Ht, Ht1. cbn.
    by rewrite <- !app_assoc.
  - by apply only_fit_epochs.
Qed.

End Scopes.

(** X10. Everything done with the model is done on the device asked for.
    In every run, returning or raising, the calls enter and leave scopes of
    [tf.device('/gpu:' + str(gpu_id))] in turn: no scope is entered inside
    another, none is left open at the end, also when the block raises; every
    call that builds, loads, saves, compiles or fits the model is made
    inside a scope, and every other call ([np.load], [glob], [os.mkdir],
    [np.repeat], the GPU set-up) outside. *)
Theorem model_calls_are_on_the_device
  fw data_dir atlas_file model_dir gpu_id lr nb_epochs prior_lambda image_sigma
  steps_per_epoch batch_size load_model_file initial_epoch w w' r :
  train fw data_dir atlas_file model_dir gpu_id lr nb_epochs prior_lambda
    image_sigma steps_per_epoch batch_size load_model_file initial_epoch w
  = (w', r) ->
  exists evs, trace w' = trace w ++ evs /\
    scoped ("/gpu:" +:+ Py.str gpu_id) false evs = true.
Proof.
  intros Hrun.
  assert (Hout : forall evs : list Event,
            Forall (fun ev => setup_event ev = true) evs ->
            Forall (fun ev => setup_event ev = true \/
                              exists a n, ev = EvNpRepeat a n) evs).
  { intros evs H. eapply Forall_impl; [exact H |]. intros ev ?. by left. }
  destruct (train_setup _ _ _ _ _ _ _ _ _ _ _ _ _ _ _ _ Hrun)
    as [(e & evs & -> & Ht & Hall)
       | (w4 & atlas_vol & names & evs & Ht & Hall & _ & Hrest)].
  { exists evs. split; [done |].
    rewrite <- (app_nil_r evs). by rewrite scoped_outside by auto. }
  apply Hout in Hall. clear Hout.
  run_bind Hrest as w5 model Hpm;
    apply prepare_the_model_scope in Hpm as (evs1 & Ht1 & Hall1).
  { eexists. split; [by rewrite Ht1, Ht, <- app_assoc |].
    rewrite scoped_outside by done.
    rewrite <- (app_nil_r (_ :: _ ++ [_])). by rewrite scoped_scope. }
  assert (Hdg : only (fun ev => setup_event ev = true \/
                                exists a n, ev = EvNpRepeat a n)
                  (data_generator names atlas_vol batch_size)).
  { apply only_data_generator. right. by eauto. }
  run_bind Hrest as w6 g Hg.
  { destruct (Hdg _ _ _ Hg) as (evs2 & Ht2 & Hall2).
    eexists. split; [by rewrite Ht2, Ht1, Ht, <- !app_assoc |].
    rewrite scoped_outside by done.
    change (EvDeviceEnter ?d :: evs1 ++ [EvDeviceExit ?d] ++ evs2)
      with ((EvDeviceEnter d :: evs1 ++ [EvDeviceExit d]) ++ evs2).
    rewrite scoped_scope by done.
    rewrite <- (app_nil_r evs2). by rewrite scoped_outside. }
  destruct (Hdg _ _ _ Hg) as (evs2 & Ht2 & Hall2).
  assert (Hfit : exists evs3,
            trace w' = trace w6 ++ EvDeviceEnter ("/gpu:" +:+ Py.str gpu_id)
                         :: evs3 ++ [EvDeviceExit ("/gpu:" +:+ Py.str gpu_id)]
            /\ Forall (fun ev => model_event ev = true) evs3).
  { run_bind Hrest as w7 model' Hf; apply fit_scope in Hf; [done |].
    by injection Hrest as <- _. }
  destruct Hfit as (evs3 & Ht3 & Hall3).
  eexists. split; [by rewrite Ht3, Ht2, Ht1, Ht, <- !app_assoc |].
  rewrite scoped_outside by done.
  change (EvDeviceEnter ?d :: evs1 ++ [EvDeviceExit ?d] ++ ?rest)
    with ((EvDeviceEnter d :: evs1 ++ [EvDeviceExit d]) ++ rest).
  rewrite scoped_scope by done. rewrite scoped_outside by done.
  rewrite <- (app_nil_r (_ :: _ ++ [_])). by rewrite scoped_scope.
Qed.

Lemma model_calls_are_on_the_device_witness :
  exists evs, trace (fst Sample.no_weights_run) = trace Demo.world ++ evs /\
    scoped ("/gpu:" +:+ Py.str 0) false evs = true.
Proof.
  apply (model_calls_are_on_the_device Demo.fw "data" "atlas.npz" "models" 0
           (PyFloat (1 # 10000)) 2 (PyInt 10) (PyFloat (2 # 100)) 5 1
           (Some "init.h5") 0 Demo.world (fst Sample.no_weights_run)
           (snd Sample.no_weights_run)).
  vm_compute. reflexivity.
Defined.

(** ** The command line and [train] *)

Section Typed.

Import Argparse.

Variable p : list Argument.

Lemma resolve_optional name a : resolve p name = Opt a -> a ∈ optionals p.
Proof.
  unfold resolve. destruct (String.eqb name "--help"); [done |].
  destruct (List.filter (fun a => String.eqb (flag a) name) (optionals p))
    as [| a' l] eqn:Hexact.
  - destruct (List.filter (fun a => Py.startswith (flag a) name) (optionals p))
      as [| a' [| a'' l]] eqn:Hprefix.
    + by destruct (Py.startswith "--help" name).
    + destruct (Py.startswith "--help" name); [done |]. intros [= <-].
      assert (Hin : In a' (List.filter (fun a => Py.startswith (flag a) name)
                             (optionals p))) by (rewrite Hprefix; by left).
      apply filter_In in Hin as [Hin _]. by apply list_elem_of_In.
    + by destruct (Py.startswith "--help" name).
  - intros [= <-].
    assert (Hin : In a' (List.filter (fun a => String.eqb (flag a) name)
                           (optionals p))) by (rewrite Hexact; by left).
    apply filter_In in Hin as [Hin _]. by apply list_elem_of_In.
Qed.

(** What every step keeps, given a property [I] of the namespace that
    storing the argument of an option keeps. *)
Variable I : gmap string pyval -> Prop.

Hypothesis store_keeps :
  forall a text v n,
    a ∈ optionals p -> convert (type a) text = Some v -> I n ->
    I (<[dest a := v]> n).

Lemma step_keeps st tok st' :
  I (ns st) /\ (forall a, pending st = Some a -> a ∈ optionals p) ->
  step p st tok = inr st' ->
  I (ns st') /\ (forall a, pending st' = Some a -> a ∈ optionals p).
Proof.
  intros [Hst Hpend]. unfold step, store.
  destruct (pending st) as [a |] eqn:Hp.
  { destruct (looks_like_option tok); [done |].
    destruct (convert (type a) tok) as [v |] eqn:Hconv; [| done].
    intros [= <-]. cbn. split; [| done]. apply (store_keeps a tok); auto. }
  destruct (only_args st || negb (looks_like_option tok)).
  { by intros [= <-]. }
  destruct (String.eqb tok "--"); [by intros [= <-] |].
  destruct (String.eqb tok "-h"); [done |].
  destruct (Py.startswith tok "--"); [| by intros [= <-]].
  destruct (Py.partition "=" tok) as [name explicit].
  destruct (resolve p name) as [a | | |] eqn:Hres; try done.
  - apply resolve_optional in Hres. destruct explicit as [text |].
    + destruct (convert (type a) text) as [v |] eqn:Hconv; [| done].
      intros [= <-]. cbn. split; [| done]. by apply (store_keeps a text).
    + intros [= <-]. split; [done |]. cbn. by intros ? [= <-].
  - by intros [= <-].
Qed.

Lemma steps_keeps argv st st' :
  I (ns st) /\ (forall a, pending st = Some a -> a ∈ optionals p) ->
  steps p st argv = inr st' -> I (ns st').
Proof.
  revert st. induction argv as [| tok argv IH]; intros st Hst; cbn [steps].
  - intros [= <-]. by destruct Hst.
  - destruct (step p st tok) as [e | st1] eqn:Hstep; [done |].
    apply IH. by eapply step_keeps.
Qed.

End Typed.

Section TypedEntry.

Import Argparse.

Variable p : list Argument.
Variable d : string.
Variable T : pyval -> Prop.

Hypothesis typed :
  Forall (fun a => dest a = d ->
            forall text v, convert (type a) text = Some v -> T v) p.

(** An entry that starts with a value of the kind [T], and to which only
    options whose type gives such values store, ends with one. *)
Lemma parse_args_typed argv kw v0 :
  defaults p !! d = Some v0 -> T v0 ->
  Forall (fun a => dest a <> d) (positionals p) ->
  parse_args p argv = inr kw ->
  exists v, kw !! d = Some v /\ T v.
Proof.
  intros Hdef HT Hpos. unfold parse_args.
  destruct (steps _ _ _) as [e | st] eqn:Hsteps; [done |].
  apply (steps_keeps p (fun n => exists v, n !! d = Some v /\ T v))
    in Hsteps as (v & Hv & HTv).
  - destruct (pending st); [done |]. destruct (extras st); [| done].
    intros H. rewrite (bind_positionals_other _ _ _ _ _ Hpos H). eauto.
  - intros a text v n Ha Hconv (v' & Hv' & HT').
    destruct (decide (dest a = d)) as [Hd | Hd].
    + exists v. rewrite <- Hd, lookup_insert_eq. split; [done |].
      rewrite Forall_forall in typed.
      apply list_elem_of_In, filter_In in Ha as [Ha%list_elem_of_In _].
      by eapply typed.
    + exists v'. by rewrite lookup_insert_ne.
  - split; [| done]. cbn. eauto.
Qed.

End TypedEntry.

(** The namespace has the keys of the defaults all along. *)
Lemma parse_args_dom argv kw :
  Argparse.parse_args Argparse.parser argv = inr kw ->
  dom kw = train_keywords.
Proof.
  unfold Argparse.parse_args.
  destruct (Argparse.steps _ _ _) as [e | st] eqn:Hsteps; [done |].
  apply (steps_keeps Argparse.parser
           (fun n => dom n = dom (Argparse.defaults Argparse.parser)))
    in Hsteps.
  - destruct (Argparse.pending st); [done |].
    destruct (Argparse.extras st); [| done].
    change (Argparse.positionals Argparse.parser)
      with [{| Argparse.flag := "data_dir"; Argparse.type := Argparse.TStr;
               Argparse.dest := "data_dir"; Argparse.default := None;
               Argparse.help := "data folder" |}].
    cbn [Argparse.bind_positionals].
    destruct (Argparse.args st) as [| s [| s' l]]; try done.
    cbn [Argparse.convert Argparse.type Argparse.dest]. intros [= <-].
    rewrite dom_insert_L, Hsteps.
    cbn [Argparse.defaults Argparse.parser Argparse.default Argparse.dest].
    rewrite !dom_insert_L, dom_empty_L. reflexivity.
  - intros a text v n Ha _ Hn. rewrite <- Hn. apply dom_insert_lookup_L.
    apply elem_of_dom. rewrite Hn. revert a Ha. apply Forall_forall.
    repeat constructor; apply elem_of_dom; by eexists.
  - done.
Qed.

Lemma parse_args_data_dir argv kw :
  Argparse.parse_args Argparse.parser argv = inr kw ->
  exists s, s ∈ argv /\ kw !! "data_dir" = Some (PyStr s).
Proof.
  unfold Argparse.parse_args.
  destruct (Argparse.steps _ _ _) as [e | st] eqn:Hsteps; [done |].
  destruct (Argparse.pending st); [done |].
  destruct (Argparse.extras st); [| done].
  change (Argparse.positionals Argparse.parser)
    with [{| Argparse.flag := "data_dir"; Argparse.type := Argparse.TStr;
             Argparse.dest := "data_dir"; Argparse.default := None;
             Argparse.help := "data folder" |}].
  cbn [Argparse.bind_positionals].
  destruct (Argparse.args st) as [| s [| s' l]] eqn:Hargs; try done.
  cbn. intros [= <-]. exists s. split; [| apply lookup_insert_eq].
  destruct (steps_args _ _ _ _ Hsteps s) as [H | H];
    [| by apply elem_of_nil in H | done].
  rewrite Hargs. by left.
Qed.

(** The kind of value each option of the script leaves in the namespace. *)
Ltac typed_entry :=
  repeat (apply Forall_cons_2;
          [cbn [Argparse.dest Argparse.type]; intros Hd text v;
           try discriminate Hd; cbn [Argparse.convert];
           (intros [= <-] || (destruct (_ text); intros [= <-]));
           cbn beta; unfold py_str, py_int, py_float; eauto |]);
  apply Forall_nil_2.

Lemma parse_args_kinds argv kw :
  Argparse.parse_args Argparse.parser argv = inr kw ->
  (exists v, kw !! "atlas_file" = Some v /\ py_str v) /\
  (exists v, kw !! "model_dir" = Some v /\ py_str v) /\
  (exists v, kw !! "gpu_id" = Some v /\ py_int v) /\
  (exists v, kw !! "lr" = Some v /\ py_float v) /\
  (exists v, kw !! "nb_epochs" = Some v /\ py_int v) /\
  (exists v, kw !! "prior_lambda" = Some v /\
             (py_float v \/ v = PyInt 10)) /\
  (exists v, kw !! "image_sigma" = Some v /\ py_float v) /\
  (exists v, kw !! "steps_per_epoch" = Some v /\ py_int v) /\
  (exists v, kw !! "batch_size" = Some v /\ py_int v) /\
  (exists v, kw !! "load_model_file" = Some v /\ py_str v).
Proof.
  intros Hparse.
  assert (Hpos : forall d, d <> "data_dir" ->
            Forall (fun a => Argparse.dest a <> d)
              (Argparse.positionals Argparse.parser)).
  { intros d Hd. repeat constructor. cbn. congruence. }
  repeat split.
  - eapply (parse_args_typed Argparse.parser "atlas_file" py_str);
      [typed_entry | reflexivity | by eexists | by apply Hpos | done].
  - eapply (parse_args_typed Argparse.parser "model_dir" py_str);
      [typed_entry | reflexivity | by eexists | by apply Hpos | done].
  - eapply (parse_args_typed Argparse.parser "gpu_id" py_int);
      [typed_entry | reflexivity | by eexists | by apply Hpos | done].
  - eapply (parse_args_typed Argparse.parser "lr" py_float);
      [typed_entry | reflexivity | by eexists | by apply Hpos | done].
  - eapply (parse_args_typed Argparse.parser "nb_epochs" py_int);
      [typed_entry | reflexivity | by eexists | by apply Hpos | done].
  - eapply (parse_args_typed Argparse.parser "prior_lambda"
              (fun v => py_float v \/ v = PyInt 10));
      [typed_entry | reflexivity | by right | by apply Hpos | done].
  - eapply (parse_args_typed Argparse.parser "image_sigma" py_float);
      [typed_entry | reflexivity | by eexists | by apply Hpos | done].
  - eapply (parse_args_typed Argparse.parser "steps_per_epoch" py_int);
      [typed_entry | reflexivity | by eexists | by apply Hpos | done].
  - eapply (parse_args_typed Argparse.parser "batch_size" py_int);
      [typed_entry | reflexivity | by eexists | by apply Hpos | done].
  - eapply (parse_args_typed Argparse.parser "load_model_file" py_str);
      [typed_entry | reflexivity | by eexists | by apply Hpos | done].
Qed.

(** X11. A command line the parser accepts always fits [train].  The
    namespace has exactly the parameters of [train] other than
    [initial_epoch] as its keys, each with a value of the kind [train]
    expects: strings for [data_dir], [atlas_file], [model_dir] and
    [load_model_file] (never [None]), integers for [gpu_id], [nb_epochs],
    [steps_per_epoch] and [batch_size], floats for [lr] and [image_sigma],
    and for [prior_lambda] a float or the integer default [10]; [data_dir]
    is a word of the command line.  The script then runs [train] on these
    values, from epoch [0]. *)
Theorem parsed_arguments_fit_train fw argv kw :
  Argparse.parse_args Argparse.parser argv = inr kw ->
  dom kw = train_keywords /\
  exists data_dir atlas_file model_dir gpu_id lr nb_epochs prior_lambda
         image_sigma steps_per_epoch batch_size file,
    kw !! "data_dir" = Some (PyStr data_dir) /\ data_dir ∈ argv /\
    kw !! "atlas_file" = Some (PyStr atlas_file) /\
    kw !! "model_dir" = Some (PyStr model_dir) /\
    kw !! "gpu_id" = Some (PyInt gpu_id) /\
    kw !! "lr" = Some lr /\ py_float lr /\
    kw !! "nb_epochs" = Some (PyInt nb_epochs) /\
    kw !! "prior_lambda" = Some prior_lambda /\
    (py_float prior_lambda \/ prior_lambda = PyInt 10) /\
    kw !! "image_sigma" = Some image_sigma /\ py_float image_sigma /\
    kw !! "steps_per_epoch" = Some (PyInt steps_per_epoch) /\
    kw !! "batch_size" = Some (PyInt batch_size) /\
    kw !! "load_model_file" = Some (PyStr file) /\
    forall w,
      main fw argv w
      = train fw data_dir atlas_file model_dir gpu_id lr nb_epochs
          prior_lambda image_sigma steps_per_epoch batch_size (Some file) 0 w.
Proof.
  intros Hparse. split; [by eapply parse_args_dom |].
  destruct (parse_args_data_dir _ _ Hparse) as (data_dir & Hin & Hdd).
  destruct (parse_args_kinds _ _ Hparse)
    as ((? & Haf & atlas_file & ->) & (? & Hmd & model_dir & ->) &
        (? & Hgpu & gpu_id & ->) & (lr & Hlr & Hlrf) &
        (? & Hep & nb_epochs & ->) & (prior_lambda & Hpl & Hplf) &
        (image_sigma & His & Hisf) & (? & Hsp & steps_per_epoch & ->) &
        (? & Hbs & batch_size & ->) & (? & Hlm & file & ->)).
  exists data_dir, atlas_file, model_dir, gpu_id, lr, nb_epochs, prior_lambda,
    image_sigma, steps_per_epoch, batch_size, file.
  repeat (split; [done |]).
  intros w. unfold main, bind. rewrite Hparse. cbn [lift ret].
  unfold call_train.
  by rewrite Hdd, Haf, Hmd, Hgpu, Hlr, Hep, Hpl, His, Hsp, Hbs, Hlm.
Qed.

Lemma parsed_arguments_fit_train_witness :
  dom Demo.namespace = train_keywords /\
  exists data_dir atlas_file model_dir gpu_id lr nb_epochs prior_lambda
         image_sigma steps_per_epoch batch_size file,
    Demo.namespace !! "data_dir" = Some (PyStr data_dir) /\
    data_dir ∈ ["data"] /\
    Demo.namespace !! "atlas_file" = Some (PyStr atlas_file) /\
    Demo.namespace !! "model_dir" = Some (PyStr model_dir) /\
    Demo.namespace !! "gpu_id" = Some (PyInt gpu_id) /\
    Demo.namespace !! "lr" = Some lr /\ py_float lr /\
    Demo.namespace !! "nb_epochs" = Some (PyInt nb_epochs) /\
    Demo.namespace !! "prior_lambda" = Some prior_lambda /\
    (py_float prior_lambda \/ prior_lambda = PyInt 10) /\
    Demo.namespace !! "image_sigma" = Some image_sigma /\
    py_float image_sigma /\
    Demo.namespace !! "steps_per_epoch" = Some (PyInt steps_per_epoch) /\
    Demo.namespace !! "batch_size" = Some (PyInt batch_size) /\
    Demo.namespace !! "load_model_file" = Some (PyStr file) /\
    forall w,
      main Demo.fw ["data"] w
      = train Demo.fw data_dir atlas_file model_dir gpu_id lr nb_epochs
          prior_lambda image_sigma steps_per_epoch batch_size (Some file) 0 w.
Proof.
  apply (parsed_arguments_fit_train Demo.fw ["data"] Demo.namespace).
  reflexivity.
Defined.

(** ** Command lines the parser refuses *)

Section Refused.

Import Argparse.

Variable p : list Argument.





End Refused.



(** ** Options on the command line *)

Lemma startswith_dashes name :
  Py.startswith name "--" = true ->
  exists rest, name = String "-" (String "-" rest).
Proof.
  unfold Py.startswith.
  destruct name as [| c1 [| c2 rest]]; cbn [String.prefix]; try done.
  - by destruct (ascii_dec "-" c1).
  - destruct (ascii_dec "-" c1) as [<- |]; [| done].
    destruct (ascii_dec "-" c2) as [<- |]; [| done]. by eauto.
Qed.

Lemma looks_like_option_dashes rest :
  Argparse.looks_like_option (String "-" (String "-" rest)) = true.
Proof.
  unfold Argparse.looks_like_option, Argparse.negative_number_like.
  cbn [Py.startswith String.prefix Py.partition].
  change (Ascii.eqb "-" ".") with false. cbn match.
  destruct (Py.partition "." rest) as [h t]. by destruct t.
Qed.

Lemma partition_absent c s :
  Py.contains c s = false -> Py.partition c s = (s, None).
Proof.
  induction s as [| a s IH]; [done |]. cbn.
  intros [Ha Hs]%orb_false_elim. rewrite Ascii.eqb_sym, Ha.
  by rewrite (IH Hs).
Qed.

Lemma partition_first c s t :
  Py.contains c s = false ->
  Py.partition c (s +:+ String c t) = (s, Some t).
Proof.
  induction s as [| a s IH]; intros Hs.
  - rewrite append_empty. cbn. by rewrite Ascii.eqb_refl.
  - rewrite append_cons. cbn in Hs |- *.
    apply orb_false_elim in Hs as [Ha Hs]. rewrite Ascii.eqb_sym, Ha.
    by rewrite (IH Hs).
Qed.

Section Options.

Import Argparse.

Variable p : list Argument.

Lemma steps_app st l1 l2 :
  steps p st (l1 ++ l2) =
  match steps p st l1 with
  | inl e => inl e
  | inr st' => steps p st' l2
  end.
Proof.
  revert st. induction l1 as [| tok l1 IH]; intros st; [done |].
  cbn [steps app]. destruct (step p st tok); [done | apply IH].
Qed.

Lemma step_only_args st tok st' :
  step p st tok = inr st' -> only_args st = false -> tok <> "--" ->
  only_args st' = false.
Proof.
  intros Hstep Hoa Hne. revert Hstep. unfold step, store. rewrite Hoa.
  apply String.eqb_neq in Hne. rewrite Hne.
  repeat match goal with
         | |- context [match ?x with _ => _ end] => destruct x
         | |- context [if ?x then _ else _] => destruct x
         | |- (let '(_, _) := ?x in _) = _ -> _ => destruct x
         end;
    try done; by intros [= <-].
Qed.

Lemma steps_only_args argv st st' :
  steps p st argv = inr st' -> only_args st = false -> "--" ∉ argv ->
  only_args st' = false.
Proof.
  revert st. induction argv as [| tok argv IH]; intros st; cbn [steps].
  - by intros [= <-].
  - destruct (step p st tok) as [e | st1] eqn:Hstep; [done |].
    intros Hsteps Hoa Hnin. apply (IH _ Hsteps).
    + eapply step_only_args; [done | done |]. intros ->. apply Hnin.
      apply list_elem_of_here.
    + intros Hin. apply Hnin. by apply list_elem_of_further.
Qed.

Lemma bind_positionals_insert ps texts n kw k v :
  Forall (fun a => dest a <> k) ps ->
  bind_positionals ps texts n = inr kw ->
  bind_positionals ps texts (<[k := v]> n) = inr (<[k := v]> kw).
Proof.
  intros Hps. revert texts n.
  induction Hps as [| a ps Ha _ IH]; intros texts n; cbn [bind_positionals].
  - destruct texts; [by intros [= <-] | done].
  - destruct texts as [| t texts]; [done |].
    destruct (convert _ _) as [v' |]; [| done].
    intros H. rewrite insert_insert_ne by done. by apply IH.
Qed.

(** An option and its argument, read by a parser that waits for no
    argument and has not seen [--]. *)
Lemma step_option st name text a v :
  pending st = None -> only_args st = false ->
  Py.startswith name "--" = true -> name <> "--" ->
  Py.contains "=" name = false ->
  resolve p name = Opt a ->
  convert (type a) text = Some v ->
  let st' := {| ns := <[dest a := v]> (ns st); args := args st;
                extras := extras st; pending := None;
                only_args := false |} in
  (looks_like_option text = false -> steps p st [name; text] = inr st') /\
  steps p st [name +:+ String "=" text] = inr st'.
Proof.
  intros Hpend Hoa Hstart Hne Heq Hres Hconv st'.
  destruct (startswith_dashes _ Hstart) as [rest ->].
  assert (Hh : forall s, String.eqb (String "-" (String "-" s)) "-h" = false)
    by done.
  split.
  - intros Htext. cbn [steps]. unfold step at 1.
    rewrite Hpend, Hoa, looks_like_option_dashes. cbn [orb negb].
    apply String.eqb_neq in Hne. rewrite Hne, Hh, Hstart.
    rewrite (partition_absent _ _ Heq), Hres.
    unfold step, store. cbn [pending]. by rewrite Htext, Hconv.
  - cbn [steps]. unfold step, store. rewrite Hpend, Hoa.
    rewrite !append_cons, looks_like_option_dashes. cbn [orb negb].
    rewrite Hh. rewrite <- !append_cons.
    assert (Hs : Py.startswith
                   (String "-" (String "-" rest) +:+ String "=" text) "--"
                 = true).
    { rewrite !append_cons. unfold Py.startswith. cbn [String.prefix].
      destruct (ascii_dec "-" "-"); [| done]. by destruct (rest +:+ _). }
    rewrite Hs, (partition_first _ _ _ Heq), Hres, Hconv.
    destruct (String.eqb _ "--") eqn:Hdd; [| done].
    apply String.eqb_eq in Hdd. rewrite !append_cons in Hdd.
    injection Hdd as Hdd. by destruct rest.
Qed.

End Options.

(** X13. Options are read from left to right, and the last one wins.
    After a command line the parser accepts (without the word [--]), one
    more option with its argument, written [--name value] or
    [--name=value], changes the entry of that option in the namespace to the
    converted value and nothing else, whatever was given for it before;
    [--name] may be any beginning of an option string that only one option
    has, so [--ep] stands for [--epochs]. *)
Theorem later_option_wins argv kw name text a v :
  Argparse.parse_args Argparse.parser argv = inr kw ->
  "--" ∉ argv ->
  Py.startswith name "--" = true ->
  Py.contains "=" name = false ->
  Argparse.resolve Argparse.parser name = Argparse.Opt a ->
  Argparse.convert (Argparse.type a) text = Some v ->
  (Argparse.looks_like_option text = false ->
   Argparse.parse_args Argparse.parser (argv ++ [name; text])
   = inr (<[Argparse.dest a := v]> kw)) /\
  Argparse.parse_args Argparse.parser (argv ++ [name +:+ String "=" text])
  = inr (<[Argparse.dest a := v]> kw).
Proof.
  intros Hparse Hnin Hstart Heq Hres Hconv.
  assert (Hne : name <> "--").
  { intros ->. by vm_compute in Hres. }
  assert (Hdest : Argparse.dest a <> "data_dir").
  { assert (Hall : Forall (fun a' => Argparse.dest a' <> "data_dir")
                     (Argparse.optionals Argparse.parser))
      by by repeat constructor.
    rewrite Forall_forall in Hall. apply Hall. by eapply resolve_optional. }
  revert Hparse. unfold Argparse.parse_args. rewrite !steps_app.
  destruct (Argparse.steps _ _ argv) as [e | st] eqn:Hsteps; [done |].
  destruct (Argparse.pending st) eqn:Hpend; [done |].
  destruct (Argparse.extras st) eqn:Hext; [| done].
  intros Hbind.
  pose proof (steps_only_args _ _ _ _ Hsteps eq_refl Hnin) as Hoa.
  destruct (step_option Argparse.parser st name text a v Hpend Hoa Hstart Hne
              Heq Hres Hconv) as [H1 H2].
  assert (Hpos : Forall (fun a' => Argparse.dest a' <> Argparse.dest a)
                   (Argparse.positionals Argparse.parser)).
  { repeat constructor. cbn. congruence. }
  split.
  - intros Htext. rewrite (H1 Htext). cbn [Argparse.pending Argparse.extras].
    rewrite Hext. cbn [Argparse.args Argparse.ns].
    by apply bind_positionals_insert.
  - rewrite H2. cbn [Argparse.pending Argparse.extras].
    rewrite Hext. cbn [Argparse.args Argparse.ns].
    by apply bind_positionals_insert.
Qed.

Lemma later_option_wins_witness :
  (Argparse.looks_like_option "3" = false ->
   Argparse.parse_args Argparse.parser
     (["data"; "--epochs"; "5"] ++ ["--ep"; "3"])
   = inr (<["nb_epochs" := PyInt 3]>
            (<["nb_epochs" := PyInt 5]> Demo.namespace))) /\
  Argparse.parse_args Argparse.parser
    (["data"; "--epochs"; "5"] ++ ["--ep" +:+ String "=" "3"])
  = inr (<["nb_epochs" := PyInt 3]>
           (<["nb_epochs" := PyInt 5]> Demo.namespace)).
Proof.
  apply (later_option_wins ["data"; "--epochs"; "5"]
           (<["nb_epochs" := PyInt 5]> Demo.namespace) "--ep" "3"
           {| Argparse.flag := "--epochs"; Argparse.type := Argparse.TInt;
              Argparse.dest := "nb_epochs";
              Argparse.default := Some (PyInt 1500);
              Argparse.help := "number of iterations" |} (PyInt 3)).
  - reflexivity.
  - apply (bool_decide_unpack _). by vm_compute.
  - reflexivity.
  - reflexivity.
  - reflexivity.
  - reflexivity.
Defined.

Section Unknown.

Import Argparse.

Variable p : list Argument.

Lemma step_extras st tok st' :
  step p st tok = inr st' ->
  extras st' = extras st \/ extras st' = extras st ++ [tok].
Proof.
  unfold step, store.
  repeat match goal with
         | |- context [match ?x with _ => _ end] => destruct x
         | |- context [if ?x then _ else _] => destruct x
         | |- (let '(_, _) := ?x in _) = _ -> _ => destruct x
         end;
    try done; intros [= <-]; cbn; auto.
Qed.

Lemma steps_extras argv st st' :
  steps p st argv = inr st' -> extras st' = [] -> extras st = [].
Proof.
  revert st. induction argv as [| tok argv IH]; intros st; cbn [steps].
  - by intros [= <-].
  - destruct (step p st tok) as [e | st1] eqn:Hstep; [done |].
    intros Hsteps Hnil. specialize (IH _ Hsteps Hnil).
    destruct (step_extras _ _ _ Hstep) as [Heq | Heq]; rewrite IH in Heq.
    + done.
    + by destruct (extras st).
Qed.

(** A word that looks like an option and is read without complaint is an
    option of the parser. *)
Lemma step_known st tok st' :
  step p st tok = inr st' -> only_args st = false -> tok <> "--" ->
  extras st' = [] -> looks_like_option tok = true ->
  is_Some (selected p tok).
Proof.
  intros Hstep Hoa Hne Hnil Hopt. revert Hstep.
  unfold step, store, selected. rewrite Hoa, Hopt.
  apply String.eqb_neq in Hne. rewrite Hne. cbn [orb negb andb].
  destruct (pending st); [done |].
  destruct (String.eqb tok "-h"); [done |].
  destruct (Py.startswith tok "--").
  - destruct (Py.partition "=" tok) as [name explicit]. cbn [fst].
    destruct (resolve p name) as [a | | |]; try done; try (by eauto).
    intros [= <-]. cbn in Hnil. by destruct (extras st).
  - intros [= <-]. cbn in Hnil. by destruct (extras st).
Qed.

Lemma steps_known argv st st' :
  steps p st argv = inr st' -> only_args st = false -> "--" ∉ argv ->
  extras st' = [] ->
  Forall (fun tok => looks_like_option tok = true -> is_Some (selected p tok))
    argv.
Proof.
  revert st. induction argv as [| tok argv IH]; intros st; cbn [steps];
    [by constructor |].
  destruct (step p st tok) as [e | st1] eqn:Hstep; [done |].
  intros Hsteps Hoa Hnin Hnil.
  assert (Hne : tok <> "--").
  { intros ->. apply Hnin. apply list_elem_of_here. }
  constructor.
  - intros Hopt. eapply step_known; try done. by eapply steps_extras.
  - apply (IH _ Hsteps); [by eapply step_only_args | | done].
    intros Hin. apply Hnin. by apply list_elem_of_further.
Qed.

End Unknown.

(** X14. The parser ignores no option.  On a command line it accepts
    (without the word [--], and with no blank inside a word), every word
    that looks like an option, that is starts with a dash and is not a
    negative number, is an option of the script, written in full or
    shortened to a beginning no other option has: a misspelt or unknown
    option, or one with a single dash, makes the script exit instead of
    training with a default.  (A word with a blank in it that names no
    option is taken by [argparse] as an argument.) *)
Theorem no_option_is_ignored argv kw :
  Argparse.parse_args Argparse.parser argv = inr kw ->
  "--" ∉ argv ->
  Forall (fun tok => Py.contains " " tok = false) argv ->
  Forall (fun tok => Argparse.looks_like_option tok = true ->
                     is_Some (selected Argparse.parser tok)) argv.
Proof.
  unfold Argparse.parse_args.
  destruct (Argparse.steps _ _ _) as [e | st] eqn:Hsteps; [done |].
  destruct (Argparse.pending st); [done |].
  destruct (Argparse.extras st) eqn:Hext; [| done].
  intros _ Hnin _. by eapply steps_known.
Qed.

Lemma no_option_is_ignored_witness :
  Forall (fun tok => Argparse.looks_like_option tok = true ->
                     is_Some (selected Argparse.parser tok))
    ["data"; "--epochs"; "5"].
Proof.
  apply (no_option_is_ignored ["data"; "--epochs"; "5"]
           (<["nb_epochs" := PyInt 5]> Demo.namespace)).
  - reflexivity.
  - apply (bool_decide_unpack _). by vm_compute.
  - repeat constructor.
Defined.

Section BadValue.

Import Argparse.

Variable p : list Argument.

Lemma step_option_refused st name text a :
  pending st = None -> only_args st = false ->
  Py.startswith name "--" = true -> name <> "--" ->
  Py.contains "=" name = false ->
  resolve p name = Opt a ->
  steps p st [name] = inr {| ns := ns st; args := args st;
                             extras := extras st; pending := Some a;
                             only_args := false |} /\
  (convert (type a) text = None ->
   steps p st [name; text] = inl (SystemExit 2)).
Proof.
  intros Hpend Hoa Hstart Hne Heq Hres.
  destruct (startswith_dashes _ Hstart) as [rest ->].
  assert (Hh : String.eqb (String "-" (String "-" rest)) "-h" = false)
    by done.
  assert (Hfirst : step p st (String "-" (String "-" rest))
                   = inr {| ns := ns st; args := args st;
                            extras := extras st; pending := Some a;
                            only_args := false |}).
  { unfold step. rewrite Hpend, Hoa, looks_like_option_dashes.
    cbn [orb negb]. apply String.eqb_neq in Hne.
    by rewrite Hne, Hh, Hstart, (partition_absent _ _ Heq), Hres. }
  split; cbn [steps]; rewrite Hfirst; [done |].
  intros Hconv. unfold step, store. cbn [pending].
  rewrite Hconv. by destruct (looks_like_option text).
Qed.

End BadValue.

(** X15. An option needs its argument, of the right kind.  After a command
    line the parser accepts (without the word [--]), an option of the script
    left without argument at the end, or followed by a word its type does
    not read ([int] for [--gpu], [--epochs], [--steps_per_epoch] and
    [--batch_size], [float] for [--lr], [--prior_lambda] and
    [--image_sigma]), makes the parser exit with status 2. *)
Theorem ill_typed_option_is_refused argv kw name text a :
  Argparse.parse_args Argparse.parser argv = inr kw ->
  "--" ∉ argv ->
  Py.startswith name "--" = true ->
  Py.contains "=" name = false ->
  Argparse.resolve Argparse.parser name = Argparse.Opt a ->
  Argparse.parse_args Argparse.parser (argv ++ [name]) = inl (SystemExit 2) /\
  (Argparse.convert (Argparse.type a) text = None ->
   Argparse.parse_args Argparse.parser (argv ++ [name; text])
   = inl (SystemExit 2)).
Proof.
  intros Hparse Hnin Hstart Heq Hres.
  assert (Hne : name <> "--").
  { intros ->. by vm_compute in Hres. }
  revert Hparse. unfold Argparse.parse_args. rewrite !steps_app.
  destruct (Argparse.steps _ _ argv) as [e | st] eqn:Hsteps; [done |].
  destruct (Argparse.pending st) eqn:Hpend; [done |].
  destruct (Argparse.extras st) eqn:Hext; [| done].
  intros _.
  pose proof (steps_only_args _ _ _ _ Hsteps eq_refl Hnin) as Hoa.
  destruct (step_option_refused Argparse.parser st name text a Hpend Hoa
              Hstart Hne Heq Hres) as [H1 H2].
  split.
  - by rewrite H1.
  - intros Hconv. by rewrite (H2 Hconv).
Qed.

Lemma ill_typed_option_is_refused_witness :
  Argparse.parse_args Argparse.parser (["data"] ++ ["--gpu"])
  = inl (SystemExit 2) /\
  (Argparse.convert Argparse.TInt "first" = None ->
   Argparse.parse_args Argparse.parser (["data"] ++ ["--gpu"; "first"])
   = inl (SystemExit 2)).
Proof.
  apply (ill_typed_option_is_refused ["data"] Demo.namespace "--gpu" "first"
           {| Argparse.flag := "--gpu"; Argparse.type := Argparse.TInt;
              Argparse.dest := "gpu_id"; Argparse.default := Some (PyInt 0);
              Argparse.help := "gpu id number" |}).
  - reflexivity.
  - apply (bool_decide_unpack _). by vm_compute.
  - reflexivity.
  - reflexivity.
  - reflexivity.
Defined.

(** ** The default initial weights *)

(** X16. Out of the box the script needs its default weights file.  When
    the command line is accepted and selects no [--load_model_file], and the
    file [../models/miccai2018_10_02_init1.h5] does not exist, the script
    raises before it writes a checkpoint or trains: [load_model_file] is then
    that path, not [None]. *)
Theorem default_weights_must_exist fw argv kw w w' r :
  Argparse.parse_args Argparse.parser argv = inr kw ->
  Forall (fun tok => selected Argparse.parser tok <> Some "load_model_file")
    argv ->
  Fs.lookup (fs w) "../models/miccai2018_10_02_init1.h5" = None ->
  main fw argv w = (w', r) ->
  kw !! "load_model_file"
  = Some (PyStr "../models/miccai2018_10_02_init1.h5") /\
  exists e evs,
    r = inl e /\ trace w' = trace w ++ evs /\
    Forall (fun ev => save_or_train ev = false) evs.
Proof.
  intros Hparse Hsel Hl Hrun.
  assert (Hlm : kw !! "load_model_file"
                = Some (PyStr "../models/miccai2018_10_02_init1.h5")).
  { eapply parse_args_default; [| | exact Hsel | exact Hparse].
    - reflexivity.
    - by repeat constructor. }
  split; [done |].
  destruct (parse_args_data_dir _ _ Hparse) as (data_dir & _ & Hdd).
  destruct (parse_args_kinds _ _ Hparse)
    as ((? & Haf & atlas_file & ->) & (? & Hmd & model_dir & ->) &
        (? & Hgpu & gpu_id & ->) & (lr & Hlr & _) &
        (? & Hep & nb_epochs & ->) & (prior_lambda & Hpl & _) &
        (image_sigma & His & _) & (? & Hsp & steps_per_epoch & ->) &
        (? & Hbs & batch_size & ->) & _).
  revert Hrun. unfold main, bind. rewrite Hparse. cbn [lift ret].
  unfold call_train.
  rewrite Hdd, Haf, Hmd, Hgpu, Hlr, Hep, Hpl, His, Hsp, Hbs, Hlm.
  intros Hrun.
  destruct (train_without_weights _ _ _ _ _ _ _ _ _ _ _ _ _ _ _ _ Hl Hrun)
    as (e & evs & -> & Ht & Hall).
  by eauto.
Qed.

Lemma default_weights_must_exist_witness :
  Demo.namespace !! "load_model_file"
  = Some (PyStr "../models/miccai2018_10_02_init1.h5") /\
  exists e evs,
    snd Sample.default_run = inl e /\
    trace (fst Sample.default_run) = trace Sample.fresh_world ++ evs /\
    Forall (fun ev => save_or_train ev = false) evs.
Proof.
  apply (default_weights_must_exist Demo.fw ["data"] Demo.namespace
           Sample.fresh_world).
  - reflexivity.
  - repeat constructor; by vm_compute.
  - reflexivity.
  - vm_compute. reflexivity.
Defined.

(** ** A data folder that is not there *)

Lemma npz_files_in_missing fs d :
  d <> "." -> Fs.isdir fs d = false -> npz_files_in fs d = [].
Proof.
  intros Hd Hdir. unfold npz_files_in, Fs.listdir. rewrite Hdir.
  apply String.eqb_neq in Hd. by rewrite Hd.
Qed.

(** X17. A data folder that does not exist is reported as a folder without
    data.  When [data_dir] is a plain name (not empty, not [.], no trailing
    slash, none of [*], [?], [[]) that is not a directory, [glob] finds
    nothing and says nothing, and a run that has its atlas raises the
    assertion ["Could not find any training data"], with the file system,
    the environment and the session as they were. *)
Theorem missing_data_dir_is_reported_as_no_data
  fw data_dir atlas_file model_dir gpu_id lr nb_epochs prior_lambda image_sigma
  steps_per_epoch batch_size load_model_file initial_epoch w sh data :
  data_dir <> "" -> data_dir <> "." ->
  Py.endswith data_dir "/" = false -> Fnmatch.has_magic data_dir = false ->
  Fs.isdir (fs w) data_dir = false ->
  read_atlas (fs w) atlas_file = inr (sh, data) ->
  exists w',
    train fw data_dir atlas_file model_dir gpu_id lr nb_epochs prior_lambda
      image_sigma steps_per_epoch batch_size load_model_file initial_epoch w
    = (w', inl (AssertionError "Could not find any training data")) /\
    trace w' = trace w ++ [EvNpLoad atlas_file;
                           EvGlob (OsPath.join data_dir "*.npz");
                           EvShuffle 0] /\
    fs w' = fs w /\ environ w' = environ w /\ session w' = session w.
Proof.
  intros Hne Hdot Hend Hmagic Hdir Hatlas.
  assert (Hglob : Glob.glob (fs w) (OsPath.join data_dir "*.npz") = []).
  { rewrite glob_literal_dir by done. by apply npz_files_in_missing. }
  unfold train, bind.
  rewrite (load_atlas_ok _ _ _ _ Hatlas), prepare_data_files_eq. simpl.
  rewrite Hglob. simpl. eexists. split; [reflexivity |]. simpl.
  split; [by rewrite <- !app_assoc | done].
Qed.

Lemma missing_data_dir_is_reported_as_no_data_witness :
  exists w',
    train Demo.fw "nowhere" "atlas.npz" "models" 0 (PyFloat (1 # 10000)) 2
      (PyInt 10) (PyFloat (2 # 100)) 5 1 None 0 Demo.world
    = (w', inl (AssertionError "Could not find any training data")) /\
    trace w' = trace Demo.world ++ [EvNpLoad "atlas.npz";
                                    EvGlob (OsPath.join "nowhere" "*.npz");
                                    EvShuffle 0] /\
    fs w' = fs Demo.world /\ environ w' = environ Demo.world /\
    session w' = session Demo.world.
Proof.
  apply (missing_data_dir_is_reported_as_no_data Demo.fw "nowhere" "atlas.npz"
           "models" 0 (PyFloat (1 # 10000)) 2 (PyInt 10) (PyFloat (2 # 100))
           5 1 None 0 Demo.world [2; 2; 2]%nat [1; 2; 3; 4; 5; 6; 7; 8]%Q).
  - discriminate.
  - discriminate.
  - reflexivity.
  - reflexivity.
  - reflexivity.
  - reflexivity.
Defined.

(** ** The order of the checkpoints *)

Lemma checkpoint_paths_plain m e n :
  Py.contains "{" m = false -> Py.contains "}" m = false ->
  checkpoint_paths (OsPath.join m "{epoch:02d}.h5") e n
  = (fun k => OsPath.join m (Py.format_02d k +:+ ".h5"))
    <$> seqZ (e + 1) (Z.of_nat n).
Proof.
  intros Ho Hc. revert e. induction n as [| n IH]; intros e; [done |].
  cbn [checkpoint_paths]. rewrite format_plain_dir, IH by done.
  rewrite (seqZ_cons (e + 1)) by lia. cbn [fmap list_fmap app].
  do 3 f_equal; lia.
Qed.

(** X18. Checkpoints are written in the order of the epochs.  With no
    brace in [model_dir], the calls to [model.save] of a run that returns
    are, in this order, on [model_dir/NN.h5] for [NN = initial_epoch],
    [initial_epoch + 1], ..., up to [nb_epochs] (zero-padded to two digits):
    the checkpoint written at the end of the epoch that Keras counts as [e]
    is named [e + 1].  A run that raises has made a first part of these
    calls. *)
Theorem checkpoints_follow_the_epochs
  fw data_dir atlas_file model_dir gpu_id lr nb_epochs prior_lambda image_sigma
  steps_per_epoch batch_size load_model_file initial_epoch w w' r :
  Py.contains "{" model_dir = false -> Py.contains "}" model_dir = false ->
  train fw data_dir atlas_file model_dir gpu_id lr nb_epochs prior_lambda
    image_sigma steps_per_epoch batch_size load_model_file initial_epoch w
  = (w', r) ->
  let paths :=
    (fun e => OsPath.join model_dir (Py.format_02d e +:+ ".h5"))
    <$> seqZ initial_epoch (Z.max 0 (nb_epochs - initial_epoch) + 1) in
  exists evs, trace w' = trace w ++ evs /\
    match r with
    | inr _ => omap save_of evs = paths
    | inl _ => omap save_of evs `prefix_of` paths
    end.
Proof.
  intros Ho Hc Hrun paths.
  destruct (follows_save_of_train _ _ _ _ _ _ _ _ _ _ _ _ _ _ _ _ Hrun)
    as (evs & Ht & Hs).
  exists evs. split; [done |].
  rewrite checkpoint_paths_plain in Hs by done.
  assert (Hpaths : paths
            = OsPath.join model_dir (Py.format_02d initial_epoch +:+ ".h5")
              :: ((fun k => OsPath.join model_dir (Py.format_02d k +:+ ".h5"))
                  <$> seqZ (initial_epoch + 1)
                        (Z.of_nat (Z.to_nat (nb_epochs - initial_epoch))))).
  { unfold paths. rewrite (seqZ_cons initial_epoch) by lia.
    cbn [fmap list_fmap]. do 3 f_equal; lia. }
  by rewrite Hpaths.
Qed.

Lemma checkpoints_follow_the_epochs_witness :
  let paths :=
    (fun e => OsPath.join "models" (Py.format_02d e +:+ ".h5"))
    <$> seqZ 0 (Z.max 0 (2 - 0) + 1) in
  exists evs, trace (fst Demo.run) = trace Demo.world ++ evs /\
    omap save_of evs = paths.
Proof.
  apply (checkpoints_follow_the_epochs Demo.fw "data" "atlas.npz" "models" 0
           (PyFloat (1 # 10000)) 2 (PyInt 10) (PyFloat (2 # 100)) 5 1 None 0
           Demo.world (fst Demo.run) (inr tt)).
  - reflexivity.
  - reflexivity.
  - vm_compute. reflexivity.
Defined.
